(** * The AI Artistry reasoning engine (reasoning-engine.js), embedded in Rocq

    The engine is dynamically typed JavaScript working on JSON documents, so
    the embedding is over an untyped [value] universe: property reads and
    writes, truthiness, [typeof], the abstract comparisons, template literals
    and the string methods are written out as the language defines them, and
    a thrown exception is a [Throw] completion.  The host facilities the file
    calls but does not define (JSON.parse, JSON.stringify, number formatting,
    the clock, [window] and [fetch]) are the fields of the class [Host]; a
    computable instance [js_host] is defined further down and used wherever
    a statement is evaluated on a concrete document.

    Values are trees: the documents come from JSON.parse, where no two
    properties hold one and the same object, so an assignment to a nested
    property is written as rebuilding the path that leads to it.

    Strings are [String.string]; one character stands for one UTF-16 code
    unit, so the model covers the code units below 256. *)

From Stdlib Require Import Bool Arith ZArith Lia List String Ascii Floats.
From Stdlib Require Import DecimalString.
From Stdlib Require DecimalNat.
Import ListNotations.
Set Warnings "-inexact-float,-register-all".
Open Scope string_scope.

(* ====================================================================== *)
(** ** Strings: the methods of String.prototype the engine calls *)
(* ====================================================================== *)

Module Str.

Definition dquote : ascii := "034"%char.
Definition newline : ascii := "010"%char.
Definition backtick : ascii := "096"%char.

(** The markdown fence: three backticks. *)
Definition fence : string := "```".
Definition fence_json : string := "```json".

(** [s.includes(pat)] *)
Fixpoint includes (s pat : string) : bool :=
  prefix pat s ||
  match s with
  | EmptyString => false
  | String _ rest => includes rest pat
  end.

Fixpoint drop (n : nat) (s : string) : string :=
  match n, s with
  | O, _ => s
  | S k, String _ rest => drop k rest
  | S _, EmptyString => EmptyString
  end.

(** [s.replace(/PAT\n?/g, '')] for a literal, non-empty PAT: every match,
    left to right, is deleted together with one line feed that follows it. *)
Fixpoint remove_marker_fuel (fuel : nat) (pat s : string) : string :=
  match fuel with
  | O => s
  | S fuel' =>
      match s with
      | EmptyString => EmptyString
      | String c rest =>
          if prefix pat s then
            let after := drop (length pat) s in
            remove_marker_fuel fuel' pat
              match after with
              | String c' rest' => if Ascii.eqb c' newline then rest' else after
              | EmptyString => after
              end
          else String c (remove_marker_fuel fuel' pat rest)
      end
  end.

Definition remove_marker (pat s : string) : string :=
  remove_marker_fuel (S (length s)) pat s.

(** WhiteSpace and LineTerminator code units below 256: TAB, LF, VT, FF, CR,
    SP and NBSP. *)
Definition is_space (c : ascii) : bool :=
  let n := nat_of_ascii c in
  ((9 <=? n)%nat && (n <=? 13)%nat) || (n =? 32)%nat || (n =? 160)%nat.

Fixpoint trim_start (s : string) : string :=
  match s with
  | String c rest => if is_space c then trim_start rest else s
  | EmptyString => EmptyString
  end.

Fixpoint trim_end (s : string) : string :=
  match s with
  | EmptyString => EmptyString
  | String c rest =>
      match trim_end rest with
      | EmptyString => if is_space c then EmptyString else String c EmptyString
      | rest' => String c rest'
      end
  end.

(** [s.trim()] *)
Definition trim (s : string) : string := trim_end (trim_start s).

(** [s.substring(0, n)] *)
Definition substring0 (n : nat) (s : string) : string := substring 0 n s.

(** [xs.join(sep)] on strings. *)
Definition join (sep : string) (xs : list string) : string := concat sep xs.

(** Decimal rendering of a non-negative integer, as [`${i + 1}`] gives it. *)
Definition of_nat (n : nat) : string := NilEmpty.string_of_uint (Nat.to_uint n).

(** The canonical array index a property key denotes, if any. *)
Definition to_index (k : string) : option nat :=
  match NilEmpty.uint_of_string k with
  | Some u => let n := Nat.of_uint u in if of_nat n =? k then Some n else None
  | None => None
  end.

(** JSON documents are written below with a single quote where JSON has a double
    quote; [q] puts the double quotes back. *)
Fixpoint q (s : string) : string :=
  match s with
  | EmptyString => EmptyString
  | String c rest => String (if Ascii.eqb c "'"%char then dquote else c) (q rest)
  end.

End Str.

(* ====================================================================== *)
(** ** Values, completions and the host *)
(* ====================================================================== *)

(** A JavaScript value as JSON.parse builds it, plus [undefined].  An array
    carries, besides its elements, the named properties assigned to it
    (arrays are objects: [a.confidence_score = 0.8] succeeds on an array).
    An object is its own properties in insertion order. *)
Inductive value : Type :=
| VUndefined
| VNull
| VBool (b : bool)
| VNum (x : float)
| VStr (s : string)
| VArr (elems : list value) (own : list (string * value))
| VObj (props : list (string * value)).

(** What a [throw] carries.  [Error msg] is [new Error(msg)]. *)
Inductive exn : Type :=
| TypeError
| SyntaxError
| Error (message : string).

(** The completion of an evaluation: a value, or a thrown exception. *)
Inductive completion (A : Type) : Type :=
| Normal (a : A)
| Throw (e : exn).
Arguments Normal {A} a.
Arguments Throw {A} e.

Definition bind {A B : Type} (c : completion A) (k : A -> completion B) : completion B :=
  match c with
  | Normal a => k a
  | Throw e => Throw e
  end.

Declare Scope js_scope.
Delimit Scope js_scope with js.
Notation "x <- c ;; k" := (bind c (fun x => k))
  (at level 61, c at next level, right associativity) : js_scope.
Open Scope js_scope.

(** The number of a non-negative integer (exact below 2^53). *)
Definition num_of_nat (n : nat) : float :=
  SF2Prim (binary_normalize prec emax (Z.of_nat n) 0 false).

Definition array (elems : list value) : value := VArr elems [].

(** *** Property tables *)

Fixpoint lookup (k : string) (ps : list (string * value)) : option value :=
  match ps with
  | [] => None
  | (k', v) :: rest => if k' =? k then Some v else lookup k rest
  end.

(** Writing a key keeps its place when it is there, and appends otherwise. *)
Fixpoint update (k : string) (v : value) (ps : list (string * value)) : list (string * value) :=
  match ps with
  | [] => [(k, v)]
  | (k', v') :: rest => if k' =? k then (k, v) :: rest else (k', v') :: update k v rest
  end.

Definition or_undefined (o : option value) : value :=
  match o with
  | Some v => v
  | None => VUndefined
  end.

(** [o[k]] / [o.k].  Reading a property of [null] or [undefined] throws;
    a primitive has no data property but a string's [length] and indices.
    Members inherited from the prototypes are functions, not data: they are
    outside [value], and the engine reads no property under such a name. *)
Definition get_prop (o : value) (k : string) : completion value :=
  match o with
  | VUndefined | VNull => Throw TypeError
  | VBool _ | VNum _ => Normal VUndefined
  | VStr s =>
      if k =? "length" then Normal (VNum (num_of_nat (length s)))
      else match Str.to_index k with
           | Some i => Normal match get i s with
                              | Some c => VStr (String c EmptyString)
                              | None => VUndefined
                              end
           | None => Normal VUndefined
           end
  | VArr elems own =>
      if k =? "length" then Normal (VNum (num_of_nat (List.length elems)))
      else match Str.to_index k with
           | Some i => Normal (nth i elems VUndefined)
           | None => Normal (or_undefined (lookup k own))
           end
  | VObj props => Normal (or_undefined (lookup k props))
  end.

(** [o.k = v] in strict mode (the file is an ES module), for a key that is
    neither [length] nor an array index: assigning to a property of a
    primitive throws, as it does on [null] and [undefined]. *)
Definition set_prop (o : value) (k : string) (v : value) : completion value :=
  match o with
  | VObj props => Normal (VObj (update k v props))
  | VArr elems own => Normal (VArr elems (update k v own))
  | _ => Throw TypeError
  end.

(** The own enumerable properties an object spread [{...o}] copies. *)
Fixpoint indexed (i : nat) (elems : list value) : list (string * value) :=
  match elems with
  | [] => []
  | v :: rest => (Str.of_nat i, v) :: indexed (S i) rest
  end.

Fixpoint chars (i : nat) (s : string) : list (string * value) :=
  match s with
  | EmptyString => []
  | String c rest => (Str.of_nat i, VStr (String c EmptyString)) :: chars (S i) rest
  end.

Definition own_props (o : value) : list (string * value) :=
  match o with
  | VObj props => props
  | VArr elems own => (indexed 0 elems ++ own)%list
  | VStr s => chars 0 s
  | _ => []
  end.

(** An object literal [{k1: v1, ...}] evaluated left to right over [base]. *)
Definition literal (base fields : list (string * value)) : value :=
  VObj (fold_left (fun ps kv => update (fst kv) (snd kv) ps) fields base).

(** *** Conversions and tests *)

(** ToBoolean. *)
Definition truthy (v : value) : bool :=
  match v with
  | VUndefined | VNull => false
  | VBool b => b
  | VNum x => negb (PrimFloat.eqb x 0 || is_nan x)
  | VStr s => negb (s =? "")
  | VArr _ _ | VObj _ => true
  end.

(** [typeof v === 'number'] *)
Definition is_number (v : value) : bool :=
  match v with
  | VNum _ => true
  | _ => false
  end.

(** [typeof v === 'string'] *)
Definition is_string (v : value) : bool :=
  match v with
  | VStr _ => true
  | _ => false
  end.

(** [Array.isArray(v)] *)
Definition is_array (v : value) : bool :=
  match v with
  | VArr _ _ => true
  | _ => false
  end.

(** [v === s] for a string literal [s]. *)
Definition is_str (v : value) (s : string) : bool :=
  match v with
  | VStr s' => s' =? s
  | _ => false
  end.

(** [a || b] *)
Definition js_or (a b : value) : value := if truthy a then a else b.

(** An HTTP response as [fetch] resolves it: [ok], [status] and what
    [response.json()] completes with. *)
Record response : Type := {
  ok : bool;
  status : value;
  json : completion value
}.

(** The host: the built-ins and the environment the engine runs against. *)
Class Host : Type := {
  (** [JSON.parse(text)]; [None] is the SyntaxError it throws. *)
  JSON_parse : string -> option value;
  (** [JSON.stringify(v, null, indent)]: a string, or [undefined]. *)
  JSON_stringify : value -> nat -> value;
  (** Number::toString. *)
  Number_toString : float -> string;
  (** StringToNumber. *)
  StringToNumber : string -> float;
  (** [new Date().toISOString()]. *)
  Date_toISOString : string;
  (** [typeof window !== 'undefined']. *)
  window_defined : bool;
  (** [await fetch(url, init)]. *)
  fetch : string -> value -> completion response
}.

(** [xs.map((x, i) => f(x, i))] and [xs.filter(p)], callbacks may throw. *)
Fixpoint map_indexed {A : Type} (f : value -> nat -> completion A) (i : nat) (xs : list value)
  : completion (list A) :=
  match xs with
  | [] => Normal []
  | x :: rest => y <- f x i ;; ys <- map_indexed f (S i) rest ;; Normal (y :: ys)
  end.

Fixpoint filter_by (p : value -> completion bool) (xs : list value) : completion (list value) :=
  match xs with
  | [] => Normal []
  | x :: rest => b <- p x ;; ys <- filter_by p rest ;; Normal (if b then x :: ys else ys)
  end.

(** The elements of [xs] where [xs.method] is the method of that name of
    Array.prototype: [xs] has to be an array, and no property of its own
    may hide the method (it would be data, and calling it a TypeError). *)
Definition array_method (method : string) (xs : value) : completion (list value) :=
  match xs with
  | VArr elems own =>
      match lookup method own with
      | None => Normal elems
      | Some _ => Throw TypeError
      end
  | _ => Throw TypeError
  end.

Section Conversions.
Context `{Host}.

(** ToString, as a template literal and [Array.prototype.join] apply it.
    An object or array converts through its [toString] method; an own
    property of that name (data, so not callable) hides the inherited
    method and leaves nothing to call: a TypeError.  An array whose [join]
    is hidden in the same way prints as an object does. *)
Fixpoint ToString (v : value) : completion string :=
  match v with
  | VUndefined => Normal "undefined"
  | VNull => Normal "null"
  | VBool true => Normal "true"
  | VBool false => Normal "false"
  | VNum x => Normal (Number_toString x)
  | VStr s => Normal s
  | VArr elems own =>
      match lookup "toString" own, lookup "join" own with
      | Some _, _ => Throw TypeError
      | None, Some _ => Normal "[object Array]"
      | None, None =>
          ss <- (fix each (vs : list value) : completion (list string) :=
                   match vs with
                   | [] => Normal []
                   | v' :: rest =>
                       s <- match v' with
                            | VUndefined | VNull => Normal ""
                            | _ => ToString v'
                            end ;;
                       ss <- each rest ;;
                       Normal (s :: ss)
                   end) elems ;;
          Normal (Str.join "," ss)
      end
  | VObj props =>
      match lookup "toString" props with
      | Some _ => Throw TypeError
      | None => Normal "[object Object]"
      end
  end.

(** ToNumber; an array or object goes through its string. *)
Definition ToNumber (v : value) : completion float :=
  match v with
  | VUndefined => Normal nan
  | VNull => Normal 0%float
  | VBool true => Normal 1%float
  | VBool false => Normal 0%float
  | VNum x => Normal x
  | VStr s => Normal (StringToNumber s)
  | VArr _ _ | VObj _ => s <- ToString v ;; Normal (StringToNumber s)
  end.

(** [v >= c], [v < c] and [v > c] against a number literal [c]. *)
Definition js_ge (v : value) (c : float) : completion bool :=
  x <- ToNumber v ;; Normal (PrimFloat.leb c x).
Definition js_lt (v : value) (c : float) : completion bool :=
  x <- ToNumber v ;; Normal (PrimFloat.ltb x c).
Definition js_gt (v : value) (c : float) : completion bool :=
  x <- ToNumber v ;; Normal (PrimFloat.ltb c x).

End Conversions.

(** *** Template literals

    [ts] is the conversion applied to what is substituted: ToString in
    the language, kept as a parameter so that a statement can say which
    values a rendering converts. *)

Inductive piece : Type :=
| Lit (s : string)
| Sub (v : value).

(** [`...${v}...`]: the substitutions are converted from left to right. *)
Fixpoint template (ts : value -> completion string) (ps : list piece) : completion string :=
  match ps with
  | [] => Normal ""
  | Lit s :: rest => r <- template ts rest ;; Normal (s ++ r)
  | Sub v :: rest => s <- ts v ;; r <- template ts rest ;; Normal (s ++ r)
  end.

Definition nl : string := String Str.newline EmptyString.

(** Fixed text written line by line. *)
Definition lines (ls : list string) : string := Str.join nl ls.

(** A template written line by line. *)
Fixpoint unlines (ls : list (list piece)) : list piece :=
  match ls with
  | [] => []
  | [l] => l
  | l :: rest => app l (Lit nl :: unlines rest)
  end.

(** [xs.join(sep)] with the element conversion [ts]; [null] and
    [undefined] elements render empty. *)
Definition join_with (ts : value -> completion string) (sep : string) (xs : list value)
  : completion string :=
  ss <- map_indexed (fun v _ => match v with
                                | VUndefined | VNull => Normal ""
                                | _ => ts v
                                end) 0 xs ;;
  Normal (Str.join sep ss).

(* ====================================================================== *)
(** ** The engine *)
(* ====================================================================== *)

(** What [console.error(label, payload)] receives. *)
Inductive logged : Type :=
| LogExn (e : exn)
| LogStr (s : string).

Definition console : Type := list (string * logged).

(** An evaluation that also writes to the console. *)
Definition Eff (A : Type) : Type := (console * completion A)%type.

Definition lift {A : Type} (c : completion A) : Eff A := ([], c).

Definition ebind {A B : Type} (c : Eff A) (k : A -> Eff B) : Eff B :=
  match c with
  | (out, Normal a) => let (out', r) := k a in ((out ++ out')%list, r)
  | (out, Throw e) => (out, Throw e)
  end.

Notation "x <~ c ;; k" := (ebind c (fun x => k))
  (at level 61, c at next level, right associativity) : js_scope.

(** A destructuring default [{ k = d } = o]: it applies on [undefined] only. *)
Definition destructure (o : value) (k : string) (d : value) : completion value :=
  v <- get_prop o k ;;
  Normal match v with
         | VUndefined => d
         | _ => v
         end.

(** A parameter default [o = {}]. *)
Definition default_object (o : value) : value :=
  match o with
  | VUndefined => VObj []
  | _ => o
  end.

(** *** validateArchitecture *)

Definition required : list string := ["metadata"; "project"; "global_style"; "shots"].

(** [required.filter(field => !arch[field])] *)
Fixpoint missing_fields (arch : value) (fields : list string) : completion (list string) :=
  match fields with
  | [] => Normal []
  | field :: rest =>
      v <- get_prop arch field ;;
      ms <- missing_fields arch rest ;;
      Normal (if truthy v then ms else field :: ms)
  end.

Definition shot_error (i : nat) : exn :=
  Error ("Shot " ++ Str.of_nat (i + 1) ++ " missing full_prompt").

(** The body of the [forEach] callback. *)
Definition check_shot (shot : value) (i : nat) : completion unit :=
  prompt <- get_prop shot "prompt" ;;
  if negb (truthy prompt) then Throw (shot_error i)
  else
    full_prompt <- get_prop prompt "full_prompt" ;;
    if negb (truthy full_prompt) then Throw (shot_error i) else Normal tt.

Fixpoint check_shots (i : nat) (shots : list value) : completion unit :=
  match shots with
  | [] => Normal tt
  | shot :: rest => _ <- check_shot shot i ;; check_shots (S i) rest
  end.

(** [arch.k = arch.k || []] *)
Definition default_array (arch : value) (k : string) : completion value :=
  v <- get_prop arch k ;;
  set_prop arch k (js_or v (array [])).

Definition validateArchitecture (arch : value) : completion value :=
  missing <- missing_fields arch required ;;
  if (0 <? List.length missing)%nat then
    Throw (Error ("Architecture missing required fields: " ++ Str.join ", " missing))
  else
    shots <- get_prop arch "shots" ;;
    elems <- array_method "forEach" shots ;;
    _ <- check_shots 0 elems ;;
    metadata <- get_prop arch "metadata" ;;
    confidence_score <- get_prop metadata "confidence_score" ;;
    arch <- (if negb (is_number confidence_score) then
               metadata' <- set_prop metadata "confidence_score" (VNum 0.8) ;;
               set_prop arch "metadata" metadata'
             else Normal arch) ;;
    arch <- default_array arch "interpretations" ;;
    arch <- default_array arch "missing_info" ;;
    arch <- default_array arch "characters" ;;
    arch <- default_array arch "environments" ;;
    Normal arch.

Section Engine.
Context `{Host}.

(** *** parseResponse *)

(** The text handed to JSON.parse: fences removed, then trimmed. *)
Definition jsonStr (responseText : string) : string :=
  Str.trim
    (if Str.includes responseText Str.fence_json then
       Str.remove_marker Str.fence (Str.remove_marker Str.fence_json responseText)
     else if Str.includes responseText Str.fence then
       Str.remove_marker Str.fence responseText
     else responseText).

Definition parse_failure : exn := Error "Failed to parse architecture response as JSON".

(** A response that is not a string has no [includes], [replace] or [trim]
    to call (an array's [includes] is followed by one of the other two):
    the first lines throw a TypeError, outside the [try]. *)
Definition parseResponse (responseText : value) : Eff value :=
  match responseText with
  | VStr text =>
      match
        match JSON_parse (jsonStr text) with
        | Some parsed => validateArchitecture parsed
        | None => Throw SyntaxError
        end
      with
      | Normal arch => ([], Normal arch)
      | Throw e =>
          ([("Failed to parse response:", LogExn e);
            ("Response was:", LogStr (Str.substring0 500 (jsonStr text)))],
           Throw parse_failure)
      end
  | _ => ([], Throw TypeError)
  end.

(** *** callClaudeAPI *)

Definition callClaudeAPI (userPrompt : string) (apiKey : value) : completion value :=
  if window_defined then
    response <- fetch "/api/generate"
                  (VObj [("method", VStr "POST");
                         ("headers", VObj [("Content-Type", VStr "application/json")]);
                         ("body", JSON_stringify (VObj [("prompt", VStr userPrompt)]) 0)]) ;;
    if negb (ok response) then
      message <- template ToString [Lit "API call failed: "; Sub (status response)] ;;
      Throw (Error message)
    else
      data <- json response ;;
      get_prop data "content"
  else
    Throw (Error "Direct API calls require Node.js environment with Anthropic SDK").

(** *** formatStructuredInput and buildUserPrompt *)

Section Templates.
Variable ts : value -> completion string.

(** [parts.push(s)] *)
Definition push (parts : list string) (s : string) : list string := app parts [s].

(** [if (input.k) parts.push(`Label: ${input.k}`)] *)
Definition push_text (parts : list string) (input : value) (k label : string)
  : completion (list string) :=
  v <- get_prop input k ;;
  if truthy v then
    s <- template ts [Lit label; Sub v] ;;
    Normal (push parts s)
  else Normal parts.

(** [xs.map(f).join(sep)] *)
Definition map_join (xs : value) (f : value -> nat -> completion string) (sep : string)
  : completion string :=
  elems <- array_method "map" xs ;;
  ls <- map_indexed f 0 elems ;;
  Normal (Str.join sep ls).

Definition formatStructuredInput_with (input : value) : completion string :=
  parts <- push_text [] input "concept" "Concept: " ;;
  tone <- get_prop input "tone" ;;
  parts <- (if truthy tone then
              s <- (if is_array tone then
                      elems <- array_method "join" tone ;;
                      joined <- join_with ts ", " elems ;;
                      template ts [Lit "Tone: "; Sub (VStr joined)]
                    else template ts [Lit "Tone: "; Sub tone]) ;;
              Normal (push parts s)
            else Normal parts) ;;
  parts <- push_text parts input "narrative" "Narrative: " ;;
  characters <- get_prop input "characters" ;;
  parts <- (if truthy characters then
              s <- map_join characters
                     (fun c _ =>
                        name <- get_prop c "name" ;;
                        description <- get_prop c "description" ;;
                        template ts [Lit "- "; Sub name; Lit ": "; Sub description]) nl ;;
              Normal (push parts ("Characters:" ++ nl ++ s))
            else Normal parts) ;;
  shots <- get_prop input "shots" ;;
  parts <- (if truthy shots then
              s <- map_join shots
                     (fun s i => template ts [Lit (Str.of_nat (i + 1)); Lit ". "; Sub s]) nl ;;
              Normal (push parts ("Shot ideas:" ++ nl ++ s))
            else Normal parts) ;;
  parts <- push_text parts input "style" "Style notes: " ;;
  parts <- push_text parts input "constraints" "Constraints: " ;;
  Normal (Str.join (nl ++ nl) parts).

(** One line of the references list:
    [`${i + 1}. ${r.description}${r.url ? ` (${r.url})` : ''}`] *)
Definition reference_line (r : value) (i : nat) : completion string :=
  description <- get_prop r "description" ;;
  head <- template ts [Lit (Str.of_nat (i + 1)); Lit ". "; Sub description] ;;
  url <- get_prop r "url" ;;
  tail <- (if truthy url then template ts [Lit " ("; Sub url; Lit ")"] else Normal "") ;;
  Normal (head ++ tail).

Definition buildUserPrompt_with (input options : value) : completion string :=
  platform <- get_prop options "platform" ;;
  shotCount <- get_prop options "shotCount" ;;
  brandContext <- get_prop options "brandContext" ;;
  inputSection <-
    (if is_string input then Normal input
     else
       type <- get_prop input "type" ;;
       if is_str type "text" then get_prop input "content"
       else if is_str type "deck" then
         filename <- get_prop input "filename" ;;
         parsedContent <- get_prop input "parsedContent" ;;
         s <- template ts [Lit "[Parsed from deck: "; Sub filename; Lit ("]" ++ nl ++ nl);
                           Sub parsedContent] ;;
         Normal (VStr s)
       else if is_str type "structured" then
         s <- formatStructuredInput_with input ;; Normal (VStr s)
       else Normal (VStr "")) ;;
  references <- get_prop input "references" ;;
  referencesSection <-
    (if truthy references then
       len <- get_prop references "length" ;;
       positive <- js_gt len 0 ;;
       if positive then
         s <- map_join references reference_line nl ;;
         Normal (nl ++ "## Visual References" ++ nl ++ s)
       else Normal ""
     else Normal "") ;;
  head <- template ts (unlines [
    [];
    [Lit "## Creative Input"];
    [];
    [Sub inputSection];
    [Lit referencesSection];
    [];
    [Lit "## Requirements"];
    [];
    [Lit "- Target platform: "; Sub platform];
    [Lit "- Number of shots: ";
     Sub (js_or shotCount (VStr "infer from content (typically 4-8 for a :15-:30 spot)"))];
    [Lit "- Output format: Complete JSON matching the prompt_architecture_schema"];
    []
  ]) ;;
  brand <- (if truthy brandContext then template ts [Lit "- Brand context: "; Sub brandContext]
            else Normal "") ;;
  tail <- template ts (unlines [
    [];
    [];
    [Lit "## Instructions"];
    [];
    [Lit "Analyze this creative input and produce a complete prompt architecture."];
    [];
    [Lit "You MUST include:"];
    [Lit "1. All required schema fields (metadata, project, global_style, shots)"];
    [Lit "2. Copy/paste ready prompts for each shot in shots[].prompt.full_prompt"];
    [Lit "3. Component breakdown in shots[].prompt.prompt_components"];
    [Lit "4. All interpretive decisions you made in the interpretations[] array"];
    [Lit "5. Any questions that would improve the output in missing_info[]"];
    [];
    [Lit "For EACH shot prompt, structure it as:"];
    [Lit "[Subject with full character description if applicable] + [Action/motion] + [Environment] + [Lighting] + [Camera/framing] + [Style/quality markers]"];
    [];
    [Lit "Output valid JSON only. No markdown, no explanation outside the JSON."];
    []
  ]) ;;
  Normal (head ++ brand ++ tail).

End Templates.

Definition formatStructuredInput : value -> completion string :=
  formatStructuredInput_with ToString.

Definition buildUserPrompt : value -> value -> completion string :=
  buildUserPrompt_with ToString.

(** *** generateArchitecture *)

Definition generateArchitecture (creativeInput options : value) : Eff value :=
  let options := default_object options in
  platform <~ lift (destructure options "platform" (VStr "platform-agnostic")) ;;
  shotCount <~ lift (destructure options "shotCount" VNull) ;;
  brandContext <~ lift (destructure options "brandContext" VNull) ;;
  apiKey <~ lift (destructure options "apiKey" VNull) ;;
  userPrompt <~ lift (buildUserPrompt creativeInput
                        (VObj [("platform", platform);
                               ("shotCount", shotCount);
                               ("brandContext", brandContext)])) ;;
  response <~ lift (callClaudeAPI userPrompt apiKey) ;;
  architecture <~ parseResponse response ;;
  lift (metadata <- get_prop architecture "metadata" ;;
        set_prop architecture "metadata"
          (literal (own_props metadata)
             [("schema_version", VStr "1.0.0");
              ("created_at", VStr Date_toISOString);
              ("platform_target", platform)])).

(** *** processWithConfidenceGating *)

(** [xs.filter(p)] *)
Definition filter_array (xs : value) (p : value -> completion bool) : completion (list value) :=
  elems <- array_method "filter" xs ;;
  filter_by p elems.

(** [q => q.criticality === 'high' || !q.default_used] *)
Definition is_critical (q : value) : completion bool :=
  criticality <- get_prop q "criticality" ;;
  if is_str criticality "high" then Normal true
  else
    default_used <- get_prop q "default_used" ;;
    Normal (negb (truthy default_used)).

Definition as_question (q : value) (_ : nat) : completion value :=
  question <- get_prop q "question" ;;
  why_it_matters <- get_prop q "why_it_matters" ;;
  default_used <- get_prop q "default_used" ;;
  Normal (VObj [("question", question);
                ("context", why_it_matters);
                ("currentAssumption", default_used)]).

(** [i => i.confidence < 0.7] *)
Definition is_low_confidence (i : value) : completion bool :=
  confidence <- get_prop i "confidence" ;;
  js_lt confidence 0.7.

Definition as_caveat (i : value) (_ : nat) : completion value :=
  element <- get_prop i "element" ;;
  interpretation <- get_prop i "interpretation" ;;
  alternatives <- get_prop i "alternatives" ;;
  Normal (VObj [("element", element);
                ("interpretation", interpretation);
                ("alternatives", alternatives)]).

(** The body of processWithConfidenceGating once [result] is there. *)
Definition confidence_gating (result : value) : completion value :=
  metadata <- get_prop result "metadata" ;;
  confidence_score <- get_prop metadata "confidence_score" ;;
  confident <- js_ge confidence_score 0.7 ;;
  if confident then
    Normal (VObj [("status", VStr "complete"); ("architecture", result)])
  else
    missing_info <- get_prop result "missing_info" ;;
    qualifying <- filter_array (js_or missing_info (array [])) is_critical ;;
    let criticalQuestions := firstn 3 qualifying in
    if (0 <? List.length criticalQuestions)%nat then
      questions <- map_indexed as_question 0 criticalQuestions ;;
      Normal (VObj [("status", VStr "needs_clarification");
                    ("architecture", result);
                    ("questions", array questions)])
    else
      interpretations <- get_prop result "interpretations" ;;
      low <- filter_array (js_or interpretations (array [])) is_low_confidence ;;
      caveats <- map_indexed as_caveat 0 low ;;
      Normal (VObj [("status", VStr "complete_with_caveats");
                    ("architecture", result);
                    ("caveats", array caveats)]).

Definition processWithConfidenceGating (creativeInput options : value) : Eff value :=
  result <~ generateArchitecture creativeInput options ;;
  lift (confidence_gating result).

(** *** refineArchitecture and regenerateShots *)

(** [xs.join(', ')] *)
Definition join_numbers (xs : value) : completion string :=
  elems <- array_method "join" xs ;;
  join_with ToString ", " elems.

(** [feedback.substring(0, 100) + (feedback.length > 100 ? '...' : '')] *)
Definition refinement_note (feedback : value) : completion string :=
  match feedback with
  | VStr s => Normal (Str.substring0 100 s ++ (if (100 <? length s)%nat then "..." else ""))
  | _ => Throw TypeError
  end.

Definition refineArchitecture (currentArchitecture feedback options : value) : Eff value :=
  let options := default_object options in
  targetShots <~ lift (destructure options "targetShots" VNull) ;;
  apiKey <~ lift (destructure options "apiKey" VNull) ;;
  refinementPrompt <~ lift (
    head <- template ToString (unlines [
      [];
      [Lit "## Current Architecture"];
      [];
      [Sub (JSON_stringify currentArchitecture 2)];
      [];
      [Lit "## Feedback"];
      [];
      [Sub feedback];
      [];
      [Lit "## Instructions"];
      [];
      []
    ]) ;;
    instruction <- (if truthy targetShots then
                      shots <- join_numbers targetShots ;;
                      template ToString
                        [Lit "Refine shots "; Sub (VStr shots);
                         Lit " based on the feedback while maintaining continuity with other shots."]
                    else Normal "Refine the entire architecture based on the feedback.") ;;
    Normal (head ++ instruction ++ lines [
      "";
      "";
      "Preserve all elements not addressed by the feedback. Maintain character consistency and continuity.";
      "Output the complete updated architecture as valid JSON matching the schema.";
      ""
    ])) ;;
  response <~ lift (callClaudeAPI refinementPrompt apiKey) ;;
  refined <~ parseResponse response ;;
  lift (metadata <- get_prop refined "metadata" ;;
        note <- refinement_note feedback ;;
        set_prop refined "metadata"
          (literal (own_props metadata)
             [("updated_at", VStr Date_toISOString);
              ("refinement_note", VStr note)])).

Definition regenerateShots (currentArchitecture shotNumbers direction options : value) : Eff value :=
  let direction := match direction with
                   | VUndefined => VStr ""
                   | _ => direction
                   end in
  let options := default_object options in
  feedback <~ lift (shots <- join_numbers shotNumbers ;;
                    if truthy direction then
                      template ToString
                        [Lit "Regenerate shots "; Sub (VStr shots);
                         Lit " with this direction: "; Sub direction]
                    else
                      template ToString
                        [Lit "Regenerate shots "; Sub (VStr shots);
                         Lit " with fresh creative interpretation while maintaining the overall style and continuity."]) ;;
  refineArchitecture currentArchitecture (VStr feedback)
    (literal (own_props options) [("targetShots", shotNumbers)]).

End Engine.

(* ====================================================================== *)
(** ** A computable host: numbers *)
(* ====================================================================== *)

Module Num.

Open Scope Z_scope.

(** The number nearest to [digits * 10^exp10] (ties to even), sign [neg]:
    what a decimal literal denotes. *)
Definition of_decimal (neg : bool) (digits exp10 : Z) : float :=
  if digits =? 0 then (if neg then (-0)%float else 0%float)
  else if 400 <? exp10 then (if neg then neg_infinity else infinity)
  else if 0 <=? exp10 then
    SF2Prim (binary_normalize prec emax ((if neg then - digits else digits) * 10 ^ exp10) 0 false)
  else if exp10 + Z.log2 digits <? -1200 then (if neg then (-0)%float else 0%float)
  else
    SF2Prim (SFdiv prec emax (S754_finite neg (Z.to_pos digits) 0)
                             (S754_finite false (Z.to_pos (10 ^ (- exp10))) 0)).

Definition is_finite (x : float) : bool := negb (is_nan x || is_infinity x).

(** [vn / vd < 10^n] *)
Definition below_pow10 (vn vd n : Z) : bool :=
  if 0 <=? n then vn <? 10 ^ n * vd else vn * 10 ^ (- n) <? vd.

(** The decimal exponent [n] of [m * 2^e]: [10^(n-1) <= m * 2^e < 10^n]. *)
Definition decimal_exponent (m e : Z) : Z :=
  let vn := m * 2 ^ Z.max e 0 in
  let vd := 2 ^ Z.max (- e) 0 in
  let a := (Z.log2 m + e) * 30103 / 100000 in
  if below_pow10 vn vd a then a
  else if below_pow10 vn vd (a + 1) then a + 1
  else a + 2.

(** The candidates with [k] digits next to [m * 2^e], below and above, each
    as (s, n) standing for [s * 10^(n-k)]. *)
Definition candidates (m e n k : Z) : list (Z * Z) :=
  let vn := m * 2 ^ Z.max e 0 in
  let vd := 2 ^ Z.max (- e) 0 in
  let E := n - k in
  let lo := if 0 <=? E then vn / (vd * 10 ^ E) else (vn * 10 ^ (- E)) / vd in
  let hi := lo + 1 in
  (if 10 ^ (k - 1) <=? lo then [(lo, n)] else [])
  ++ (if hi <? 10 ^ k then [(hi, n)] else if k =? 1 then [(1, n + 1)] else []).

(** The distance of [s * 10^(n-k)] to [m * 2^e], scaled by a factor common
    to the candidates of one [k]. *)
Definition distance (m e k : Z) (n0 : Z) (c : Z * Z) : Z :=
  let vn := m * 2 ^ Z.max e 0 in
  let vd := 2 ^ Z.max (- e) 0 in
  let E := n0 - k in
  let s := if snd c =? n0 then fst c else fst c * 10 in
  Z.abs (s * 10 ^ Z.max E 0 * vd - vn * 10 ^ Z.max (- E) 0).

Definition closer (m e k n0 : Z) (c1 c2 : Z * Z) : Z * Z :=
  let d1 := distance m e k n0 c1 in
  let d2 := distance m e k n0 c2 in
  if d1 <? d2 then c1 else if d2 <? d1 then c2 else if Z.even (fst c1) then c1 else c2.

(** The shortest digits: the least [k] with a [k]-digit [s] and an [n] such
    that [s * 10^(n-k)] reads back as [x]; the nearest such [s]. *)
Fixpoint shortest (fuel : nat) (x : float) (m e n0 k : Z) : Z * Z * Z :=
  match fuel with
  | O => (m, 0, 0)
  | S fuel' =>
      match filter (fun c => PrimFloat.eqb (of_decimal false (fst c) (snd c - k)) x)
                   (candidates m e n0 k) with
      | [] => shortest fuel' x m e n0 (k + 1)
      | c :: cs => let b := fold_left (closer m e k n0) cs c in (fst b, snd b, k)
      end
  end.

Definition digits_of (s : Z) : string := NilEmpty.string_of_uint (N.to_uint (Z.to_N s)).

Fixpoint zeros (n : nat) : string :=
  match n with
  | O => EmptyString
  | S k => String "0" (zeros k)
  end.

(** Number::toString for radix 10. *)
Definition to_string (x : float) : string :=
  if is_nan x then "NaN"
  else if PrimFloat.eqb x 0 then "0"
  else
    let neg := PrimFloat.ltb x 0 in
    if is_infinity x then (if neg then "-Infinity" else "Infinity")
    else
      match Prim2SF (abs x) with
      | S754_finite _ mp e =>
          let m := Z.pos mp in
          let n0 := decimal_exponent m e in
          let '(s, n, k) := shortest 18 (abs x) m e n0 1 in
          let ds := digits_of s in
          let body :=
            if (k <=? n) && (n <=? 21) then (ds ++ zeros (Z.to_nat (n - k)))%string
            else if (0 <? n) && (n <=? 21) then
              (substring 0%nat (Z.to_nat n) ds ++ "." ++ Str.drop (Z.to_nat n) ds)%string
            else if (-6 <? n) && (n <=? 0) then
              ("0." ++ zeros (Z.to_nat (- n)) ++ ds)%string
            else
              let ex := ((if (0 <=? n - 1)%Z then "e+" else "e-") ++ digits_of (Z.abs (n - 1)))%string in
              if k =? 1 then (ds ++ ex)%string
              else (substring 0%nat 1%nat ds ++ "." ++ Str.drop 1%nat ds ++ ex)%string in
          ((if neg then "-" else "") ++ body)%string
      | _ => "NaN"
      end.

(** *** Reading numerals *)

Definition digit_of (c : ascii) : option Z :=
  let n := Z.of_nat (nat_of_ascii c) in
  if (48 <=? n) && (n <=? 57) then Some (n - 48) else None.

(** The longest run of decimal digits at the head of [s]: its value
    appended to [acc], how many there were, and the rest. *)
Fixpoint read_digits (acc : Z) (count : Z) (s : string) : Z * Z * string :=
  match s with
  | String c rest =>
      match digit_of c with
      | Some d => read_digits (acc * 10 + d) (count + 1) rest
      | None => (acc, count, s)
      end
  | EmptyString => (acc, count, s)
  end.

(** An exponent part [e[+-]?digits] at the head of [s], if there is one. *)
Definition read_exponent (s : string) : option (Z * string) :=
  match s with
  | String c rest =>
      if (Ascii.eqb c "e" || Ascii.eqb c "E")%bool then
        let '(neg, rest) :=
          match rest with
          | String "+" r => (false, r)
          | String "-" r => (true, r)
          | _ => (false, rest)
          end in
        let '(ex, count, rest) := read_digits 0 0 rest in
        if count =? 0 then None else Some (if neg then - ex else ex, rest)
      else Some (0, s)
  | EmptyString => Some (0, s)
  end.

End Num.

(* ====================================================================== *)
(** ** A computable host: JSON text *)
(* ====================================================================== *)

Module Json.

Definition is_ws (c : ascii) : bool :=
  let n := nat_of_ascii c in
  ((n =? 32) || (n =? 9) || (n =? 10) || (n =? 13))%nat.

Fixpoint skip_ws (s : string) : string :=
  match s with
  | String c rest => if is_ws c then skip_ws rest else s
  | EmptyString => EmptyString
  end.

Definition hex_of (c : ascii) : option nat :=
  let n := nat_of_ascii c in
  if ((48 <=? n) && (n <=? 57))%nat then Some (n - 48)
  else if ((97 <=? n) && (n <=? 102))%nat then Some (n - 87)
  else if ((65 <=? n) && (n <=? 70))%nat then Some (n - 55)
  else None.

Definition hex4 (a b c d : ascii) : option nat :=
  match hex_of a, hex_of b, hex_of c, hex_of d with
  | Some x, Some y, Some z, Some w => Some (((x * 16 + y) * 16 + z) * 16 + w)
  | _, _, _, _ => None
  end.

(** The character a two-character escape stands for. *)
Definition escape_of (e : ascii) : option ascii :=
  if Ascii.eqb e Str.dquote then Some Str.dquote
  else if Ascii.eqb e "\" then Some "\"%char
  else if Ascii.eqb e "/" then Some "/"%char
  else if Ascii.eqb e "b" then Some "008"%char
  else if Ascii.eqb e "f" then Some "012"%char
  else if Ascii.eqb e "n" then Some "010"%char
  else if Ascii.eqb e "r" then Some "013"%char
  else if Ascii.eqb e "t" then Some "009"%char
  else None.

Definition cons_char (c : ascii) (r : option (string * string)) : option (string * string) :=
  match r with
  | Some (s, rest) => Some (String c s, rest)
  | None => None
  end.

(** A string literal after its opening quote: the string it denotes and
    what follows the closing quote.  A [\u] escape of a code unit above
    255 is outside the modelled range and is refused. *)
Fixpoint read_string (s : string) : option (string * string) :=
  match s with
  | EmptyString => None
  | String c rest =>
      if Ascii.eqb c Str.dquote then Some (EmptyString, rest)
      else if Ascii.eqb c "\" then
        match rest with
        | String e rest' =>
            if Ascii.eqb e "u" then
              match rest' with
              | String h1 (String h2 (String h3 (String h4 rest''))) =>
                  match hex4 h1 h2 h3 h4 with
                  | Some n => if (n <? 256)%nat then cons_char (ascii_of_nat n) (read_string rest'')
                              else None
                  | None => None
                  end
              | _ => None
              end
            else
              match escape_of e with
              | Some ch => cons_char ch (read_string rest')
              | None => None
              end
        | EmptyString => None
        end
      else if (nat_of_ascii c <? 32)%nat then None
      else cons_char c (read_string rest)
  end.

(** A JSON number at the head of [s]. *)
Definition read_number (s : string) : option (float * string) :=
  let '(neg, s1) := match s with
                    | String "-" r => (true, r)
                    | _ => (false, s)
                    end in
  let '(int_part, int_count, s2) := Num.read_digits 0 0 s1 in
  if (int_count =? 0)%Z then None
  else if (1 <? int_count)%Z && prefix "0" s1 then None
  else
    let '(mantissa, frac_count, s3) :=
      match s2 with
      | String "." r => Num.read_digits int_part 0 r
      | _ => (int_part, (-1)%Z, s2)
      end in
    if (frac_count =? 0)%Z then None
    else
      match Num.read_exponent s3 with
      | Some (ex, s4) => Some (Num.of_decimal neg mantissa (ex - Z.max frac_count 0), s4)
      | None => None
      end.

Definition literal_at (word : string) (v : value) (s : string) : option (value * string) :=
  if prefix word s then Some (v, Str.drop (length word) s) else None.

Fixpoint read_value (fuel : nat) (s : string) : option (value * string) :=
  match fuel with
  | O => None
  | S fuel' =>
      match skip_ws s with
      | EmptyString => None
      | String c rest as s' =>
          if Ascii.eqb c "{" then
            match skip_ws rest with
            | String "}" after => Some (VObj [], after)
            | members => read_members fuel' [] members
            end
          else if Ascii.eqb c "[" then
            match skip_ws rest with
            | String "]" after => Some (array [], after)
            | elements => read_elements fuel' [] elements
            end
          else if Ascii.eqb c Str.dquote then
            match read_string rest with
            | Some (str, after) => Some (VStr str, after)
            | None => None
            end
          else if Ascii.eqb c "t" then literal_at "true" (VBool true) s'
          else if Ascii.eqb c "f" then literal_at "false" (VBool false) s'
          else if Ascii.eqb c "n" then literal_at "null" VNull s'
          else
            match read_number s' with
            | Some (x, after) => Some (VNum x, after)
            | None => None
            end
      end
  end

with read_elements (fuel : nat) (acc : list value) (s : string) : option (value * string) :=
  match fuel with
  | O => None
  | S fuel' =>
      match read_value fuel' s with
      | Some (v, after) =>
          match skip_ws after with
          | String "," rest => read_elements fuel' (app acc [v]) rest
          | String "]" rest => Some (array (app acc [v]), rest)
          | _ => None
          end
      | None => None
      end
  end

with read_members (fuel : nat) (acc : list (string * value)) (s : string) : option (value * string) :=
  match fuel with
  | O => None
  | S fuel' =>
      match skip_ws s with
      | String c rest =>
          if Ascii.eqb c Str.dquote then
            match read_string rest with
            | Some (key, after) =>
                match skip_ws after with
                | String ":" rest' =>
                    match read_value fuel' rest' with
                    | Some (v, after') =>
                        match skip_ws after' with
                        | String "," rest'' => read_members fuel' (update key v acc) rest''
                        | String "}" rest'' => Some (VObj (update key v acc), rest'')
                        | _ => None
                        end
                    | None => None
                    end
                | _ => None
                end
            | None => None
            end
          else None
      | EmptyString => None
      end
  end.

(** JSON.parse *)
Definition parse (text : string) : option value :=
  match read_value (2 * length text + 2) text with
  | Some (v, rest) =>
      match skip_ws rest with
      | EmptyString => Some v
      | _ => None
      end
  | None => None
  end.

(** *** JSON.stringify *)

Definition hex_digit (n : nat) : ascii :=
  ascii_of_nat (if (n <? 10)%nat then 48 + n else 87 + n).

(** QuoteJSONString *)
Fixpoint quote_body (s : string) : string :=
  match s with
  | EmptyString => EmptyString
  | String c rest =>
      let n := nat_of_ascii c in
      (if Ascii.eqb c Str.dquote then String "\" (String Str.dquote EmptyString)
       else if Ascii.eqb c "\" then "\\"
       else if (n =? 8)%nat then "\b"
       else if (n =? 9)%nat then "\t"
       else if (n =? 10)%nat then "\n"
       else if (n =? 12)%nat then "\f"
       else if (n =? 13)%nat then "\r"
       else if (n <? 32)%nat then
         "\u00" ++ String (hex_digit (n / 16)) (String (hex_digit (n mod 16)) EmptyString)
       else String c EmptyString)
      ++ quote_body rest
  end.

Definition quote (s : string) : string :=
  String Str.dquote (quote_body s) ++ String Str.dquote EmptyString.

(** SerializeJSONProperty: [None] is [undefined] (the property is left
    out; an array element reads [null]).  [gap] is the indentation unit and
    [indent] the current indentation. *)
Fixpoint serialize (gap indent : string) (v : value) : option string :=
  match v with
  | VUndefined => None
  | VNull => Some "null"
  | VBool true => Some "true"
  | VBool false => Some "false"
  | VNum x => Some (if Num.is_finite x then Num.to_string x else "null")
  | VStr s => Some (quote s)
  | VArr elems _ =>
      let inner := indent ++ gap in
      let items :=
        (fix each (vs : list value) : list string :=
           match vs with
           | [] => []
           | v' :: rest =>
               match serialize gap inner v' with
               | Some t => t
               | None => "null"
               end :: each rest
           end) elems in
      Some match items with
           | [] => "[]"
           | _ =>
               if gap =? "" then "[" ++ Str.join "," items ++ "]"
               else "[" ++ nl ++ inner ++ Str.join ("," ++ nl ++ inner) items
                    ++ nl ++ indent ++ "]"
           end
  | VObj props =>
      let inner := indent ++ gap in
      let members :=
        (fix each (ps : list (string * value)) : list string :=
           match ps with
           | [] => []
           | (k, v') :: rest =>
               app match serialize gap inner v' with
                   | Some t => [quote k ++ (if gap =? "" then ":" else ": ") ++ t]
                   | None => []
                   end (each rest)
           end) props in
      Some match members with
           | [] => "{}"
           | _ =>
               if gap =? "" then "{" ++ Str.join "," members ++ "}"
               else "{" ++ nl ++ inner ++ Str.join ("," ++ nl ++ inner) members
                    ++ nl ++ indent ++ "}"
           end
  end.

Fixpoint spaces (n : nat) : string :=
  match n with
  | O => EmptyString
  | S k => String " " (spaces k)
  end.

(** JSON.stringify(v, null, indent) *)
Definition stringify (v : value) (indent : nat) : value :=
  match serialize (spaces (Nat.min indent 10)) "" v with
  | Some t => VStr t
  | None => VUndefined
  end.

(** *** StringToNumber *)

Definition digit_in (radix : Z) (c : ascii) : option Z :=
  match hex_of c with
  | Some d => if (Z.of_nat d <? radix)%Z then Some (Z.of_nat d) else None
  | None => None
  end.

Fixpoint read_radix (radix acc : Z) (s : string) : option Z :=
  match s with
  | EmptyString => Some acc
  | String c rest =>
      match digit_in radix c with
      | Some d => read_radix radix (acc * radix + d)%Z rest
      | None => None
      end
  end.

Definition radix_literal (radix : Z) (digits : string) : float :=
  match digits with
  | EmptyString => nan
  | _ => match read_radix radix 0 digits with
         | Some n => Num.of_decimal false n 0
         | None => nan
         end
  end.

Definition string_to_number (s : string) : float :=
  let t := Str.trim s in
  if t =? "" then 0%float
  else if prefix "0x" t || prefix "0X" t then radix_literal 16 (Str.drop 2 t)
  else if prefix "0o" t || prefix "0O" t then radix_literal 8 (Str.drop 2 t)
  else if prefix "0b" t || prefix "0B" t then radix_literal 2 (Str.drop 2 t)
  else
    let '(neg, t1) := match t with
                      | String "-" r => (true, r)
                      | String "+" r => (false, r)
                      | _ => (false, t)
                      end in
    if t1 =? "Infinity" then (if neg then neg_infinity else infinity)
    else
      let '(int_part, int_count, t2) := Num.read_digits 0 0 t1 in
      let '(mantissa, frac_count, t3) :=
        match t2 with
        | String "." r => Num.read_digits int_part 0 r
        | _ => (int_part, 0%Z, t2)
        end in
      if (int_count + frac_count =? 0)%Z then nan
      else
        match Num.read_exponent t3 with
        | Some (ex, EmptyString) => Num.of_decimal neg mantissa (ex - frac_count)
        | _ => nan
        end.

End Json.

(** The host with these conversions, a clock reading [clock], and [fetch]
    answering as [server] does. *)
Definition js_host (browser : bool) (server : string -> value -> completion response)
    (clock : string) : Host := {|
  JSON_parse := Json.parse;
  JSON_stringify := Json.stringify;
  Number_toString := Num.to_string;
  StringToNumber := Json.string_to_number;
  Date_toISOString := clock;
  window_defined := browser;
  fetch := server
|}.

(* ====================================================================== *)
(** ** Vocabulary of the statements *)
(* ====================================================================== *)

(** [v] is neither [null] nor [undefined]: its properties can be read. *)
Definition defined (v : value) : bool :=
  match v with
  | VUndefined | VNull => false
  | _ => true
  end.

(** [null] or [undefined]: how an optional field is unset. *)
Definition is_absent (v : value) : bool := negb (defined v).

(** An object or an array: something a property can be assigned to. *)
Definition is_object (v : value) : bool :=
  match v with
  | VArr _ _ | VObj _ => true
  | _ => false
  end.

(** A key that names a property: neither [length] nor an array index. *)
Definition named (k : string) : bool :=
  negb (k =? "length") &&
  match Str.to_index k with
  | None => true
  | Some _ => false
  end.

(** The value of [o.k] where reading it does not throw. *)
Definition field (o : value) (k : string) : value :=
  match get_prop o k with
  | Normal v => v
  | Throw _ => VUndefined
  end.

(** An array as JSON.parse builds it, every element satisfying [p]. *)
Definition all_in (p : value -> bool) (v : value) : bool :=
  match v with
  | VArr elems [] => forallb p elems
  | _ => false
  end.

(** *** Architectures *)

(** The required fields of [arch] that are missing, in the order of
    [required]. *)
Definition missing_of (arch : value) : list string :=
  filter (fun f => negb (truthy (field arch f))) required.

(** The shot carries a non-empty [prompt.full_prompt]. *)
Definition has_full_prompt (shot : value) : bool :=
  truthy (field shot "prompt") && truthy (field (field shot "prompt") "full_prompt").

(** [metadata.confidence_score] *)
Definition confidence_of (arch : value) : completion value :=
  metadata <- get_prop arch "metadata" ;;
  get_prop metadata "confidence_score".

(** The [shot_number] values of an architecture's shots, in order. *)
Definition shot_numbers (arch : value) : list value :=
  match field arch "shots" with
  | VArr shots _ => map (fun shot => field shot "shot_number") shots
  | _ => []
  end.

(** Not an object or array: a value every conversion accepts. *)
Definition primitive (v : value) : bool := negb (is_object v).

(** An interpretation whose properties can be read and whose confidence
    can be compared with a number. *)
Definition wf_interpretation (i : value) : bool :=
  defined i && primitive (field i "confidence").

(** *** The gate, in the words of the specification *)

(** A question qualifies when its criticality is high or no default was
    applied. *)
Definition qualifies (q : value) : bool :=
  is_str (field q "criticality") "high" || negb (truthy (field q "default_used")).

(** Up to three qualifying questions, in their original order. *)
Definition selection (missing_info : list value) : list value :=
  firstn 3 (filter qualifies missing_info).

(** A selected question reduced to its question, why it matters and the
    default used, under the names the gate returns them. *)
Definition reduced (q : value) : value :=
  VObj [("question", field q "question");
        ("context", field q "why_it_matters");
        ("currentAssumption", field q "default_used")].

Definition statuses : list string :=
  ["complete"; "needs_clarification"; "complete_with_caveats"].

(** *** Creative input and options, as section 4.1 types them *)

Definition opt (p : value -> bool) (v : value) : bool := is_absent v || p v.

Definition wf_reference (r : value) : bool :=
  is_string (field r "description") && opt is_string (field r "url").

Definition wf_character (c : value) : bool :=
  is_string (field c "name") && is_string (field c "description").

Definition wf_structured (input : value) : bool :=
  opt is_string (field input "concept")
  && opt (fun tone => is_string tone || all_in is_string tone) (field input "tone")
  && opt is_string (field input "narrative")
  && opt (all_in wf_character) (field input "characters")
  && opt (all_in is_string) (field input "shots")
  && opt is_string (field input "style")
  && opt is_string (field input "constraints").

(** Plain text (a bare string or a [text] object), a parsed deck or a
    structured input, each with an optional list of references. *)
Definition wf_input (input : value) : bool :=
  is_string input
  || (defined input
      && opt (all_in wf_reference) (field input "references")
      && ((is_str (field input "type") "text" && is_string (field input "content"))
          || (is_str (field input "type") "deck"
              && is_string (field input "filename")
              && is_string (field input "parsedContent"))
          || (is_str (field input "type") "structured" && wf_structured input))).

(** The options buildUserPrompt is handed: a platform, and an optional
    shot count and brand context. *)
Definition wf_options (options : value) : bool :=
  is_string (field options "platform")
  && opt is_number (field options "shotCount")
  && opt is_string (field options "brandContext").

(** A piece whose rendering is settled by how strings and numbers render. *)
Definition renderable (p : piece) : bool :=
  match p with
  | Lit _ => true
  | Sub v => is_string v || is_number v
  end.

(** A conversion that renders strings and numbers as ToString does; what
    it makes of anything else is left open. *)
Definition renders_text `{Host} (ts : value -> completion string) : Prop :=
  (forall s, ts (VStr s) = Normal s) /\ (forall x, ts (VNum x) = Normal (Number_toString x)).

(** *** Documents and hosts the statements are evaluated on *)

(** A server answering every request with [text] as the completion. *)
Definition answering (text : string) : string -> value -> completion response :=
  fun _ _ => Normal {| ok := true;
                       status := VNum 200;
                       json := Normal (VObj [("content", VStr text)]) |}.

Definition browser (text : string) : Host :=
  js_host true (answering text) "2026-01-01T00:00:00.000Z".

(** The value a normal completion carries. *)
Definition value_of (c : completion value) : value :=
  match c with
  | Normal v => v
  | Throw _ => VUndefined
  end.

Definition parsed (text : string) : value := or_undefined (Json.parse (Str.q text)).

(** The result of validating the document [text] (when it is accepted). *)
Definition validated (text : string) : value :=
  match validateArchitecture (parsed text) with
  | Normal a => a
  | Throw _ => VUndefined
  end.

(** Extraction, and extraction of the serialized result of extraction. *)
Definition extract `{Host} (text : string) : completion value :=
  snd (parseResponse (VStr text)).

Definition re_extract `{Host} (text : string) : completion value :=
  a <- extract text ;;
  snd (parseResponse (JSON_stringify a 0)).

(** The [prompt.full_prompt] of the first shot. *)
Definition first_prompt (c : completion value) : value :=
  match c with
  | Normal arch => field (field (field (field arch "shots") "0") "prompt") "full_prompt"
  | Throw _ => VUndefined
  end.

(** The fields the validator defaults to an empty array. *)
Definition optional_arrays : list string :=
  ["interpretations"; "missing_info"; "characters"; "environments"].

(** [shot.shot_number = n] on a shot that is an object. *)
Definition with_shot_number (n : value) (shot : value) : value :=
  match shot with
  | VObj props => VObj (update "shot_number" n props)
  | _ => shot
  end.

(** The shots numbered afresh by [numbers], as far as they go. *)
Fixpoint renumber (numbers shots : list value) : list value :=
  match shots, numbers with
  | shot :: shots', n :: numbers' => with_shot_number n shot :: renumber numbers' shots'
  | _, _ => shots
  end.

(** A computation over the template conversion that completes normally
    with one and the same result for every conversion that renders strings
    and numbers as ToString does. *)
Definition uniform `{Host} {A : Type} (c : (value -> completion string) -> completion A)
  : Prop :=
  exists a, forall ts, renders_text ts -> c ts = Normal a.

(** A complete, confident architecture. *)
Definition doc_complete : string :=
  "{'metadata':{'confidence_score':0.9,'schema_version':'0.1','model':'m1'},'project':{'title':'Kettle'},'global_style':{'look':'warm'},'characters':[],'environments':[],'shots':[{'shot_number':1,'prompt':{'full_prompt':'A kettle on a stove'}}],'interpretations':[],'missing_info':[]}".

(** No confidence score and none of the optional collections. *)
Definition doc_bare : string :=
  "{'metadata':{'title':'Kettle'},'project':{'title':'Kettle'},'global_style':{'look':'warm'},'shots':[{'shot_number':1,'prompt':{'full_prompt':'A kettle on a stove'}}]}".

(** Low confidence, and a [missing_info] entry that is [null]. *)
Definition doc_null_question : string :=
  "{'metadata':{'confidence_score':0.1},'project':{'title':'Kettle'},'global_style':{'look':'warm'},'shots':[{'shot_number':1,'prompt':{'full_prompt':'A kettle on a stove'}}],'missing_info':[null]}".

(** Confidence 0.4 and the two questions of section 8. *)
Definition doc_two_questions : string :=
  "{'metadata':{'confidence_score':0.4},'project':{'title':'Kettle'},'global_style':{'look':'warm'},'shots':[{'shot_number':1,'prompt':{'full_prompt':'A kettle on a stove'}}],'interpretations':[],'missing_info':[{'question':'Q1','why_it_matters':'sets the mood','criticality':'high','default_used':false},{'question':'Q2','why_it_matters':'minor','criticality':'low','default_used':true}]}".

(** Three shots, the second with an empty [full_prompt]. *)
Definition doc_second_shot_empty : string :=
  "{'metadata':{},'project':{'title':'Kettle'},'global_style':{'look':'warm'},'shots':[{'shot_number':1,'prompt':{'full_prompt':'A kettle on a stove'}},{'shot_number':2,'prompt':{'full_prompt':''}},{'shot_number':3,'prompt':{'full_prompt':'Steam rising'}}]}".

(** Three shots, the first and the third without a [full_prompt]. *)
Definition doc_two_shots_empty : string :=
  "{'metadata':{},'project':{'title':'Kettle'},'global_style':{'look':'warm'},'shots':[{'shot_number':1,'prompt':{'full_prompt':''}},{'shot_number':2,'prompt':{'full_prompt':'A kettle on a stove'}},{'shot_number':3,'prompt':{}}]}".

(** [metadata] is a string. *)
Definition doc_metadata_string : string :=
  "{'metadata':'v1','project':{'title':'Kettle'},'global_style':{'look':'warm'},'shots':[{'shot_number':1,'prompt':{'full_prompt':'A kettle on a stove'}}]}".

(** Shots numbered 5 and 2. *)
Definition doc_shot_numbers : string :=
  "{'metadata':{'confidence_score':0.9},'project':{'title':'Kettle'},'global_style':{'look':'warm'},'shots':[{'shot_number':5,'prompt':{'full_prompt':'A kettle on a stove'}},{'shot_number':2,'prompt':{'full_prompt':'Steam rising'}}]}".

(** A prompt whose text holds two fences, each backtick written as the
    escape of code unit 0060. *)
Definition doc_escaped_fence : string :=
  "{'metadata':{'confidence_score':0.9},'project':{'title':'Kettle'},'global_style':{'look':'warm'},'shots':[{'shot_number':1,'prompt':{'full_prompt':'A title card set in \u0060\u0060\u0060mono\u0060\u0060\u0060 type'}}]}".

(** A document inside a fence tagged [javascript]. *)
Definition doc_tagged_fence : string :=
  "```javascript
{'metadata':{'confidence_score':0.9},'project':{'title':'Kettle'},'global_style':{'look':'warm'},'shots':[]}
```".

(** A structured input with only a concept, a tone list and shot ideas. *)
Definition input_structured : value :=
  VObj [("type", VStr "structured");
        ("concept", VStr "A kettle that sings");
        ("tone", array [VStr "warm"; VStr "whimsical"]);
        ("shots", array [VStr "kettle on stove"; VStr "steam rising"])].

(** Options with the shot count and the brand context unset. *)
Definition options_unset : value :=
  VObj [("platform", VStr "platform-agnostic"); ("shotCount", VNull); ("brandContext", VNull)].

Definition feedback_long : string :=
  "Make the second shot slower and warmer, hold on the kettle for two more beats, and let the steam catch the morning light.".

(** A generation and a refinement against a server that answers with the
    complete document. *)
Definition generated_example : value :=
  value_of (snd (generateArchitecture (H := browser (Str.q doc_complete))
                   (VStr "A kettle ad") VUndefined)).

Definition refined_example : value :=
  value_of (snd (refineArchitecture (H := browser (Str.q doc_complete))
                   (validated doc_complete) (VStr feedback_long) VUndefined)).

(** ToString, except that [undefined] and [null] are marked. *)
Definition marking_unset `{Host} (v : value) : completion string :=
  match v with
  | VUndefined | VNull => Normal "<unset>"
  | _ => ToString v
  end.

(* ====================================================================== *)
(** ** The utility functions of the engine *)
(* ====================================================================== *)

Module Case.

(** The lower-case mapping on the code units below 256: A to Z, and the
    capital letters of Latin-1 (192 to 222, the multiplication sign 215
    apart), each 32 below its small letter. *)
Definition lower (c : ascii) : ascii :=
  let n := nat_of_ascii c in
  if ((65 <=? n) && (n <=? 90) || (192 <=? n) && (n <=? 222) && negb (n =? 215))%nat
  then ascii_of_nat (n + 32)
  else c.

(** [s.toLowerCase()] *)
Fixpoint toLowerCase (s : string) : string :=
  match s with
  | EmptyString => EmptyString
  | String c rest => String (lower c) (toLowerCase rest)
  end.

(** A capital letter A to Z. *)
Definition capital (c : ascii) : bool :=
  let n := nat_of_ascii c in ((65 <=? n) && (n <=? 90))%nat.

Fixpoint has_capital (s : string) : bool :=
  match s with
  | EmptyString => false
  | String c rest => capital c || has_capital rest
  end.

End Case.

(** *** extractPrompts *)

(** The body of the [map] callback: one entry per shot. *)
Definition prompt_entry (shot : value) (_ : nat) : completion value :=
  shot_number <- get_prop shot "shot_number" ;;
  shot_id <- get_prop shot "shot_id" ;;
  narrative_beat <- get_prop shot "narrative_beat" ;;
  prompt <- get_prop shot "prompt" ;;
  full_prompt <- get_prop prompt "full_prompt" ;;
  prompt <- get_prop shot "prompt" ;;
  negative_prompt <- get_prop prompt "negative_prompt" ;;
  Normal (VObj [("shotNumber", shot_number);
                ("shotId", shot_id);
                ("narrativeBeat", narrative_beat);
                ("prompt", full_prompt);
                ("negativePrompt", js_or negative_prompt VNull)]).

Definition extractPrompts (architecture : value) : completion value :=
  shots <- get_prop architecture "shots" ;;
  elems <- array_method "map" shots ;;
  entries <- map_indexed prompt_entry 0 elems ;;
  Normal (array entries).

(** *** translateTone *)

Definition TONE_TRANSLATIONS : list (string * string) :=
  [("whimsical", "playful camera movements, bright saturated colors, slight wide-angle distortion, bouncy timing");
   ("moody", "low-key lighting, lifted blacks, desaturated palette except accent colors, slower camera movements");
   ("energetic", "dynamic camera movement, quick cuts, high contrast, saturated colors, dutch angles");
   ("elegant", "smooth slow camera movements, shallow depth of field, soft diffused lighting, muted luxury palette");
   ("raw", "handheld camera, available light, high grain, documentary style, imperfect framing");
   ("dreamy", "soft focus edges, diffused lighting, pastel palette, slow motion, lens flares");
   ("intense", "tight framing, high contrast, desaturated, fast push-ins, shallow DOF");
   ("warm", "golden hour lighting, tungsten color temperature, soft shadows, earth tone palette");
   ("clinical", "high-key lighting, cool color temperature, sharp focus, symmetrical framing");
   ("nostalgic", "film grain, slightly desaturated, warm color cast, vintage lens characteristics");
   ("luxurious", "rich blacks, selective focus, metallic accents, slow elegant movement, diffused highlights");
   ("playful", "bright colors, dynamic angles, quick movements, slight exaggeration in scale")].

Fixpoint own_translation (k : string) (table : list (string * string)) : option string :=
  match table with
  | [] => None
  | (k', v) :: rest => if k' =? k then Some v else own_translation k rest
  end.

(** The members every object literal inherits from Object.prototype.  A
    read [o[k]] under one of these names finds the member when [o] has no
    property of its own under it. *)
Definition Object_prototype : list string :=
  ["constructor"; "__defineGetter__"; "__defineSetter__"; "hasOwnProperty";
   "__lookupGetter__"; "__lookupSetter__"; "isPrototypeOf"; "propertyIsEnumerable";
   "toString"; "valueOf"; "__proto__"; "toLocaleString"].

(** What translateTone returns: a text, or the member of Object.prototype
    (a function, or the prototype itself: truthy in either case) that the
    read of the table found under the normalized tone. *)
Inductive translation : Type :=
| Text (s : string)
| Inherited (name : string).

(** [TONE_TRANSLATIONS[normalized] || tone]; the texts of the table are
    not empty, and the inherited members are objects. *)
Definition translateTone (tone : value) : completion translation :=
  match tone with
  | VStr tone =>
      let normalized := Str.trim (Case.toLowerCase tone) in
      match own_translation normalized TONE_TRANSLATIONS with
      | Some text => Normal (if (text =? "") then Text tone else Text text)
      | None =>
          if existsb (String.eqb normalized) Object_prototype
          then Normal (Inherited normalized)
          else Normal (Text tone)
      end
  | _ => Throw TypeError
  end.

(** *** suggestFilmGrammar *)

Definition suggestion (shotType movement rationale : string) : value :=
  VObj [("shotType", VStr shotType);
        ("movement", VStr movement);
        ("rationale", VStr rationale)].

Definition suggestFilmGrammar (narrativeBeat : value) : completion value :=
  match narrativeBeat with
  | VStr narrativeBeat =>
      let beat := Case.toLowerCase narrativeBeat in
      if Str.includes beat "establish" || Str.includes beat "intro" || Str.includes beat "open"
      then Normal (suggestion "wide" "static or slow pan"
                     "Wide shots establish context and orient the viewer")
      else if Str.includes beat "reveal" || Str.includes beat "discover"
      then Normal (suggestion "medium to close-up" "push in or crane reveal"
                     "Movement toward subject builds anticipation for reveal")
      else if Str.includes beat "action" || Str.includes beat "dynamic"
      then Normal (suggestion "medium wide" "tracking or handheld"
                     "Shows action in context with energetic camera work")
      else if Str.includes beat "emotion" || Str.includes beat "reaction"
              || Str.includes beat "moment"
      then Normal (suggestion "close-up" "static or subtle push"
                     "Close framing emphasizes emotional content")
      else if Str.includes beat "product" || Str.includes beat "hero"
              || Str.includes beat "beauty"
      then Normal (suggestion "medium close to close-up" "slow dolly or static"
                     "Controlled movement showcases product with production value")
      else if Str.includes beat "end" || Str.includes beat "resolve"
              || Str.includes beat "conclude"
      then Normal (suggestion "medium to wide" "pull out or static"
                     "Pulling back releases tension and provides closure")
      else Normal (suggestion "medium" "context-dependent"
                     "Default neutral framing - specify narrative intent for better suggestion")
  | _ => Throw TypeError
  end.

(** *** summarizeInterpretations *)

(** [Math.round(x)]: the integer nearest to [x], the greater one of two
    equally near; an integer, an infinity and NaN are returned as they
    are, and a result of zero keeps the sign of [x]. *)
Definition Math_round (x : float) : float :=
  match Prim2SF x with
  | S754_finite s m e =>
      if (0 <=? e)%Z then x
      else
        let d := (2 ^ (- e))%Z in
        let n := (((if s then - Z.pos m else Z.pos m) * 2 + d) / (2 * d))%Z in
        if (n =? 0)%Z then (if s then (-0)%float else 0%float)
        else SF2Prim (binary_normalize prec emax n 0 false)
  | _ => x
  end.

(** [v === 0] *)
Definition is_zero (v : value) : bool :=
  match v with
  | VNum x => PrimFloat.eqb x 0
  | _ => false
  end.

Section Summary.
Context `{Host}.

(** The first character of each block, U+2022 (a bullet): a code unit
    above 255, which a [string] here does not hold; the text that stands
    for it is left open. *)
Variable bullet : string.

(** The alternatives part of a block:
    [i.alternatives && i.alternatives.length > 0
       ? ` | Alternatives: ${i.alternatives.join(', ')}` : ''] *)
Definition alternatives_part (i : value) : completion string :=
  alternatives <- get_prop i "alternatives" ;;
  if truthy alternatives then
    len <- get_prop alternatives "length" ;;
    some <- js_gt len 0 ;;
    if some then
      alternatives <- get_prop i "alternatives" ;;
      elems <- array_method "join" alternatives ;;
      joined <- join_with ToString ", " elems ;;
      template ToString [Lit " | Alternatives: "; Sub (VStr joined)]
    else Normal ""
  else Normal "".

(** The body of the [map] callback: the block of one interpretation. *)
Definition interpretation_block (i : value) (_ : nat) : completion string :=
  element <- get_prop i "element" ;;
  head <- template ToString [Lit (bullet ++ " **"); Sub element; Lit "**: "] ;;
  interpretation <- get_prop i "interpretation" ;;
  body <- template ToString [Sub interpretation; Lit (nl ++ "  _Confidence: ")] ;;
  confidence <- get_prop i "confidence" ;;
  c <- ToNumber confidence ;;
  percent <- template ToString [Sub (VNum (Math_round (c * 100))); Lit "%"] ;;
  tail <- alternatives_part i ;;
  Normal (head ++ body ++ percent ++ tail ++ "_").

Definition summarizeInterpretations (architecture : value) : completion string :=
  interpretations <- get_prop architecture "interpretations" ;;
  none <- (if negb (truthy interpretations) then Normal true
           else
             interpretations <- get_prop architecture "interpretations" ;;
             len <- get_prop interpretations "length" ;;
             Normal (is_zero len)) ;;
  if none then Normal "No significant interpretations were made."
  else
    interpretations <- get_prop architecture "interpretations" ;;
    elems <- array_method "map" interpretations ;;
    blocks <- map_indexed interpretation_block 0 elems ;;
    Normal (Str.join (nl ++ nl) blocks).

End Summary.

(* ====================================================================== *)
(** ** Further vocabulary for statements *)
(* ====================================================================== *)

(** An interpretation the gate reports as a caveat: its confidence, as a
    number, is below 0.7. *)
Definition low_confidence `{Host} (i : value) : bool :=
  match js_lt (field i "confidence") 0.7 with
  | Normal b => b
  | Throw _ => false
  end.

(** An interpretation reduced to what a caveat carries. *)
Definition caveat (i : value) : value :=
  VObj [("element", field i "element");
        ("interpretation", field i "interpretation");
        ("alternatives", field i "alternatives")].

(** Low confidence, no question that qualifies, and three interpretations
    of which the first and the last are below the threshold. *)
Definition doc_caveats : string :=
  "{'metadata':{'confidence_score':0.5},'project':{'title':'Kettle'},'global_style':{'look':'warm'},'shots':[{'shot_number':1,'prompt':{'full_prompt':'A kettle on a stove'}}],'interpretations':[{'element':'tone','interpretation':'cosy','confidence':0.6,'alternatives':['brisk']},{'element':'setting','interpretation':'kitchen','confidence':0.9},{'element':'time','interpretation':'morning','confidence':0.2}],'missing_info':[{'question':'Q1','criticality':'low','default_used':'a kitchen'}]}".

(** Low confidence and five questions, all of high criticality. *)
Definition doc_five_questions : string :=
  "{'metadata':{'confidence_score':0.3},'project':{'title':'Kettle'},'global_style':{'look':'warm'},'shots':[{'shot_number':1,'prompt':{'full_prompt':'A kettle on a stove'}}],'missing_info':[{'question':'Q1','criticality':'high'},{'question':'Q2','criticality':'high'},{'question':'Q3','criticality':'high'},{'question':'Q4','criticality':'high'},{'question':'Q5','criticality':'high'}]}".

(** The value a destructuring with a default binds: the default stands in
    for [undefined] only. *)
Definition or_default (v d : value) : value :=
  match v with
  | VUndefined => d
  | _ => v
  end.

(** The options generateArchitecture hands to the prompt assembler: what
    the caller gave, with the defaults of its destructuring. *)
Definition requirements (options : value) : value :=
  let options := default_object options in
  VObj [("platform", or_default (field options "platform") (VStr "platform-agnostic"));
        ("shotCount", or_default (field options "shotCount") VNull);
        ("brandContext", or_default (field options "brandContext") VNull)].

(** The feedback regenerateShots composes for shot numbers and a
    direction. *)
Definition regeneration_feedback `{Host} (numbers : list float) (direction : string) : string :=
  "Regenerate shots " ++ Str.join ", " (map Number_toString numbers)
  ++ (if direction =? "" then
        " with fresh creative interpretation while maintaining the overall style and continuity."
      else " with this direction: " ++ direction).

(** The refinement note for a feedback text. *)
Definition note_of (feedback : string) : string :=
  if (length feedback <=? 100)%nat then feedback
  else Str.substring0 100 feedback ++ "...".

(** A server whose every reply is an HTTP failure with the given status. *)
Definition failing (code : float) : string -> value -> completion response :=
  fun _ _ => Normal {| ok := false;
                       status := VNum code;
                       json := Normal (VObj [("error", VStr "Failed to generate response")]) |}.

(** The engine outside a browser. *)
Definition node : Host := js_host false (answering "") "2026-01-01T00:00:00.000Z".

(** The sub-fields of a structured input the assembler renders. *)
Definition structured_fields : list string :=
  ["concept"; "tone"; "narrative"; "characters"; "shots"; "style"; "constraints"].

(** A [text] object, and options whose shot count and brand context are
    falsy without being unset. *)
Definition input_text : value :=
  VObj [("type", VStr "text"); ("content", VStr "A kettle that sings")].

Definition options_falsy : value :=
  VObj [("platform", VStr "platform-agnostic"); ("shotCount", VNum 0); ("brandContext", VStr "")].

(** An input of a type the assembler does not know. *)
Definition input_storyboard : value :=
  VObj [("type", VStr "storyboard"); ("content", VStr "A kettle that sings")].

(** The structured input with its properties in another order, and one
    property more. *)
Definition input_structured_shuffled : value :=
  VObj [("shots", array [VStr "kettle on stove"; VStr "steam rising"]);
        ("author", VStr "someone");
        ("tone", array [VStr "warm"; VStr "whimsical"]);
        ("concept", VStr "A kettle that sings");
        ("type", VStr "structured")].

(** The entry extractPrompts makes of a shot whose prompt can be read. *)
Definition entry_of (shot : value) : value :=
  VObj [("shotNumber", field shot "shot_number");
        ("shotId", field shot "shot_id");
        ("narrativeBeat", field shot "narrative_beat");
        ("prompt", field (field shot "prompt") "full_prompt");
        ("negativePrompt", js_or (field (field shot "prompt") "negative_prompt") VNull)].

(** Two shots, the second with a negative prompt. *)
Definition doc_two_shots : string :=
  "{'metadata':{'confidence_score':0.9},'project':{'title':'Kettle'},'global_style':{'look':'warm'},'shots':[{'shot_number':1,'shot_id':'s1','narrative_beat':'establish the kitchen','prompt':{'full_prompt':'A kettle on a stove'}},{'shot_number':2,'shot_id':'s2','narrative_beat':'the reveal','prompt':{'full_prompt':'Steam rising','negative_prompt':'blurry'}}]}".

(** The keywords suggestFilmGrammar looks for, all groups together. *)
Definition grammar_keywords : list string :=
  ["establish"; "intro"; "open"; "reveal"; "discover"; "action"; "dynamic";
   "emotion"; "reaction"; "moment"; "product"; "hero"; "beauty";
   "end"; "resolve"; "conclude"].

Definition wide_suggestion : value :=
  suggestion "wide" "static or slow pan" "Wide shots establish context and orient the viewer".

Definition default_suggestion : value :=
  suggestion "medium" "context-dependent"
    "Default neutral framing - specify narrative intent for better suggestion".

(* ====================================================================== *)
(** ** The generation endpoint (api/generate.js)

    The handler runs against three things it does not define: the request
    [req], a value; the response [res], whose [status], [setHeader],
    [json] and [end] are taken to do what they do in Node and never to
    throw; and the Anthropic client, whose [messages.create] resolves
    with a message or rejects with an error.  A run is described by what
    it leaves behind: the [exchange]. *)
(* ====================================================================== *)

Module Api.

(** What a [catch] clause receives: an exception of the language, or the
    value a rejected promise carries. *)
Inductive caught : Type :=
| Native (e : exn)
| Rejection (error : value).

Record exchange : Type := {
  (** [res.statusCode]: 200 until [res.status(code)] sets it. *)
  statusCode : nat;
  (** The [res.setHeader] calls, in order. *)
  headers : list (string * string);
  (** [None] while nothing is sent; [Some None] after [res.end()];
      [Some (Some body)] after [res.json(body)]. *)
  sent : option (option value);
  (** The calls of [anthropic.messages.create]. *)
  requests : list value;
  (** What [console.error('API Error:', error)] was given. *)
  logged : list caught;
  (** The exception the handler's promise rejects with, if it does. *)
  thrown : option exn
}.

Definition initial : exchange :=
  {| statusCode := 200; headers := []; sent := None; requests := []; logged := [];
     thrown := None |}.

(** [res.status(code).json(body)] *)
Definition respond (code : nat) (body : value) (x : exchange) : exchange :=
  {| statusCode := code; headers := headers x; sent := Some (Some body);
     requests := requests x; logged := logged x; thrown := thrown x |}.

(** [res.status(code).end()] *)
Definition finish (code : nat) (x : exchange) : exchange :=
  {| statusCode := code; headers := headers x; sent := Some None;
     requests := requests x; logged := logged x; thrown := thrown x |}.

(** The three [res.setHeader] calls. *)
Definition cors (x : exchange) : exchange :=
  {| statusCode := statusCode x;
     headers := (headers x ++ [("Access-Control-Allow-Origin", "*");
                               ("Access-Control-Allow-Methods", "POST, OPTIONS");
                               ("Access-Control-Allow-Headers", "Content-Type")])%list;
     sent := sent x; requests := requests x; logged := logged x; thrown := thrown x |}.

Definition calling (request : value) (x : exchange) : exchange :=
  {| statusCode := statusCode x; headers := headers x; sent := sent x;
     requests := (requests x ++ [request])%list; logged := logged x; thrown := thrown x |}.

Definition logging (error : caught) (x : exchange) : exchange :=
  {| statusCode := statusCode x; headers := headers x; sent := sent x;
     requests := requests x; logged := (logged x ++ [error])%list; thrown := thrown x |}.

Definition rejecting (e : exn) (x : exchange) : exchange :=
  {| statusCode := statusCode x; headers := headers x; sent := sent x;
     requests := requests x; logged := logged x; thrown := Some e |}.

(** [v === code] for a number literal [code]. *)
Definition is_status (v : value) (code : float) : bool :=
  match v with
  | VNum x => PrimFloat.eqb x code
  | _ => false
  end.

(** The destructuring of [req.body] and, when there is a prompt, the
    request made of it. *)
Definition request_of (req : value) : completion (option value) :=
  body <- get_prop req "body" ;;
  system <- get_prop body "system" ;;
  prompt <- get_prop body "prompt" ;;
  max_tokens <- destructure body "max_tokens" (VNum 8000) ;;
  if negb (truthy prompt) then Normal None
  else Normal (Some (VObj [("model", VStr "claude-sonnet-4-20250514");
                           ("max_tokens", max_tokens);
                           ("system", js_or system (VStr ""));
                           ("messages",
                            array [VObj [("role", VStr "user"); ("content", prompt)]])])).

(** [block => block.type === 'text'] *)
Definition is_text (block : value) : completion bool :=
  type <- get_prop block "type" ;;
  Normal (is_str type "text").

Section Handler.
Context `{Host}.

(** [anthropic.messages.create(request)]: the message it resolves with
    ([inl]) or the error it rejects with ([inr]). *)
Variable create : value -> value + value.

(** The [message] of the TypeError a run on [req] throws inside the
    [try]: its wording is the engine's. *)
Variable native_message : value -> string.

(** [message.content.filter(...).map(block => block.text).join('\n')] *)
Definition content_of (message : value) : completion string :=
  content <- get_prop message "content" ;;
  blocks <- array_method "filter" content ;;
  texts <- filter_by is_text blocks ;;
  texts <- map_indexed (fun block _ => get_prop block "text") 0 texts ;;
  join_with ToString nl texts.

(** The body of the 200 response. *)
Definition success_body (message : value) : completion value :=
  content <- content_of message ;;
  usage <- get_prop message "usage" ;;
  model <- get_prop message "model" ;;
  Normal (VObj [("content", VStr content); ("usage", usage); ("model", model)]).

(** [error.status] and [error.message] in the [catch] clause. *)
Definition status_of (error : caught) : completion value :=
  match error with
  | Native _ => Normal VUndefined
  | Rejection error => get_prop error "status"
  end.

Definition message_of (req : value) (error : caught) : completion value :=
  match error with
  | Native (Error message) => Normal (VStr message)
  | Native _ => Normal (VStr (native_message req))
  | Rejection error => get_prop error "message"
  end.

(** The [catch] clause. *)
Definition recover (req : value) (error : caught) (x : exchange) : exchange :=
  let x := logging error x in
  match status_of error with
  | Throw e => rejecting e x
  | Normal status =>
      if is_status status 401 then
        respond 401 (VObj [("error", VStr "Invalid API key")]) x
      else if is_status status 429 then
        respond 429 (VObj [("error", VStr "Rate limit exceeded")]) x
      else
        match message_of req error with
        | Throw e => rejecting e x
        | Normal details =>
            respond 500 (VObj [("error", VStr "Failed to generate response");
                               ("details", details)]) x
        end
  end.

Definition handler (req : value) : exchange :=
  match get_prop req "method" with
  | Throw e => rejecting e initial
  | Normal method =>
      if negb (is_str method "POST") then
        respond 405 (VObj [("error", VStr "Method not allowed")]) initial
      else
        let x := cors initial in
        if is_str method "OPTIONS" then finish 200 x
        else
          match request_of req with
          | Throw e => recover req (Native e) x
          | Normal None =>
              respond 400 (VObj [("error", VStr "Missing prompt in request body")]) x
          | Normal (Some request) =>
              let x := calling request x in
              match create request with
              | inr error => recover req (Rejection error) x
              | inl message =>
                  match success_body message with
                  | Throw e => recover req (Native e) x
                  | Normal body => respond 200 body x
                  end
              end
          end
  end.

End Handler.

(** A client that resolves every call with [message], and one that
    rejects every call with [error]. *)
Definition resolving (message : value) : value -> value + value := fun _ => inl message.
Definition failing_with (error : value) : value -> value + value := fun _ => inr error.

(** A POST request with a JSON body. *)
Definition post (body : value) : value :=
  VObj [("method", VStr "POST"); ("body", body)].

(** A message of two text blocks around a block of another type. *)
Definition message_example : value :=
  VObj [("content",
         array [VObj [("type", VStr "text"); ("text", VStr "{'shots':")];
                VObj [("type", VStr "tool_use"); ("name", VStr "lookup")];
                VObj [("type", VStr "text"); ("text", VStr "[]}")]]);
        ("usage", VObj [("output_tokens", VNum 12)]);
        ("model", VStr "claude-sonnet-4-20250514")].

(** The text of a block. *)
Definition text_of (block : value) : value := field block "text".

(** A block whose type is [text]. *)
Definition text_block (block : value) : bool := is_str (field block "type") "text".

(** The text of a block whose text is a string. *)
Definition text_string (block : value) : string :=
  match field block "text" with
  | VStr s => s
  | _ => ""
  end.

(** The three CORS headers. *)
Definition cors_headers : list (string * string) :=
  [("Access-Control-Allow-Origin", "*");
   ("Access-Control-Allow-Methods", "POST, OPTIONS");
   ("Access-Control-Allow-Headers", "Content-Type")].

(** The request the handler makes of a body. *)
Definition request_for (body : value) : value :=
  VObj [("model", VStr "claude-sonnet-4-20250514");
        ("max_tokens", or_default (field body "max_tokens") (VNum 8000));
        ("system", js_or (field body "system") (VStr ""));
        ("messages",
         array [VObj [("role", VStr "user"); ("content", field body "prompt")]])].

(** The status codes the handler answers with. *)
Definition status_codes : list nat := [200; 400; 401; 405; 429; 500].

(** What a run that got past the method check ends in, from the state
    [x0] it reached before: a response, a response after the [catch]
    clause logged the error, or a rejection out of the [catch] clause. *)
Inductive settled (x0 : exchange) : exchange -> Prop :=
| settled_respond code body :
    In code [200; 400]%nat -> settled x0 (respond code body x0)
| settled_logged code body error :
    In code [401; 429; 500]%nat ->
    settled x0 (respond code body (logging error x0))
| settled_rejected e error :
    settled x0 (rejecting e (logging error x0)).

End Api.

(** An interpretation as the summary expects it: texts for [element] and
    [interpretation], a number for [confidence], and alternatives that
    are unset or an array of texts. *)
Definition wf_summary_item (i : value) : bool :=
  defined i
  && is_string (field i "element")
  && is_string (field i "interpretation")
  && is_number (field i "confidence")
  && opt (all_in is_string) (field i "alternatives").

(** The text a string value holds. *)
Definition string_of (v : value) : string :=
  match v with
  | VStr s => s
  | _ => ""
  end.

(** The number a number value holds. *)
Definition number_of (v : value) : float :=
  match v with
  | VNum x => x
  | _ => nan
  end.

(** [xs.length > 0] on an array of these elements. *)
Definition non_empty (xs : list value) : bool :=
  PrimFloat.ltb 0 (num_of_nat (List.length xs)).

(** The block of the summary for one interpretation: its element and
    interpretation, its confidence as a rounded percentage, and its
    alternatives when it has any. *)
Definition summary_block `{Host} (bullet : string) (i : value) : string :=
  ((bullet ++ " **") ++ string_of (field i "element") ++ "**: ")
  ++ (string_of (field i "interpretation") ++ nl ++ "  _Confidence: ")
  ++ (Number_toString (Math_round (number_of (field i "confidence") * 100)) ++ "%")
  ++ match field i "alternatives" with
     | VArr alternatives _ =>
         if non_empty alternatives
         then " | Alternatives: " ++ Str.join ", " (map string_of alternatives)
         else ""
     | _ => ""
     end
  ++ "_".

(* ====================================================================== *)
(** ** The prompt, in the words of the specification

    The text the assembler is to render, written without reference to the
    code: every part for a field that is unset is the empty list or the
    empty text. *)
(* ====================================================================== *)

(** A labelled part for a text that is set and not empty. *)
Definition text_part (label : string) (v : value) : list string :=
  if truthy v then [label ++ string_of v] else [].

(** The tone: one text, or several joined by commas. *)
Definition tone_part (tone : value) : list string :=
  if truthy tone then
    ["Tone: " ++ match tone with
                 | VArr tones _ => Str.join ", " (map string_of tones)
                 | _ => string_of tone
                 end]
  else [].

Definition character_line (c : value) : string :=
  "- " ++ string_of (field c "name") ++ ": " ++ string_of (field c "description").

Definition characters_part (characters : value) : list string :=
  match characters with
  | VArr cs _ => ["Characters:" ++ nl ++ Str.join nl (map character_line cs)]
  | _ => []
  end.

(** Lines numbered from [i]. *)
Fixpoint numbered (i : nat) (ls : list string) : list string :=
  match ls with
  | [] => []
  | l :: rest => (Str.of_nat i ++ ". " ++ l) :: numbered (S i) rest
  end.

Definition shots_part (shots : value) : list string :=
  match shots with
  | VArr ss _ => ["Shot ideas:" ++ nl ++ Str.join nl (numbered 1 (map string_of ss))]
  | _ => []
  end.

(** A structured input: the parts that are set, separated by blank
    lines. *)
Definition structured_text (input : value) : string :=
  Str.join (nl ++ nl)
    (text_part "Concept: " (field input "concept")
     ++ tone_part (field input "tone")
     ++ text_part "Narrative: " (field input "narrative")
     ++ characters_part (field input "characters")
     ++ shots_part (field input "shots")
     ++ text_part "Style notes: " (field input "style")
     ++ text_part "Constraints: " (field input "constraints"))%list.

(** The rendered input content, by variant. *)
Definition input_section (input : value) : string :=
  match input with
  | VStr s => s
  | _ =>
      if is_str (field input "type") "text" then string_of (field input "content")
      else if is_str (field input "type") "deck" then
        "[Parsed from deck: " ++ string_of (field input "filename") ++ "]" ++ nl ++ nl
        ++ string_of (field input "parsedContent")
      else if is_str (field input "type") "structured" then structured_text input
      else ""
  end.

(** A reference: its description, and its url in brackets when it has
    one. *)
Definition reference_text (r : value) : string :=
  string_of (field r "description")
  ++ (if truthy (field r "url") then " (" ++ string_of (field r "url") ++ ")" else "").

(** The references section: a numbered list, nothing when there is no
    reference. *)
Definition references_text (input : value) : string :=
  match field input "references" with
  | VArr rs _ =>
      if non_empty rs then
        nl ++ "## Visual References" ++ nl ++ Str.join nl (numbered 1 (map reference_text rs))
      else ""
  | _ => ""
  end.

(** The shot count, or the instruction to infer it. *)
Definition shot_count_text `{Host} (shotCount : value) : string :=
  match shotCount with
  | VNum x => if truthy shotCount then Number_toString x
              else "infer from content (typically 4-8 for a :15-:30 spot)"
  | _ => "infer from content (typically 4-8 for a :15-:30 spot)"
  end.

(** The brand context line: empty when no brand context is set. *)
Definition brand_line (brandContext : value) : string :=
  if truthy brandContext then "- Brand context: " ++ string_of brandContext else "".

(** The whole prompt, line by line. *)
Definition prompt_text `{Host} (input options : value) : string :=
  Str.join nl
    [""; "## Creative Input"; "";
     input_section input;
     references_text input;
     ""; "## Requirements"; "";
     "- Target platform: " ++ string_of (field options "platform");
     "- Number of shots: " ++ shot_count_text (field options "shotCount");
     "- Output format: Complete JSON matching the prompt_architecture_schema";
     brand_line (field options "brandContext");
     ""; "## Instructions"; "";
     "Analyze this creative input and produce a complete prompt architecture.";
     "";
     "You MUST include:";
     "1. All required schema fields (metadata, project, global_style, shots)";
     "2. Copy/paste ready prompts for each shot in shots[].prompt.full_prompt";
     "3. Component breakdown in shots[].prompt.prompt_components";
     "4. All interpretive decisions you made in the interpretations[] array";
     "5. Any questions that would improve the output in missing_info[]";
     "";
     "For EACH shot prompt, structure it as:";
     "[Subject with full character description if applicable] + [Action/motion] + [Environment] + [Lighting] + [Camera/framing] + [Style/quality markers]";
     "";
     "Output valid JSON only. No markdown, no explanation outside the JSON.";
     ""].

(** *** Inputs on which a part the assembler renders is missing *)

(** A deck without a filename. *)
Definition input_deck_unnamed : value :=
  VObj [("type", VStr "deck"); ("parsedContent", VStr "Slide 1: a kettle")].

(** A structured input whose one character has no description. *)
Definition input_character_undescribed : value :=
  VObj [("type", VStr "structured");
        ("concept", VStr "A kettle that sings");
        ("characters", array [VObj [("name", VStr "Ada")]])].

(** Options whose platform is [null]. *)
Definition options_platform_null : value :=
  VObj [("platform", VNull)].

(** A structured input with every sub-field and the references set. *)
Definition input_structured_full : value :=
  VObj [("type", VStr "structured");
        ("concept", VStr "A kettle that sings");
        ("tone", VStr "warm");
        ("narrative", VStr "Morning in a kitchen");
        ("characters", array [VObj [("name", VStr "Ada"); ("description", VStr "a baker")]]);
        ("shots", array [VStr "kettle on stove"]);
        ("style", VStr "35mm");
        ("constraints", VStr "no dialogue");
        ("references",
         array [VObj [("description", VStr "a still life"); ("url", VStr "https://example.org/a")];
                VObj [("description", VStr "steam")]])].

(** Options with a shot count and a brand context. *)
Definition options_set : value :=
  VObj [("platform", VStr "runway"); ("shotCount", VNum 6); ("brandContext", VStr "Kettle Co")].

(** *** A document for the gate *)

(** Low confidence, and a question of high criticality followed by
    [null]. *)
Definition doc_question_then_null : string :=
  "{'metadata':{'confidence_score':0.4},'project':{'title':'Kettle'},'global_style':{'look':'warm'},'shots':[{'shot_number':1,'prompt':{'full_prompt':'A kettle on a stove'}}],'missing_info':[{'question':'Q1','why_it_matters':'sets the mood','criticality':'high','default_used':false},null]}".

(** The text of a template whose substitutions are texts and numbers. *)
Definition piece_text `{Host} (p : piece) : string :=
  match p with
  | Lit s => s
  | Sub (VNum x) => Number_toString x
  | Sub v => string_of v
  end.

Fixpoint pieces_text `{Host} (ps : list piece) : string :=
  match ps with
  | [] => ""
  | p :: rest => piece_text p ++ pieces_text rest
  end.

(** The text a completion carries holds [pattern]. *)
Definition shows (c : completion string) (pattern : string) : bool :=
  match c with
  | Normal text => Str.includes text pattern
  | Throw _ => false
  end.

(* ====================================================================== *)
(** ** Property tables, reads and writes *)
(* ====================================================================== *)

Open Scope float_scope.
Open Scope string_scope.

Lemma lookup_update_same k v ps : lookup k (update k v ps) = Some v.
Proof.
  induction ps as [|[k' v'] ps IH]; simpl.
  - now rewrite String.eqb_refl.
  - destruct (k' =? k) eqn:E; simpl.
    + now rewrite String.eqb_refl.
    + now rewrite E.
Qed.

Lemma lookup_update_other k k' v ps : k <> k' -> lookup k (update k' v ps) = lookup k ps.
Proof.
  intros Hne. induction ps as [|[k0 v0] ps IH]; simpl.
  - destruct (k' =? k) eqn:E; [apply String.eqb_eq in E; congruence | reflexivity].
  - destruct (k0 =? k') eqn:E; simpl.
    + apply String.eqb_eq in E; subst k0.
      destruct (k' =? k) eqn:E'; [apply String.eqb_eq in E'; congruence | reflexivity].
    + destruct (k0 =? k); [reflexivity | exact IH].
Qed.

Lemma update_lookup_id k v ps : lookup k ps = Some v -> update k v ps = ps.
Proof.
  induction ps as [|[k0 v0] ps IH]; simpl; [discriminate|].
  destruct (k0 =? k) eqn:E.
  - intros [= ->]. apply String.eqb_eq in E. now subst.
  - intros Hl. now rewrite IH.
Qed.

Tactic Notation "bind_inv" hyp(H) "as" ident(x) ident(E) :=
  match type of H with
  | bind ?c _ = Normal _ =>
      destruct c as [x|] eqn:E; cbn [bind] in H; [ | discriminate H ]
  end.

Lemma get_prop_defined o k : defined o = true -> get_prop o k = Normal (field o k).
Proof.
  unfold field. destruct o; try discriminate; intros _; cbn;
    repeat match goal with |- context [if ?b then _ else _] => destruct b | |- context [match ?x with _ => _ end] => destruct x end;
    reflexivity.
Qed.

Lemma get_prop_normal o k v : get_prop o k = Normal v -> defined o = true /\ field o k = v.
Proof.
  intros Hg. unfold field. rewrite Hg. split; [|reflexivity].
  destruct o; try reflexivity; discriminate.
Qed.

Lemma get_prop_undefined o k : defined o = false -> get_prop o k = Throw TypeError.
Proof. destruct o; try discriminate; reflexivity. Qed.

Lemma truthy_defined v : truthy v = true -> defined v = true.
Proof. destruct v; try discriminate; reflexivity. Qed.

Lemma is_object_defined v : is_object v = true -> defined v = true.
Proof. destruct v; try discriminate; reflexivity. Qed.

Lemma is_object_truthy v : is_object v = true -> truthy v = true.
Proof. destruct v; try discriminate; reflexivity. Qed.

Lemma set_prop_normal o k v o' :
  set_prop o k v = Normal o' -> is_object o = true /\ is_object o' = true.
Proof. destruct o; try discriminate; intros [= <-]; split; reflexivity. Qed.

Lemma set_prop_object o k v : is_object o = true -> exists o', set_prop o k v = Normal o'.
Proof. destruct o; try discriminate; intros _; eexists; reflexivity. Qed.

Lemma named_spec k : named k = true -> (k =? "length") = false /\ Str.to_index k = None.
Proof.
  unfold named. destruct (k =? "length"); [discriminate|].
  destruct (Str.to_index k); [discriminate|]. now split.
Qed.

Lemma field_set_same o k v o' :
  named k = true -> set_prop o k v = Normal o' -> field o' k = v.
Proof.
  intros Hn Hs. apply named_spec in Hn as [Hl Hi].
  destruct o; try discriminate; injection Hs as <-; unfold field; cbn;
    rewrite ?Hl, ?Hi, lookup_update_same; reflexivity.
Qed.

Lemma get_set_other o k k' v o' :
  k <> k' -> set_prop o k' v = Normal o' -> get_prop o' k = get_prop o k.
Proof.
  intros Hne Hs.
  destruct o; try discriminate; injection Hs as <-; cbn;
    rewrite ?lookup_update_other by assumption; reflexivity.
Qed.

Lemma field_set_other o k k' v o' :
  k <> k' -> set_prop o k' v = Normal o' -> field o' k = field o k.
Proof. intros Hne Hs. unfold field. now rewrite (get_set_other _ _ _ _ _ Hne Hs). Qed.

Lemma set_same_id o k :
  named k = true -> is_object o = true -> field o k <> VUndefined ->
  set_prop o k (field o k) = Normal o.
Proof.
  intros Hn Ho Hv. apply named_spec in Hn as [Hl Hi].
  destruct o; try discriminate; unfold field in *; cbn in *; rewrite ?Hl, ?Hi in *;
    match goal with
    | |- context [lookup k ?ps] =>
        destruct (lookup k ps) eqn:El; cbn in *; [now rewrite (update_lookup_id _ _ _ El) | congruence]
    end.
Qed.

Lemma array_method_normal method xs elems :
  array_method method xs = Normal elems ->
  exists own, xs = VArr elems own /\ lookup method own = None.
Proof.
  destruct xs; try discriminate. cbn.
  destruct (lookup method own) eqn:El; [discriminate|].
  intros [= ->]. now exists own.
Qed.

Lemma array_method_visible method elems own :
  lookup method own = None -> array_method method (VArr elems own) = Normal elems.
Proof. intros Hl. cbn. now rewrite Hl. Qed.

(** ** The validator *)

Lemma missing_fields_defined arch fields :
  defined arch = true ->
  missing_fields arch fields = Normal (filter (fun f => negb (truthy (field arch f))) fields).
Proof.
  intros Hd. induction fields as [|f fs IH]; cbn; [reflexivity|].
  rewrite (get_prop_defined _ _ Hd), IH. cbn.
  now destruct (truthy (field arch f)).
Qed.

Lemma missing_fields_undefined arch f fs :
  defined arch = false -> missing_fields arch (f :: fs) = Throw TypeError.
Proof. intros Hd. cbn. now rewrite (get_prop_undefined _ _ Hd). Qed.

Lemma has_full_prompt_defined shot : has_full_prompt shot = true -> defined shot = true.
Proof.
  unfold has_full_prompt, field. destruct shot; try reflexivity; cbn; discriminate.
Qed.

Lemma check_shot_defined shot i :
  defined shot = true ->
  check_shot shot i = if has_full_prompt shot then Normal tt else Throw (shot_error i).
Proof.
  intros Hd. unfold check_shot, has_full_prompt.
  rewrite (get_prop_defined _ _ Hd). cbn.
  destruct (truthy (field shot "prompt")) eqn:Ep; cbn; [|reflexivity].
  rewrite (get_prop_defined _ _ (truthy_defined _ Ep)). cbn.
  now destruct (truthy (field (field shot "prompt") "full_prompt")).
Qed.

Lemma check_shots_ok i shots :
  forallb has_full_prompt shots = true -> check_shots i shots = Normal tt.
Proof.
  revert i. induction shots as [|s ss IH]; intros i Hall; cbn in *; [reflexivity|].
  apply andb_true_iff in Hall as [Hs Hss].
  rewrite (check_shot_defined _ _ (has_full_prompt_defined _ Hs)), Hs. cbn. now apply IH.
Qed.

Lemma check_shots_normal i shots u :
  check_shots i shots = Normal u -> forallb has_full_prompt shots = true.
Proof.
  revert i. induction shots as [|s ss IH]; intros i Hc; cbn in *; [reflexivity|].
  destruct (defined s) eqn:Hd.
  - rewrite (check_shot_defined _ _ Hd) in Hc.
    destruct (has_full_prompt s); cbn in Hc; [|discriminate]. cbn. eauto.
  - unfold check_shot in Hc. now rewrite (get_prop_undefined _ _ Hd) in Hc.
Qed.

Lemma check_shots_first_bad i good bad rest :
  forallb has_full_prompt good = true ->
  defined bad = true -> has_full_prompt bad = false ->
  check_shots i (good ++ bad :: rest) = Throw (shot_error (i + List.length good)).
Proof.
  revert i. induction good as [|s ss IH]; intros i Hall Hd Hb; cbn in *.
  - rewrite (check_shot_defined _ _ Hd), Hb. cbn. now rewrite Nat.add_0_r.
  - apply andb_true_iff in Hall as [Hs Hss].
    rewrite (check_shot_defined _ _ (has_full_prompt_defined _ Hs)), Hs. cbn.
    rewrite IH by assumption. now rewrite Nat.add_succ_r.
Qed.

Lemma default_array_inv arch k arch' :
  named k = true -> default_array arch k = Normal arch' ->
  is_object arch = true /\ is_object arch' = true
  /\ field arch' k = js_or (field arch k) (array [])
  /\ forall k', k' <> k -> get_prop arch' k' = get_prop arch k'.
Proof.
  intros Hn Hd. unfold default_array in Hd. bind_inv Hd as v E.
  apply get_prop_normal in E as [_ <-].
  destruct (set_prop_normal _ _ _ _ Hd) as [Ho Ho'].
  repeat split; try assumption.
  - now apply (field_set_same _ _ _ _ Hn Hd).
  - intros k' Hne. now apply (get_set_other _ _ _ _ _ Hne Hd).
Qed.

Lemma js_or_truthy v d : truthy d = true -> truthy (js_or v d) = true.
Proof. unfold js_or. intros Hd. now destruct (truthy v) eqn:E. Qed.

Lemma default_array_id arch k :
  named k = true -> is_object arch = true -> truthy (field arch k) = true ->
  default_array arch k = Normal arch.
Proof.
  intros Hn Ho Ht. unfold default_array.
  rewrite (get_prop_defined _ _ (is_object_defined _ Ho)). cbn.
  unfold js_or. rewrite Ht. apply set_same_id; try assumption.
  intros E. now rewrite E in Ht.
Qed.

(** What a successful validation establishes. *)
Lemma validate_normal p a :
  validateArchitecture p = Normal a ->
  is_object p = true /\ is_object a = true
  /\ missing_of p = []
  /\ (exists shots own,
        field p "shots" = VArr shots own /\ lookup "forEach" own = None
        /\ forallb has_full_prompt shots = true)
  /\ (if is_number (field (field p "metadata") "confidence_score")
      then field a "metadata" = field p "metadata"
      else set_prop (field p "metadata") "confidence_score" (VNum 0.8) = Normal (field a "metadata"))
  /\ (forall k, In k optional_arrays -> field a k = js_or (field p k) (array []))
  /\ (forall k, k <> "metadata" -> ~ In k optional_arrays -> get_prop a k = get_prop p k).
Proof.
  intros Hv. unfold validateArchitecture in Hv.
  bind_inv Hv as x E.
  assert (Hd : defined p = true).
  { destruct (defined p) eqn:Hd; [reflexivity|].
    unfold required in E. now rewrite (missing_fields_undefined _ _ _ Hd) in E. }
  assert (Hx : x = missing_of p).
  { rewrite (missing_fields_defined _ _ Hd) in E. unfold missing_of. congruence. }
  subst x. clear E.
  destruct (missing_of p) eqn:Em; cbn [List.length Nat.ltb Nat.leb] in Hv; [|discriminate Hv].
  rewrite (get_prop_defined _ _ Hd) in Hv. cbn [bind] in Hv.
  bind_inv Hv as shots Eshots.
  apply array_method_normal in Eshots as (own & Es & Hown).
  bind_inv Hv as u Eu.
  apply check_shots_normal in Eu.
  rewrite (get_prop_defined _ _ Hd) in Hv. cbn [bind] in Hv.
  bind_inv Hv as cs Ecs. apply get_prop_normal in Ecs as [Hdm Ecs]. subst cs.
  bind_inv Hv as x1 E1. bind_inv Hv as x2 E2. bind_inv Hv as x3 E3.
  bind_inv Hv as x4 E4. bind_inv Hv as x5 E5.
  injection Hv as <-.
  apply default_array_inv in E2 as (Ho1 & Ho2 & F2 & G2); [|reflexivity].
  apply default_array_inv in E3 as (_ & Ho3 & F3 & G3); [|reflexivity].
  apply default_array_inv in E4 as (_ & Ho4 & F4 & G4); [|reflexivity].
  apply default_array_inv in E5 as (_ & Ho5 & F5 & G5); [|reflexivity].
  assert (fld : forall (o o' : value) k, get_prop o' k = get_prop o k -> field o' k = field o k).
  { intros o o' k Hg. unfold field. now rewrite Hg. }
  assert (Hstep : is_object p = true
                  /\ (if is_number (field (field p "metadata") "confidence_score")
                      then field x1 "metadata" = field p "metadata"
                      else set_prop (field p "metadata") "confidence_score" (VNum 0.8)
                           = Normal (field x1 "metadata"))
                  /\ forall k, k <> "metadata" -> get_prop x1 k = get_prop p k).
  { destruct (is_number (field (field p "metadata") "confidence_score")); cbn [negb] in E1.
    - injection E1 as <-. repeat split; auto.
    - bind_inv E1 as m' Em'.
      destruct (set_prop_normal _ _ _ _ E1) as [Hop _].
      repeat split; auto.
      + f_equal. symmetry. exact (field_set_same p "metadata" m' x1 eq_refl E1).
      + intros k Hk. now apply (get_set_other _ _ _ _ _ Hk E1). }
  destruct Hstep as (Hop & Hm & Hother).
  assert (ne : forall k k' : string, (k =? k') = false -> k <> k').
  { intros k k'. apply String.eqb_neq. }
  repeat split; auto.
  - exists shots, own. now repeat split.
  - assert (Hma : field x5 "metadata" = field x1 "metadata").
    { rewrite (fld _ _ _ (G5 "metadata" ltac:(discriminate))),
        (fld _ _ _ (G4 "metadata" ltac:(discriminate))),
        (fld _ _ _ (G3 "metadata" ltac:(discriminate))),
        (fld _ _ _ (G2 "metadata" ltac:(discriminate))).
      reflexivity. }
    rewrite Hma. exact Hm.
  - intros k Hk. cbn in Hk.
    destruct Hk as [<-|[<-|[<-|[<-|[]]]]].
    + rewrite (fld _ _ _ (G5 "interpretations" ltac:(discriminate))),
        (fld _ _ _ (G4 "interpretations" ltac:(discriminate))),
        (fld _ _ _ (G3 "interpretations" ltac:(discriminate))), F2.
      now rewrite (fld _ _ _ (Hother "interpretations" ltac:(discriminate))).
    + rewrite (fld _ _ _ (G5 "missing_info" ltac:(discriminate))),
        (fld _ _ _ (G4 "missing_info" ltac:(discriminate))), F3.
      rewrite (fld _ _ _ (G2 "missing_info" ltac:(discriminate))).
      now rewrite (fld _ _ _ (Hother "missing_info" ltac:(discriminate))).
    + rewrite (fld _ _ _ (G5 "characters" ltac:(discriminate))), F4.
      rewrite (fld _ _ _ (G3 "characters" ltac:(discriminate))),
        (fld _ _ _ (G2 "characters" ltac:(discriminate))).
      now rewrite (fld _ _ _ (Hother "characters" ltac:(discriminate))).
    + rewrite F5.
      rewrite (fld _ _ _ (G4 "environments" ltac:(discriminate))),
        (fld _ _ _ (G3 "environments" ltac:(discriminate))),
        (fld _ _ _ (G2 "environments" ltac:(discriminate))).
      now rewrite (fld _ _ _ (Hother "environments" ltac:(discriminate))).
  - intros k Hk Hnin. cbn in Hnin.
    rewrite G5, G4, G3, G2 by (intros ->; apply Hnin; auto 6).
    now apply Hother.
Qed.

Lemma missing_of_nil p :
  missing_of p = [] <-> forall f, In f required -> truthy (field p f) = true.
Proof.
  unfold missing_of, required. cbn [filter In].
  split.
  - intros Hm f Hf.
    destruct (truthy (field p "metadata")) eqn:E1; cbn [negb] in Hm; [|discriminate].
    destruct (truthy (field p "project")) eqn:E2; cbn [negb] in Hm; [|discriminate].
    destruct (truthy (field p "global_style")) eqn:E3; cbn [negb] in Hm; [|discriminate].
    destruct (truthy (field p "shots")) eqn:E4; cbn [negb] in Hm; [|discriminate].
    destruct Hf as [<-|[<-|[<-|[<-|[]]]]]; assumption.
  - intros Hall.
    rewrite (Hall "metadata"), (Hall "project"), (Hall "global_style"), (Hall "shots");
      auto 6.
Qed.

(** Validation accepts what passes the checks, provided the confidence
    score can be stored. *)
Lemma validate_accepts p shots own :
  is_object p = true ->
  missing_of p = [] ->
  field p "shots" = VArr shots own ->
  lookup "forEach" own = None ->
  forallb has_full_prompt shots = true ->
  is_object (field p "metadata") = true ->
  exists a, validateArchitecture p = Normal a.
Proof.
  intros Ho Hm Hs Hown Hall Hmeta.
  pose proof (is_object_defined _ Ho) as Hd.
  unfold validateArchitecture.
  rewrite (missing_fields_defined _ _ Hd).
  change (filter _ required) with (missing_of p). rewrite Hm.
  cbn [bind List.length Nat.ltb Nat.leb].
  rewrite (get_prop_defined _ _ Hd), Hs. cbn [bind].
  rewrite (array_method_visible _ _ _ Hown). cbn [bind].
  rewrite (check_shots_ok _ _ Hall). cbn [bind].
  rewrite (get_prop_defined _ _ Hd). cbn [bind].
  rewrite (get_prop_defined _ _ (is_object_defined _ Hmeta)). cbn [bind].
  assert (Hstep : exists x1,
             (if negb (is_number (field (field p "metadata") "confidence_score"))
              then metadata' <- set_prop (field p "metadata") "confidence_score" (VNum 0.8) ;;
                   set_prop p "metadata" metadata'
              else Normal p) = Normal x1 /\ is_object x1 = true).
  { destruct (is_number _); cbn [negb].
    - now exists p.
    - destruct (set_prop_object (field p "metadata") "confidence_score" (VNum 0.8) Hmeta) as [m' Em].
      rewrite Em. cbn [bind].
      destruct (set_prop_object p "metadata" m' Ho) as [x1 E1].
      exists x1. split; [assumption|]. now apply (set_prop_normal _ _ _ _ E1). }
  destruct Hstep as (x1 & -> & Ho1). cbn [bind].
  assert (step : forall o k, is_object o = true ->
                             exists o', default_array o k = Normal o' /\ is_object o' = true).
  { intros o k Hoo. unfold default_array.
    rewrite (get_prop_defined _ _ (is_object_defined _ Hoo)). cbn [bind].
    destruct (set_prop_object o k (js_or (field o k) (array [])) Hoo) as [o' Eo].
    exists o'. split; [assumption|]. now apply (set_prop_normal _ _ _ _ Eo). }
  destruct (step x1 "interpretations" Ho1) as (x2 & -> & Ho2). cbn [bind].
  destruct (step x2 "missing_info" Ho2) as (x3 & -> & Ho3). cbn [bind].
  destruct (step x3 "characters" Ho3) as (x4 & -> & Ho4). cbn [bind].
  destruct (step x4 "environments" Ho4) as (x5 & -> & Ho5). cbn [bind].
  now exists x5.
Qed.

(** Validating an already complete architecture returns it unchanged. *)
Lemma validate_complete a shots own :
  is_object a = true ->
  missing_of a = [] ->
  field a "shots" = VArr shots own ->
  lookup "forEach" own = None ->
  forallb has_full_prompt shots = true ->
  is_number (field (field a "metadata") "confidence_score") = true ->
  (forall k, In k optional_arrays -> truthy (field a k) = true) ->
  validateArchitecture a = Normal a.
Proof.
  intros Ho Hm Hs Hown Hall Hnum Hopt.
  pose proof (is_object_defined _ Ho) as Hd.
  assert (Hmeta : defined (field a "metadata") = true).
  { apply truthy_defined. apply (proj1 (missing_of_nil a) Hm). cbn; auto. }
  unfold validateArchitecture.
  rewrite (missing_fields_defined _ _ Hd).
  change (filter _ required) with (missing_of a). rewrite Hm.
  cbn [bind List.length Nat.ltb Nat.leb].
  rewrite (get_prop_defined _ _ Hd), Hs. cbn [bind].
  rewrite (array_method_visible _ _ _ Hown). cbn [bind].
  rewrite (check_shots_ok _ _ Hall). cbn [bind].
  rewrite (get_prop_defined _ _ Hd). cbn [bind].
  rewrite (get_prop_defined _ _ Hmeta). cbn [bind].
  rewrite Hnum. cbn [negb bind].
  rewrite (default_array_id a "interpretations") by (auto; apply Hopt; cbn; auto 6).
  cbn [bind].
  rewrite (default_array_id a "missing_info") by (auto; apply Hopt; cbn; auto 6).
  cbn [bind].
  rewrite (default_array_id a "characters") by (auto; apply Hopt; cbn; auto 6).
  cbn [bind].
  rewrite (default_array_id a "environments") by (auto; apply Hopt; cbn; auto 6).
  reflexivity.
Qed.

Lemma validate_idempotent p a :
  validateArchitecture p = Normal a -> validateArchitecture a = Normal a.
Proof.
  intros Hv.
  destruct (validate_normal _ _ Hv)
    as (Hop & Hoa & Hm & (shots & own & Hs & Hown & Hall) & Hmeta & Hopt & Hrest).
  assert (fld : forall k, k <> "metadata" -> ~ In k optional_arrays -> field a k = field p k).
  { intros k H1 H2. unfold field. now rewrite Hrest. }
  pose proof (proj1 (missing_of_nil p) Hm) as Hreq.
  assert (Hma : truthy (field a "metadata") = true
                /\ is_number (field (field a "metadata") "confidence_score") = true).
  { destruct (is_number (field (field p "metadata") "confidence_score")) eqn:En.
    - rewrite Hmeta. split; [apply Hreq; cbn; auto | assumption].
    - destruct (set_prop_normal _ _ _ _ Hmeta) as [_ Ho'].
      split; [now apply is_object_truthy|].
      now rewrite (field_set_same _ "confidence_score" _ _ eq_refl Hmeta). }
  destruct Hma as [Hma Hnum].
  apply (validate_complete a shots own); try assumption.
  - apply missing_of_nil. intros f Hf. cbn in Hf.
    destruct Hf as [<-|[<-|[<-|[<-|[]]]]]; try assumption;
      (rewrite fld; [apply Hreq; cbn; auto 6 | discriminate | cbn; intuition discriminate]).
  - rewrite fld; [assumption | discriminate | cbn; intuition discriminate].
  - intros k Hk. rewrite (Hopt k Hk). now apply js_or_truthy.
Qed.

(** ** Numbers *)

Lemma SFcompare_Lt_swap a b : SFcompare a b = Some Lt -> SFcompare b a = Some Gt.
Proof.
  destruct a as [sa|sa| |sa ma ea], b as [sb|sb| |sb mb eb]; cbn;
    try discriminate; try (destruct sa; discriminate); try (destruct sb; discriminate);
    try (destruct sa, sb; (discriminate || reflexivity)).
  assert (flip : forall c, CompOpp c = Lt -> c = Gt) by (now intros []).
  assert (flip' : forall c, c = Lt -> CompOpp c = Gt) by (now intros []).
  destruct sa, sb; try discriminate; try reflexivity;
    rewrite (Z.compare_antisym ea eb);
    destruct (ea ?= eb)%Z; cbn; try discriminate; try reflexivity;
    intros [= Hc]; f_equal.
  - rewrite (Pos.compare_cont_antisym mb ma Eq). cbn. now apply flip.
  - apply flip. rewrite (Pos.compare_cont_antisym mb ma Eq). cbn. exact Hc.
Qed.

Lemma lt_not_ge (x c : float) : PrimFloat.ltb x c = true -> PrimFloat.leb c x = false.
Proof.
  rewrite ltb_spec, leb_spec. unfold SFltb, SFleb.
  destruct (SFcompare (Prim2SF x) (Prim2SF c)) as [[]|] eqn:E; try discriminate.
  intros _. now rewrite (SFcompare_Lt_swap _ _ E).
Qed.

(** ** The gate *)

Lemma filter_by_pure (p : value -> completion bool) (f : value -> bool) xs :
  (forall x, In x xs -> p x = Normal (f x)) -> filter_by p xs = Normal (filter f xs).
Proof.
  induction xs as [|x xs IH]; intros Hp; cbn; [reflexivity|].
  rewrite (Hp x (or_introl eq_refl)). cbn.
  rewrite IH by (intros y Hy; apply Hp; now right). cbn.
  now destruct (f x).
Qed.

Lemma map_indexed_pure {A} (g : value -> nat -> completion A) (f : value -> A) i xs :
  (forall x j, In x xs -> g x j = Normal (f x)) -> map_indexed g i xs = Normal (map f xs).
Proof.
  revert i. induction xs as [|x xs IH]; intros i Hg; cbn; [reflexivity|].
  rewrite (Hg x i (or_introl eq_refl)). cbn.
  rewrite IH by (intros y j Hy; apply Hg; now right). reflexivity.
Qed.

Lemma is_critical_defined q : defined q = true -> is_critical q = Normal (qualifies q).
Proof.
  intros Hd. unfold is_critical, qualifies.
  rewrite (get_prop_defined _ _ Hd). cbn.
  destruct (is_str (field q "criticality") "high"); [reflexivity|].
  now rewrite (get_prop_defined _ _ Hd).
Qed.

Lemma as_question_defined q i : defined q = true -> as_question q i = Normal (reduced q).
Proof.
  intros Hd. unfold as_question, reduced. now rewrite !(get_prop_defined _ _ Hd).
Qed.

Lemma forallb_In {A} (f : A -> bool) xs x : forallb f xs = true -> In x xs -> f x = true.
Proof. intros Hall Hin. now apply (proj1 (forallb_forall f xs) Hall). Qed.

Lemma filter_defined f (xs : list value) x :
  forallb defined xs = true -> In x (filter f xs) -> defined x = true.
Proof. intros Hall Hin. apply filter_In in Hin as [Hin _]. now apply (forallb_In _ _ _ Hall). Qed.

Lemma firstn_In {A} n (xs : list A) x : In x (firstn n xs) -> In x xs.
Proof.
  revert xs. induction n as [|n IH]; intros [|y ys]; cbn; try tauto.
  intros [->|Hin]; [now left | right; now apply IH].
Qed.

Section Gate.
Context `{Host}.

Lemma ToNumber_primitive v : primitive v = true -> exists x, ToNumber v = Normal x.
Proof.
  destruct v as [| |[]| | | |]; cbn; try discriminate; intros _; eexists; reflexivity.
Qed.

Lemma js_ge_number x c : js_ge (VNum x) c = Normal (PrimFloat.leb c x).
Proof. reflexivity. Qed.

Lemma gating_complete a cs :
  confidence_of a = Normal cs -> js_ge cs 0.7 = Normal true ->
  confidence_gating a = Normal (VObj [("status", VStr "complete"); ("architecture", a)]).
Proof.
  unfold confidence_of, confidence_gating. intros Hc Hge.
  destruct (get_prop a "metadata") as [m|]; cbn [bind] in *; [|discriminate].
  rewrite Hc. cbn [bind]. now rewrite Hge.
Qed.

Lemma gating_questions a cs qs :
  confidence_of a = Normal cs -> js_ge cs 0.7 = Normal false ->
  field a "missing_info" = array qs -> forallb defined qs = true ->
  selection qs <> [] ->
  confidence_gating a
  = Normal (VObj [("status", VStr "needs_clarification");
                  ("architecture", a);
                  ("questions", array (map reduced (selection qs)))]).
Proof.
  unfold confidence_of, confidence_gating. intros Hc Hge Hq Hall Hsel.
  destruct (get_prop a "metadata") as [m|] eqn:Em; cbn [bind] in *; [|discriminate].
  apply get_prop_normal in Em as [Hd _].
  rewrite Hc. cbn [bind]. rewrite Hge. cbn [bind].
  rewrite (get_prop_defined _ _ Hd), Hq.
  cbn [bind js_or truthy array filter_array array_method lookup].
  rewrite (filter_by_pure is_critical qualifies)
    by (intros x Hx; apply is_critical_defined; now apply (forallb_In _ _ _ Hall)).
  cbn [bind]. fold (selection qs).
  destruct (selection qs) as [|q sel] eqn:Es; [congruence|].
  cbn [List.length Nat.ltb Nat.leb].
  rewrite (map_indexed_pure as_question reduced).
  - reflexivity.
  - intros x j Hx. apply as_question_defined.
    apply (filter_defined qualifies qs); [assumption|].
    apply (firstn_In 3). unfold selection in Es. now rewrite Es.
Qed.

Lemma is_low_confidence_total i :
  wf_interpretation i = true -> exists b, is_low_confidence i = Normal b.
Proof.
  unfold wf_interpretation, is_low_confidence, js_lt. intros Hw.
  apply andb_true_iff in Hw as [Hd Hp].
  rewrite (get_prop_defined _ _ Hd). cbn [bind].
  destruct (ToNumber_primitive _ Hp) as [x ->]. cbn [bind]. now eexists.
Qed.

Lemma filter_by_total (p : value -> completion bool) xs :
  (forall x, In x xs -> exists b, p x = Normal b) ->
  exists ys, filter_by p xs = Normal ys /\ forall y, In y ys -> In y xs.
Proof.
  induction xs as [|x xs IH]; intros Hp; cbn [filter_by].
  - exists []. now split.
  - destruct (Hp x (or_introl eq_refl)) as [b ->]. cbn [bind].
    destruct IH as (ys & -> & Hys); [intros y Hy; apply Hp; now right|]. cbn [bind].
    destruct b; eexists; (split; [reflexivity|]); cbn; intuition.
Qed.

Lemma gating_caveats a cs qs items :
  confidence_of a = Normal cs -> js_ge cs 0.7 = Normal false ->
  field a "missing_info" = array qs -> forallb defined qs = true ->
  selection qs = [] ->
  field a "interpretations" = array items ->
  forallb wf_interpretation items = true ->
  exists caveats,
    confidence_gating a
    = Normal (VObj [("status", VStr "complete_with_caveats");
                    ("architecture", a);
                    ("caveats", array caveats)]).
Proof.
  unfold confidence_of, confidence_gating. intros Hc Hge Hq Hall Hsel Hi Halli.
  destruct (get_prop a "metadata") as [m|] eqn:Em; cbn [bind] in *; [|discriminate].
  apply get_prop_normal in Em as [Hd _].
  rewrite Hc. cbn [bind]. rewrite Hge. cbn [bind].
  rewrite (get_prop_defined _ _ Hd), Hq.
  cbn [bind js_or truthy array filter_array array_method lookup].
  rewrite (filter_by_pure is_critical qualifies)
    by (intros x Hx; apply is_critical_defined; now apply (forallb_In _ _ _ Hall)).
  cbn [bind]. fold (selection qs). rewrite Hsel. cbn [List.length Nat.ltb Nat.leb].
  rewrite (get_prop_defined _ _ Hd), Hi.
  cbn [bind js_or truthy array filter_array array_method lookup].
  destruct (filter_by_total is_low_confidence items) as (low & -> & Hlow).
  { intros x Hx. apply is_low_confidence_total. now apply (forallb_In _ _ _ Halli). }
  cbn [bind].
  rewrite (map_indexed_pure as_caveat
             (fun i => VObj [("element", field i "element");
                             ("interpretation", field i "interpretation");
                             ("alternatives", field i "alternatives")])).
  2:{ intros x j Hx. unfold as_caveat.
      assert (Hdx : defined x = true).
      { apply Hlow in Hx. apply (forallb_In _ _ _ Halli) in Hx.
        unfold wf_interpretation in Hx. now apply andb_true_iff in Hx as [Hx _]. }
      now rewrite !(get_prop_defined _ _ Hdx). }
  cbn [bind]. eexists. reflexivity.
Qed.

End Gate.

(** ** Strings *)

Lemma prefix_app p1 p2 s : prefix (p1 ++ p2) s = true -> prefix p1 s = true.
Proof.
  revert s. induction p1 as [|c p1 IH]; intros s; cbn.
  - intros _. now destruct s.
  - destruct s as [|c' s]; cbn; [discriminate|].
    destruct (ascii_dec c c'); [apply IH | discriminate].
Qed.

Lemma includes_app s p1 p2 : Str.includes s (p1 ++ p2) = true -> Str.includes s p1 = true.
Proof.
  induction s as [|c s IH]; cbn [Str.includes].
  - rewrite !orb_false_r. apply prefix_app.
  - intros Hi. apply orb_true_iff in Hi as [Hp|Hr]; apply orb_true_iff.
    + left. now apply (prefix_app _ p2).
    + right. now apply IH.
Qed.

Lemma remove_marker_fuel_absent fuel pat s :
  Str.includes s pat = false -> Str.remove_marker_fuel fuel pat s = s.
Proof.
  revert s. induction fuel as [|fuel IH]; intros s Hi; cbn [Str.remove_marker_fuel]; [reflexivity|].
  destruct s as [|c s]; [reflexivity|].
  cbn [Str.includes] in Hi. apply orb_false_iff in Hi as [Hp Hr].
  rewrite Hp. now rewrite IH.
Qed.

Lemma remove_marker_absent pat s : Str.includes s pat = false -> Str.remove_marker pat s = s.
Proof. apply remove_marker_fuel_absent. Qed.

(** The two branches of the conditional amount to one formula. *)
Lemma jsonStr_formula text :
  jsonStr text
  = Str.trim (Str.remove_marker Str.fence (Str.remove_marker Str.fence_json text)).
Proof.
  unfold jsonStr.
  destruct (Str.includes text Str.fence_json) eqn:Ej; [reflexivity|].
  rewrite (remove_marker_absent _ _ Ej).
  destruct (Str.includes text Str.fence) eqn:Ef; [reflexivity|].
  now rewrite (remove_marker_absent _ _ Ef).
Qed.

Lemma jsonStr_no_fence text : Str.includes text Str.fence = false -> jsonStr text = Str.trim text.
Proof.
  intros Hf. unfold jsonStr. rewrite Hf.
  destruct (Str.includes text Str.fence_json) eqn:Ej; [|reflexivity].
  apply (includes_app text Str.fence "json") in Ej. congruence.
Qed.

Lemma substring0_short n s : (length s <= n)%nat -> Str.substring0 n s = s.
Proof.
  unfold Str.substring0. revert n. induction s as [|c s IH]; intros [|n] Hl; cbn in *;
    try reflexivity; try lia.
  f_equal. apply IH. lia.
Qed.

Lemma substring0_length n s : length (Str.substring0 n s) = Nat.min n (length s).
Proof.
  unfold Str.substring0. revert n. induction s as [|c s IH]; intros [|n]; cbn; try reflexivity.
  now rewrite IH.
Qed.

Lemma substring0_prefix n s : prefix (Str.substring0 n s) s = true.
Proof.
  unfold Str.substring0. revert n. induction s as [|c s IH]; intros [|n]; cbn; try reflexivity.
  destruct (ascii_dec c c); [apply IH | congruence].
Qed.

Lemma append_empty s : (s ++ "")%string = s.
Proof. induction s as [|c s IH]; cbn; [reflexivity | now rewrite IH]. Qed.

(** ** Effects *)

Lemma ebind_normal {A B} (c : Eff A) (k : A -> Eff B) b :
  snd (ebind c k) = Normal b -> exists a, snd c = Normal a /\ snd (k a) = Normal b.
Proof.
  destruct c as [out [a|e]]; cbn; [|discriminate].
  destruct (k a) as [out' r] eqn:Ek. cbn. intros ->. exists a. now rewrite Ek.
Qed.

Section Pipeline.
Context `{Host}.

Lemma parseResponse_normal response a :
  snd (parseResponse response) = Normal a ->
  exists text p,
    response = VStr text /\ JSON_parse (jsonStr text) = Some p
    /\ validateArchitecture p = Normal a
    /\ parseResponse response = ([], Normal a).
Proof.
  unfold parseResponse. destruct response; try discriminate.
  destruct (JSON_parse (jsonStr s)) as [p|] eqn:Ep; [|discriminate].
  destruct (validateArchitecture p) as [a'|e] eqn:Ev; cbn; [|discriminate].
  intros [= ->]. now exists s, p.
Qed.

Lemma stamped_metadata v m fields arch :
  validateArchitecture v = Normal m ->
  (metadata <- get_prop m "metadata" ;;
   set_prop m "metadata" (literal (own_props metadata) fields)) = Normal arch ->
  field arch "metadata" = literal (own_props (field m "metadata")) fields
  /\ forall k, k <> "metadata" -> get_prop arch k = get_prop m k.
Proof.
  intros Hv Hs.
  destruct (validate_normal _ _ Hv) as (_ & Hom & _).
  rewrite (get_prop_defined _ _ (is_object_defined _ Hom)) in Hs. cbn [bind] in Hs.
  split.
  - exact (field_set_same m "metadata" _ arch eq_refl Hs).
  - intros k Hk. exact (get_set_other _ _ _ _ _ Hk Hs).
Qed.

End Pipeline.

(** ** The prompt assembler *)

Lemma is_string_inv v : is_string v = true -> exists s, v = VStr s.
Proof. destruct v; try discriminate. intros _. now eexists. Qed.

Lemma is_number_inv v : is_number v = true -> exists x, v = VNum x.
Proof. destruct v; try discriminate. intros _. now eexists. Qed.

Lemma opt_inv p v : opt p v = true -> v = VUndefined \/ v = VNull \/ p v = true.
Proof. unfold opt, is_absent. destruct v; cbn; auto. Qed.

Lemma all_in_inv p v :
  all_in p v = true -> exists elems, v = array elems /\ forallb p elems = true.
Proof.
  destruct v; try discriminate. destruct own; [|discriminate].
  cbn. intros Hp. now exists elems.
Qed.

Section Assembler.
Context `{Host}.

Lemma uniform_ret {A} (a : A) : uniform (fun _ => Normal a).
Proof. now exists a. Qed.

Lemma uniform_bind_at {A B} (c : (value -> completion string) -> completion A)
      (k : (value -> completion string) -> A -> completion B) a :
  (forall ts, renders_text ts -> c ts = Normal a) ->
  uniform (fun ts => k ts a) ->
  uniform (fun ts => bind (c ts) (k ts)).
Proof.
  intros Ha [b Hb]. exists b. intros ts Hts. rewrite (Ha ts Hts). cbn. now apply Hb.
Qed.

Lemma uniform_bind {A B} (c : (value -> completion string) -> completion A)
      (k : (value -> completion string) -> A -> completion B) :
  uniform c ->
  (forall a, uniform (fun ts => k ts a)) ->
  uniform (fun ts => bind (c ts) (k ts)).
Proof. intros [a Ha] Hk. now apply (uniform_bind_at c k a). Qed.

Lemma uniform_ext {A} (c c' : (value -> completion string) -> completion A) :
  (forall ts, renders_text ts -> c ts = c' ts) -> uniform c' -> uniform c.
Proof.
  intros He [a Ha]. exists a. intros ts Hts. rewrite (He ts Hts). now apply Ha.
Qed.

Lemma template_uniform ps :
  forallb renderable ps = true -> uniform (fun ts => template ts ps).
Proof.
  induction ps as [|p ps IH]; intros Hall; cbn [template].
  - apply uniform_ret.
  - cbn [forallb] in Hall. apply andb_true_iff in Hall as [Hp Hps].
    destruct p as [s|v].
    + apply uniform_bind; [now apply IH|]. intros r. apply uniform_ret.
    + cbn [renderable] in Hp. apply orb_true_iff in Hp as [Hs|Hn].
      * apply is_string_inv in Hs as [s ->].
        apply (uniform_bind_at _ _ s); [now intros ts [Hts _]|].
        apply uniform_bind; [now apply IH|]. intros r. apply uniform_ret.
      * apply is_number_inv in Hn as [x ->].
        apply (uniform_bind_at _ _ (Number_toString x)); [now intros ts [_ Hts]|].
        apply uniform_bind; [now apply IH|]. intros r. apply uniform_ret.
Qed.

Lemma unlines_renderable ls :
  forallb (forallb renderable) ls = true -> forallb renderable (unlines ls) = true.
Proof.
  induction ls as [|l ls IH]; intros Hall; [reflexivity|].
  cbn [forallb] in Hall. apply andb_true_iff in Hall as [Hl Hls].
  cbn [unlines]. destruct ls as [|l' ls']; [assumption|].
  rewrite forallb_app, Hl. cbn [forallb renderable andb]. now apply IH.
Qed.

Lemma push_text_uniform parts input k label :
  defined input = true -> opt is_string (field input k) = true ->
  uniform (fun ts => push_text ts parts input k label).
Proof.
  intros Hd Ho. unfold push_text.
  eapply uniform_ext.
  { intros ts _. rewrite (get_prop_defined _ _ Hd). cbn [bind]. reflexivity. }
  apply opt_inv in Ho as [E|[E|E]].
  - rewrite E. apply uniform_ret.
  - rewrite E. apply uniform_ret.
  - destruct (truthy (field input k)); [|apply uniform_ret].
    apply uniform_bind; [|intros s; apply uniform_ret].
    apply template_uniform. cbn. now rewrite E.
Qed.

Lemma map_indexed_uniform {A}
      (f : (value -> completion string) -> value -> nat -> completion A) i xs :
  (forall x j, In x xs -> uniform (fun ts => f ts x j)) ->
  uniform (fun ts => map_indexed (f ts) i xs).
Proof.
  revert i. induction xs as [|x xs IH]; intros i Hf; cbn [map_indexed].
  - apply uniform_ret.
  - apply uniform_bind; [apply Hf; now left|].
    intros y. apply uniform_bind; [apply IH; intros; apply Hf; now right|].
    intros ys. apply uniform_ret.
Qed.

Lemma map_join_uniform
      (f : (value -> completion string) -> value -> nat -> completion string) xs sep :
  (exists elems, xs = array elems
                 /\ forall x j, In x elems -> uniform (fun ts => f ts x j)) ->
  uniform (fun ts => map_join xs (f ts) sep).
Proof.
  intros (elems & -> & Hf). unfold map_join. cbn [array array_method lookup bind].
  apply uniform_bind; [now apply map_indexed_uniform|].
  intros ls. apply uniform_ret.
Qed.

Lemma join_with_uniform sep elems :
  forallb is_string elems = true -> uniform (fun ts => join_with ts sep elems).
Proof.
  intros Hall. unfold join_with.
  apply uniform_bind; [|intros ss; apply uniform_ret].
  apply map_indexed_uniform. intros v j Hv.
  apply (forallb_In _ _ _ Hall) in Hv. apply is_string_inv in Hv as [s ->].
  exists s. now intros ts [Hts _].
Qed.

Lemma formatStructuredInput_uniform input :
  defined input = true -> wf_structured input = true ->
  uniform (fun ts => formatStructuredInput_with ts input).
Proof.
  intros Hd Hwf. unfold wf_structured in Hwf.
  repeat (apply andb_true_iff in Hwf as [Hwf ?]).
  unfold formatStructuredInput_with.
  apply uniform_bind; [now apply push_text_uniform|]. intros parts.
  eapply uniform_ext.
  { intros ts _. rewrite (get_prop_defined _ _ Hd). cbn [bind]. reflexivity. }
  apply uniform_bind.
  { match goal with Ht : opt _ (field input "tone") = true |- _ =>
      apply opt_inv in Ht as [E|[E|E]] end.
    - rewrite E. apply uniform_ret.
    - rewrite E. apply uniform_ret.
    - destruct (truthy (field input "tone")); [|apply uniform_ret].
      apply uniform_bind; [|intros s; apply uniform_ret].
      apply orb_true_iff in E as [E|E].
      + apply is_string_inv in E as [s ->]. now apply template_uniform.
      + apply all_in_inv in E as (elems & -> & Hall).
        cbn [array is_array array_method lookup bind].
        apply uniform_bind; [now apply join_with_uniform|].
        intros joined. now apply template_uniform. }
  intros parts1.
  apply uniform_bind; [now apply push_text_uniform|]. intros parts2.
  eapply uniform_ext.
  { intros ts _. rewrite (get_prop_defined _ _ Hd). cbn [bind]. reflexivity. }
  apply uniform_bind.
  { match goal with Hc : opt _ (field input "characters") = true |- _ =>
      apply opt_inv in Hc as [E|[E|E]] end.
    - rewrite E. apply uniform_ret.
    - rewrite E. apply uniform_ret.
    - apply all_in_inv in E as (elems & E & Hall). rewrite E. cbn [truthy array].
      apply uniform_bind; [|intros s; apply uniform_ret].
      apply map_join_uniform. exists elems. split; [reflexivity|].
      intros c j Hc. apply (forallb_In _ _ _ Hall) in Hc.
      unfold wf_character in Hc. apply andb_true_iff in Hc as [Hn Hdesc].
      assert (Hdc : defined c = true).
      { destruct c; try reflexivity; discriminate. }
      eapply uniform_ext.
      { intros ts _. rewrite !(get_prop_defined _ _ Hdc). cbn [bind]. reflexivity. }
      apply template_uniform. cbn. now rewrite Hn, Hdesc. }
  intros parts3.
  eapply uniform_ext.
  { intros ts _. rewrite (get_prop_defined _ _ Hd). cbn [bind]. reflexivity. }
  apply uniform_bind.
  { match goal with Hs : opt _ (field input "shots") = true |- _ =>
      apply opt_inv in Hs as [E|[E|E]] end.
    - rewrite E. apply uniform_ret.
    - rewrite E. apply uniform_ret.
    - apply all_in_inv in E as (elems & E & Hall). rewrite E. cbn [truthy array].
      apply uniform_bind; [|intros s; apply uniform_ret].
      apply map_join_uniform. exists elems. split; [reflexivity|].
      intros s j Hs. apply (forallb_In _ _ _ Hall) in Hs.
      apply template_uniform. cbn. now rewrite Hs. }
  intros parts4.
  apply uniform_bind; [now apply push_text_uniform|]. intros parts5.
  apply uniform_bind; [now apply push_text_uniform|]. intros parts6.
  apply uniform_ret.
Qed.

Lemma reference_line_uniform r i :
  wf_reference r = true -> uniform (fun ts => reference_line ts r i).
Proof.
  unfold wf_reference, reference_line. intros Hr.
  apply andb_true_iff in Hr as [Hdesc Hurl].
  assert (Hdr : defined r = true).
  { destruct r; try reflexivity; discriminate. }
  eapply uniform_ext.
  { intros ts _. rewrite (get_prop_defined _ _ Hdr). cbn [bind]. reflexivity. }
  apply uniform_bind; [apply template_uniform; cbn; now rewrite Hdesc|].
  intros head.
  eapply uniform_ext.
  { intros ts _. rewrite (get_prop_defined _ _ Hdr). cbn [bind]. reflexivity. }
  apply uniform_bind; [|intros tail; apply uniform_ret].
  apply opt_inv in Hurl as [E|[E|E]].
  - rewrite E. apply uniform_ret.
  - rewrite E. apply uniform_ret.
  - destruct (truthy (field r "url")); [|apply uniform_ret].
    apply template_uniform. cbn. now rewrite E.
Qed.

Lemma references_uniform input :
  defined input = true ->
  opt (all_in wf_reference) (field input "references") = true ->
  uniform (fun ts =>
    if truthy (field input "references") then
      len <- get_prop (field input "references") "length" ;;
      positive <- js_gt len 0 ;;
      if positive then
        s <- map_join (field input "references") (reference_line ts) nl ;;
        Normal (nl ++ "## Visual References" ++ nl ++ s)
      else Normal ""
    else Normal "").
Proof.
  intros Hd Ho. apply opt_inv in Ho as [E|[E|E]].
  - rewrite E. apply uniform_ret.
  - rewrite E. apply uniform_ret.
  - apply all_in_inv in E as (elems & E & Hall). rewrite E.
    cbn [truthy array get_prop bind]. change ("length" =? "length") with true. cbn iota.
    cbn [bind js_gt ToNumber].
    destruct (PrimFloat.ltb 0 (num_of_nat (List.length elems))); [|apply uniform_ret].
    apply uniform_bind; [|intros s; apply uniform_ret].
    apply map_join_uniform. exists elems. split; [reflexivity|].
    intros r j Hr. apply reference_line_uniform. now apply (forallb_In _ _ _ Hall).
Qed.

Lemma inputSection_uniform input :
  wf_input input = true ->
  exists s, forall ts, renders_text ts ->
    (if is_string input then Normal input
     else
       type <- get_prop input "type" ;;
       if is_str type "text" then get_prop input "content"
       else if is_str type "deck" then
         filename <- get_prop input "filename" ;;
         parsedContent <- get_prop input "parsedContent" ;;
         s <- template ts [Lit "[Parsed from deck: "; Sub filename; Lit ("]" ++ nl ++ nl);
                           Sub parsedContent] ;;
         Normal (VStr s)
       else if is_str type "structured" then
         s <- formatStructuredInput_with ts input ;; Normal (VStr s)
       else Normal (VStr "")) = Normal (VStr s).
Proof.
  unfold wf_input. intros Hwf.
  destruct (is_string input) eqn:Es.
  - apply is_string_inv in Es as [s ->]. now exists s.
  - cbn [orb] in Hwf. apply andb_true_iff in Hwf as [Hwf Hkind].
    apply andb_true_iff in Hwf as [Hd _].
    rewrite (get_prop_defined _ _ Hd). cbn [bind].
    assert (Hne : forall a b, is_str (field input "type") a = true ->
                              is_str (field input "type") b = true -> a = b).
    { intros a b Ha Hb. destruct (field input "type"); try discriminate.
      cbn in Ha, Hb. apply String.eqb_eq in Ha, Hb. congruence. }
    destruct (is_str (field input "type") "text") eqn:Et.
    { assert (Hc : is_string (field input "content") = true).
      { cbn [andb orb] in Hkind.
        apply orb_true_iff in Hkind as [Hkind|Hkind];
          [apply orb_true_iff in Hkind as [Hc|Hk]|].
        - assumption.
        - apply andb_true_iff in Hk as [Hk _]. apply andb_true_iff in Hk as [Hk _].
          discriminate (Hne _ _ Et Hk).
        - apply andb_true_iff in Hkind as [Hk _]. discriminate (Hne _ _ Et Hk). }
      apply is_string_inv in Hc as [s Hc]. exists s. intros ts _.
      now rewrite (get_prop_defined _ _ Hd), Hc. }
    cbn [andb orb] in Hkind.
    destruct (is_str (field input "type") "deck") eqn:Ek.
    { assert (Hfp : is_string (field input "filename") = true
                    /\ is_string (field input "parsedContent") = true).
      { cbn [andb orb] in Hkind.
        apply orb_true_iff in Hkind as [Hkind|Hkind].
        - now apply andb_true_iff in Hkind.
        - apply andb_true_iff in Hkind as [Hk _]. discriminate (Hne _ _ Ek Hk). }
      destruct Hfp as [Hf Hp].
      destruct (template_uniform
                  [Lit "[Parsed from deck: "; Sub (field input "filename");
                   Lit ("]" ++ nl ++ nl); Sub (field input "parsedContent")]) as [s Hs].
      { cbn. now rewrite Hf, Hp. }
      exists s. intros ts Hts.
      rewrite !(get_prop_defined _ _ Hd). cbn [bind]. now rewrite (Hs ts Hts). }
    cbn [andb orb] in Hkind. apply andb_true_iff in Hkind as [Hst Hwfs].
    rewrite Hst.
    destruct (formatStructuredInput_uniform input Hd Hwfs) as [s Hs].
    exists s. intros ts Hts. now rewrite (Hs ts Hts).
Qed.

Lemma buildUserPrompt_uniform input options :
  wf_input input = true -> wf_options options = true ->
  uniform (fun ts => buildUserPrompt_with ts input options).
Proof.
  intros Hi Ho.
  assert (Hdi : defined input = true).
  { unfold wf_input in Hi. destruct input; try reflexivity; discriminate. }
  assert (Hrefs : opt (all_in wf_reference) (field input "references") = true).
  { unfold wf_input in Hi. apply orb_true_iff in Hi as [Hs|Hi].
    - apply is_string_inv in Hs as [s ->]. reflexivity.
    - apply andb_true_iff in Hi as [Hi _]. now apply andb_true_iff in Hi as [_ Hi]. }
  unfold wf_options in Ho.
  apply andb_true_iff in Ho as [Ho Hbrand]. apply andb_true_iff in Ho as [Hplat Hcount].
  assert (Hdo : defined options = true).
  { destruct options; try reflexivity; discriminate. }
  destruct (inputSection_uniform input Hi) as [section Hsection].
  unfold buildUserPrompt_with.
  eapply uniform_ext.
  { intros ts _. rewrite !(get_prop_defined _ _ Hdo). cbn [bind]. reflexivity. }
  apply (uniform_bind_at _ _ (VStr section)); [exact Hsection|].
  eapply uniform_ext.
  { intros ts _. rewrite (get_prop_defined _ _ Hdi). cbn [bind]. reflexivity. }
  apply uniform_bind; [now apply references_uniform|]. intros refs.
  apply uniform_bind.
  { apply template_uniform. apply unlines_renderable. cbn [forallb renderable andb is_string].
    rewrite Hplat. cbn [orb andb].
    unfold js_or. apply opt_inv in Hcount as [E|[E|E]].
    - now rewrite E.
    - now rewrite E.
    - apply is_number_inv in E as [x ->]. now destruct (truthy (VNum x)). }
  intros head.
  apply uniform_bind.
  { apply opt_inv in Hbrand as [E|[E|E]].
    - rewrite E. apply uniform_ret.
    - rewrite E. apply uniform_ret.
    - destruct (truthy (field options "brandContext")); [|apply uniform_ret].
      apply template_uniform. cbn. now rewrite E. }
  intros brand.
  apply uniform_bind; [|intros tail; apply uniform_ret].
  apply template_uniform. reflexivity.
Qed.

End Assembler.

(** ** Consequences of a successful validation *)

Lemma number_field_object m k :
  named k = true -> is_number (field m k) = true -> is_object m = true.
Proof.
  intros Hn. apply named_spec in Hn as [Hl Hi].
  unfold field. destruct m; cbn; try discriminate; try reflexivity.
  rewrite Hl, Hi. discriminate.
Qed.

Lemma validated_metadata p a :
  validateArchitecture p = Normal a ->
  is_object (field p "metadata") = true
  /\ is_object (field a "metadata") = true
  /\ exists x, field (field a "metadata") "confidence_score" = VNum x.
Proof.
  intros Hv.
  destruct (validate_normal _ _ Hv) as (_ & _ & _ & _ & Hmeta & _).
  destruct (is_number (field (field p "metadata") "confidence_score")) eqn:En.
  - rewrite Hmeta.
    pose proof (number_field_object _ "confidence_score" eq_refl En) as Ho.
    repeat split; try assumption. now apply is_number_inv.
  - destruct (set_prop_normal _ _ _ _ Hmeta) as [Ho Ho'].
    repeat split; try assumption.
    exists 0.8%float. exact (field_set_same _ "confidence_score" _ _ eq_refl Hmeta).
Qed.

Lemma validated_confidence p a :
  validateArchitecture p = Normal a -> exists x, confidence_of a = Normal (VNum x).
Proof.
  intros Hv.
  destruct (validate_normal _ _ Hv) as (_ & Hoa & _).
  destruct (validated_metadata _ _ Hv) as (_ & Hom & x & Hx).
  exists x. unfold confidence_of.
  rewrite (get_prop_defined _ _ (is_object_defined _ Hoa)). cbn [bind].
  now rewrite (get_prop_defined _ _ (is_object_defined _ Hom)), Hx.
Qed.

Lemma validated_shots p a :
  validateArchitecture p = Normal a ->
  field a "shots" = field p "shots"
  /\ exists shots own,
      field p "shots" = VArr shots own /\ lookup "forEach" own = None
      /\ forallb has_full_prompt shots = true.
Proof.
  intros Hv.
  destruct (validate_normal _ _ Hv) as (_ & _ & _ & Hs & _ & _ & Hrest).
  split; [|exact Hs].
  unfold field. rewrite Hrest; [reflexivity | discriminate | cbn; intuition discriminate].
Qed.

Lemma has_full_prompt_renumbered n shot :
  has_full_prompt (with_shot_number n shot) = has_full_prompt shot.
Proof.
  destruct shot; try reflexivity.
  unfold has_full_prompt, field. cbn.
  now rewrite (lookup_update_other "prompt" "shot_number") by discriminate.
Qed.

Lemma renumber_keeps_prompts numbers shots :
  forallb has_full_prompt (renumber numbers shots) = forallb has_full_prompt shots.
Proof.
  revert numbers. induction shots as [|s ss IH]; intros [|n ns]; cbn; try reflexivity.
  now rewrite has_full_prompt_renumbered, IH.
Qed.

(* ====================================================================== *)
(** ** The claims *)
(* ====================================================================== *)

(** C1 (amended).  For every architecture [a] the validator accepts, the
    confidence score is a number; when it is at least 0.70 the gate returns
    status [complete] carrying [a], whatever [interpretations] and
    [missing_info] hold; and when [missing_info] is an array with no [null]
    or [undefined] entry and [interpretations] an array of such entries
    whose [confidence] is not an object (arrays as JSON.parse builds them),
    the gate completes normally with exactly one of the three statuses. *)
Theorem gate_total_on_validated `{Host} p a :
  validateArchitecture p = Normal a ->
  exists x,
    confidence_of a = Normal (VNum x)
    /\ (PrimFloat.leb 0.7 x = true ->
        confidence_gating a
        = Normal (VObj [("status", VStr "complete"); ("architecture", a)]))
    /\ (all_in defined (field a "missing_info") = true ->
        all_in wf_interpretation (field a "interpretations") = true ->
        exists out status,
          confidence_gating a = Normal out
          /\ field out "status" = VStr status
          /\ In status statuses).
Proof.
  intros Hv. destruct (validated_confidence _ _ Hv) as [x Hx].
  exists x. split; [exact Hx|]. split.
  - intros Hge. apply (gating_complete a (VNum x) Hx). now rewrite js_ge_number, Hge.
  - intros Hq Hi.
    apply all_in_inv in Hq as (qs & Hq & Hqs).
    apply all_in_inv in Hi as (items & Hi & His).
    assert (Hjs : js_ge (VNum x) 0.7 = Normal (PrimFloat.leb 0.7 x)) by reflexivity.
    destruct (PrimFloat.leb 0.7 x) eqn:Hge; rename Hjs into Hge'; clear Hge;
      rename Hge' into Hge.
    + rewrite (gating_complete a (VNum x) Hx Hge).
      eexists. exists "complete". repeat split. cbn. auto.
    + destruct (selection qs) as [|q sel] eqn:Es.
      * destruct (gating_caveats a (VNum x) qs items Hx Hge Hq Hqs Es Hi His)
          as [caveats ->].
        eexists. exists "complete_with_caveats". repeat split. cbn. auto.
      * rewrite (gating_questions a (VNum x) qs Hx Hge Hq Hqs) by congruence.
        eexists. exists "needs_clarification". repeat split. cbn. auto.
Qed.

(** The gate on the validated complete document: status [complete]. *)
Lemma gate_total_on_validated_witness :
  validateArchitecture (parsed doc_complete) = Normal (validated doc_complete)
  /\ exists x,
      confidence_of (validated doc_complete) = Normal (VNum x)
      /\ (PrimFloat.leb 0.7 x = true ->
          confidence_gating (H := browser "") (validated doc_complete)
          = Normal (VObj [("status", VStr "complete");
                          ("architecture", validated doc_complete)]))
      /\ (all_in defined (field (validated doc_complete) "missing_info") = true ->
          all_in wf_interpretation (field (validated doc_complete) "interpretations") = true ->
          exists out status,
            confidence_gating (H := browser "") (validated doc_complete) = Normal out
            /\ field out "status" = VStr status
            /\ In status statuses).
Proof.
  assert (Hv : validateArchitecture (parsed doc_complete) = Normal (validated doc_complete))
    by (vm_compute; reflexivity).
  split; [exact Hv|].
  exact (gate_total_on_validated (H := browser "") (parsed doc_complete) (validated doc_complete) Hv).
Defined.

(** C1, as stated, fails: the validator accepts a document whose
    [missing_info] holds [null], and with a confidence below 0.70 the gate
    throws a TypeError on it instead of returning a status. *)
Lemma gate_throws_on_null_question :
  validateArchitecture (parsed doc_null_question) = Normal (validated doc_null_question)
  /\ is_object (validated doc_null_question) = true
  /\ confidence_gating (H := browser "") (validated doc_null_question) = Throw TypeError
  /\ snd (processWithConfidenceGating (H := browser (Str.q doc_null_question))
            (VStr "A kettle ad") VUndefined) = Throw TypeError.
Proof. vm_compute. repeat split; reflexivity. Qed.
(** C2 (amended).  When the confidence score is a number below 0.70 and
    [missing_info] is an array without [null] or [undefined] entries, the
    gate selects, in their original order, up to three questions whose
    criticality is [high] or whose [default_used] is falsy; when that
    selection is not empty it returns status [needs_clarification]
    carrying the architecture and each selected question reduced to three
    fields: [question], [context] (the question's [why_it_matters]) and
    [currentAssumption] (its [default_used]). *)
Theorem gate_asks_selected_questions `{Host} a x qs :
  confidence_of a = Normal (VNum x) ->
  PrimFloat.ltb x 0.7 = true ->
  field a "missing_info" = array qs ->
  forallb defined qs = true ->
  selection qs <> [] ->
  confidence_gating a
  = Normal (VObj [("status", VStr "needs_clarification");
                  ("architecture", a);
                  ("questions", array (map reduced (selection qs)))]).
Proof.
  intros Hx Hlt Hq Hqs Hsel.
  apply (gating_questions a (VNum x) qs); try assumption.
  rewrite js_ge_number. f_equal. now apply lt_not_ge.
Qed.

(** Confidence 0.4 and missing_info [{Q1, high, false}; {Q2, low, true}]:
    exactly one question, Q1, is returned. *)
Lemma gate_asks_selected_questions_witness :
  confidence_gating (H := browser "") (validated doc_two_questions)
  = Normal (VObj [("status", VStr "needs_clarification");
                  ("architecture", validated doc_two_questions);
                  ("questions",
                   array [VObj [("question", VStr "Q1");
                                ("context", VStr "sets the mood");
                                ("currentAssumption", VBool false)]])]).
Proof.
  refine (gate_asks_selected_questions (H := browser "") (validated doc_two_questions)
            0.4
            [VObj [("question", VStr "Q1"); ("why_it_matters", VStr "sets the mood");
                   ("criticality", VStr "high"); ("default_used", VBool false)];
             VObj [("question", VStr "Q2"); ("why_it_matters", VStr "minor");
                   ("criticality", VStr "low"); ("default_used", VBool true)]]
            _ _ _ _ _).
  - vm_compute. reflexivity.
  - vm_compute. reflexivity.
  - vm_compute. reflexivity.
  - vm_compute. reflexivity.
  - vm_compute. discriminate.
Defined.

(** C2, as stated, fails: on the example of the claim the question
    returned has the fields [question], [context] and [currentAssumption],
    and neither [why_it_matters] nor [default_used]; and a [null] entry
    after a question of high criticality, in a document the validator
    accepts, makes the gate throw a TypeError instead of returning the
    question. *)
Lemma gate_renames_question_fields :
  confidence_gating (H := browser "") (validated doc_two_questions)
  = Normal (VObj [("status", VStr "needs_clarification");
                  ("architecture", validated doc_two_questions);
                  ("questions",
                   array [VObj [("question", VStr "Q1");
                                ("context", VStr "sets the mood");
                                ("currentAssumption", VBool false)]])])
  /\ field (VObj [("question", VStr "Q1");
                  ("context", VStr "sets the mood");
                  ("currentAssumption", VBool false)]) "why_it_matters" = VUndefined
  /\ field (VObj [("question", VStr "Q1");
                  ("context", VStr "sets the mood");
                  ("currentAssumption", VBool false)]) "default_used" = VUndefined
  /\ validateArchitecture (parsed doc_question_then_null)
     = Normal (validated doc_question_then_null)
  /\ is_object (validated doc_question_then_null) = true
  /\ field (field (validated doc_question_then_null) "missing_info") "1" = VNull
  /\ confidence_gating (H := browser "") (validated doc_question_then_null)
     = Throw TypeError.
Proof. vm_compute. repeat split; reflexivity. Qed.

(** C3 (amended).  On an input whose properties can be read, a missing
    required field makes validation fail with an error that names every
    missing field among metadata, project, global_style and shots, in that
    order; when none is missing and some shot lacks a non-empty
    [prompt.full_prompt], the error names the position (counted from 1) of
    the first such shot, and of no other. *)
Theorem validate_reports_violations arch :
  defined arch = true ->
  (forall f, In f required -> truthy (field arch f) = false -> In f (missing_of arch))
  /\ (missing_of arch <> [] ->
      validateArchitecture arch
      = Throw (Error ("Architecture missing required fields: "
                      ++ Str.join ", " (missing_of arch))))
  /\ (forall good bad rest,
        missing_of arch = [] ->
        field arch "shots" = array (good ++ bad :: rest) ->
        forallb has_full_prompt good = true ->
        defined bad = true ->
        has_full_prompt bad = false ->
        validateArchitecture arch
        = Throw (Error ("Shot " ++ Str.of_nat (List.length good + 1)
                        ++ " missing full_prompt"))).
Proof.
  intros Hd. split; [|split].
  - intros f Hf Ht. unfold missing_of. apply filter_In. split; [assumption|].
    now rewrite Ht.
  - intros Hm. unfold validateArchitecture.
    rewrite (missing_fields_defined _ _ Hd).
    change (filter _ required) with (missing_of arch).
    destruct (missing_of arch); [congruence | reflexivity].
  - intros good bad rest Hm Hs Hgood Hdb Hbad. unfold validateArchitecture.
    rewrite (missing_fields_defined _ _ Hd).
    change (filter _ required) with (missing_of arch). rewrite Hm.
    cbn [bind List.length Nat.ltb Nat.leb].
    rewrite (get_prop_defined _ _ Hd), Hs. cbn [bind array array_method lookup].
    now rewrite (check_shots_first_bad 0 good bad rest Hgood Hdb Hbad).
Qed.

(** The three-shot document whose second shot has an empty prompt is
    rejected with an error naming shot 2. *)
Lemma validate_reports_violations_witness :
  defined (parsed doc_second_shot_empty) = true
  /\ validateArchitecture (parsed doc_second_shot_empty)
     = Throw (Error "Shot 2 missing full_prompt").
Proof.
  split; [vm_compute; reflexivity|].
  refine (proj2 (proj2 (validate_reports_violations (parsed doc_second_shot_empty) _))
            [VObj [("shot_number", VNum 1);
                   ("prompt", VObj [("full_prompt", VStr "A kettle on a stove")])]]
            (VObj [("shot_number", VNum 2); ("prompt", VObj [("full_prompt", VStr "")])])
            [VObj [("shot_number", VNum 3);
                   ("prompt", VObj [("full_prompt", VStr "Steam rising")])]]
            _ _ _ _ _); vm_compute; reflexivity.
Defined.

(** C3, as stated, fails: of two shots without a [full_prompt], the first
    and the third, the error names the first only. *)
Lemma validate_names_first_shot_only :
  has_full_prompt (field (field (parsed doc_two_shots_empty) "shots") "0") = false
  /\ has_full_prompt (field (field (parsed doc_two_shots_empty) "shots") "2") = false
  /\ validateArchitecture (parsed doc_two_shots_empty)
     = Throw (Error "Shot 1 missing full_prompt").
Proof. vm_compute. repeat split; reflexivity. Qed.

(** C4 (amended).  For every input mapping that passes the required-field
    and per-shot checks and whose [metadata] is itself an object, the
    validator succeeds, and its result differs from the input in this
    only: [metadata.confidence_score] is 0.8 when it was absent or not a
    number (every other metadata field as it was), and each of
    [interpretations], [missing_info], [characters], [environments] is an
    empty array when it was absent or otherwise falsy.  Conversely, what
    the validator accepts has every required field and a non-empty prompt
    in every shot: no default stands in for a required field. *)
Theorem validate_applies_defaults props shots :
  let arch := VObj props in
  missing_of arch = [] ->
  field arch "shots" = array shots ->
  forallb has_full_prompt shots = true ->
  is_object (field arch "metadata") = true ->
  (exists a,
      validateArchitecture arch = Normal a
      /\ field (field a "metadata") "confidence_score"
         = (if is_number (field (field arch "metadata") "confidence_score")
            then field (field arch "metadata") "confidence_score"
            else VNum 0.8)
      /\ (forall k, k <> "confidence_score" ->
            get_prop (field a "metadata") k = get_prop (field arch "metadata") k)
      /\ (forall k, In k optional_arrays ->
            field a k = (if truthy (field arch k) then field arch k else array []))
      /\ (forall k, k <> "metadata" -> ~ In k optional_arrays ->
            get_prop a k = get_prop arch k))
  /\ (forall input a,
        validateArchitecture input = Normal a ->
        missing_of input = []
        /\ exists shots' own',
            field input "shots" = VArr shots' own'
            /\ lookup "forEach" own' = None
            /\ forallb has_full_prompt shots' = true).
Proof.
  intros arch Hm Hs Hall Ho. split.
  - destruct (validate_accepts arch shots [] eq_refl Hm Hs eq_refl Hall Ho) as [a Hv].
    exists a. split; [exact Hv|].
    destruct (validate_normal _ _ Hv) as (_ & _ & _ & _ & Hmeta & Hopt & Hrest).
    destruct (is_number (field (field arch "metadata") "confidence_score")) eqn:En.
    + rewrite Hmeta. repeat split; auto.
    + repeat split; auto.
      * exact (field_set_same _ "confidence_score" _ _ eq_refl Hmeta).
      * intros k Hk. exact (get_set_other _ _ _ _ _ Hk Hmeta).
  - intros input a Hv.
    destruct (validate_normal _ _ Hv) as (_ & _ & Hm' & Hs' & _).
    now split.
Qed.

(** The bare document: the confidence score and the four collections are
    defaulted, everything else is kept. *)
Lemma validate_applies_defaults_witness :
  validateArchitecture (parsed doc_bare) = Normal (validated doc_bare)
  /\ field (field (validated doc_bare) "metadata") "confidence_score" = VNum 0.8
  /\ field (validated doc_bare) "missing_info" = array []
  /\ exists a,
      validateArchitecture (parsed doc_bare) = Normal a
      /\ field (field a "metadata") "confidence_score"
         = (if is_number (field (field (parsed doc_bare) "metadata") "confidence_score")
            then field (field (parsed doc_bare) "metadata") "confidence_score"
            else VNum 0.8)
      /\ (forall k, k <> "confidence_score" ->
            get_prop (field a "metadata") k
            = get_prop (field (parsed doc_bare) "metadata") k)
      /\ (forall k, In k optional_arrays ->
            field a k = (if truthy (field (parsed doc_bare) k)
                         then field (parsed doc_bare) k else array []))
      /\ (forall k, k <> "metadata" -> ~ In k optional_arrays ->
            get_prop a k = get_prop (parsed doc_bare) k).
Proof.
  split; [vm_compute; reflexivity|].
  split; [vm_compute; reflexivity|].
  split; [vm_compute; reflexivity|].
  refine (proj1 (validate_applies_defaults
                   [("metadata", VObj [("title", VStr "Kettle")]);
                    ("project", VObj [("title", VStr "Kettle")]);
                    ("global_style", VObj [("look", VStr "warm")]);
                    ("shots",
                     array [VObj [("shot_number", VNum 1);
                                  ("prompt",
                                   VObj [("full_prompt", VStr "A kettle on a stove")])]])]
                   [VObj [("shot_number", VNum 1);
                          ("prompt", VObj [("full_prompt", VStr "A kettle on a stove")])]]
                   _ _ _ _)); vm_compute; reflexivity.
Defined.

(** C4, as stated, fails: a mapping whose [metadata] is a string passes
    the required-field and per-shot checks, and the validator throws a
    TypeError when it stores the default confidence score. *)
Lemma validate_throws_on_string_metadata :
  missing_of (parsed doc_metadata_string) = []
  /\ all_in has_full_prompt (field (parsed doc_metadata_string) "shots") = true
  /\ validateArchitecture (parsed doc_metadata_string) = Throw TypeError.
Proof. vm_compute. repeat split; reflexivity. Qed.

(** C5 (amended).  The extractor deletes every fence followed by the tag
    [json] and then every bare fence (each with one line feed after it),
    trims the text and parses it as JSON; a tag other than [json] stays in
    the text.  For every raw text whose cleaned form does not parse, it
    writes the first 500 characters of the cleaned text to the console and
    throws an error with the fixed message "Failed to parse architecture
    response as JSON", which does not carry the text. *)
Theorem extraction_failure_is_logged `{Host} text :
  JSON_parse (jsonStr text) = None ->
  jsonStr text
  = Str.trim (Str.remove_marker Str.fence (Str.remove_marker Str.fence_json text))
  /\ parseResponse (VStr text)
     = ([("Failed to parse response:", LogExn SyntaxError);
         ("Response was:", LogStr (Str.substring0 500 (jsonStr text)))],
        Throw (Error "Failed to parse architecture response as JSON"))
  /\ prefix (Str.substring0 500 (jsonStr text)) (jsonStr text) = true
  /\ length (Str.substring0 500 (jsonStr text)) = Nat.min 500 (length (jsonStr text)).
Proof.
  intros Hp. split; [apply jsonStr_formula|]. split.
  - unfold parseResponse. now rewrite Hp.
  - split; [apply substring0_prefix | apply substring0_length].
Qed.

(** A text that is not JSON. *)
Lemma extraction_failure_is_logged_witness :
  JSON_parse (Host := browser "") (jsonStr "oops") = None
  /\ parseResponse (H := browser "") (VStr "oops")
     = ([("Failed to parse response:", LogExn SyntaxError);
         ("Response was:", LogStr "oops")],
        Throw (Error "Failed to parse architecture response as JSON")).
Proof.
  assert (Hp : JSON_parse (Host := browser "") (jsonStr "oops") = None)
    by (vm_compute; reflexivity).
  split; [exact Hp|].
  exact (proj1 (proj2 (extraction_failure_is_logged (H := browser "") "oops" Hp))).
Defined.

(** C5, as stated, fails twice: the error thrown for an unparseable text
    carries a fixed message and none of the text, which goes to the
    console; and a fence tagged [javascript] loses its backticks only, so
    that the tag stays and the document inside no longer parses. *)
Lemma extraction_error_carries_no_text :
  parseResponse (H := browser "") (VStr "oops")
  = ([("Failed to parse response:", LogExn SyntaxError);
      ("Response was:", LogStr "oops")],
     Throw (Error "Failed to parse architecture response as JSON"))
  /\ prefix "javascript" (jsonStr (Str.q doc_tagged_fence)) = true
  /\ snd (parseResponse (H := browser "") (VStr (Str.q doc_tagged_fence)))
     = Throw (Error "Failed to parse architecture response as JSON").
Proof. vm_compute. repeat split; reflexivity. Qed.

(** C6 (amended).  When extraction of a text succeeds with the
    architecture [a], and the serialization of [a] holds no fence and
    parses back to [a], extracting that serialization yields [a] again
    (and writes nothing to the console): validation changes nothing in an
    architecture it has already accepted. *)
Theorem extraction_idempotent_on_clean_text `{Host} text a serialized :
  extract text = Normal a ->
  JSON_stringify a 0 = VStr serialized ->
  Str.includes serialized Str.fence = false ->
  JSON_parse (Str.trim serialized) = Some a ->
  re_extract text = Normal a
  /\ parseResponse (VStr serialized) = ([], Normal a).
Proof.
  intros He Hs Hf Hp.
  assert (Hr : parseResponse (VStr serialized) = ([], Normal a)).
  { apply parseResponse_normal in He as (t & p & _ & _ & Hv & _).
    unfold parseResponse. rewrite (jsonStr_no_fence _ Hf), Hp.
    now rewrite (validate_idempotent _ _ Hv). }
  split; [|exact Hr].
  unfold re_extract. rewrite He. cbn [bind]. now rewrite Hs, Hr.
Qed.

(** The complete document, extracted once and twice. *)
Lemma extraction_idempotent_on_clean_text_witness :
  Str.includes (Str.q doc_complete) Str.fence = false
  /\ extract (H := browser "") (Str.q doc_complete) = Normal (validated doc_complete)
  /\ re_extract (H := browser "") (Str.q doc_complete) = Normal (validated doc_complete).
Proof.
  split; [vm_compute; reflexivity|].
  assert (He : extract (H := browser "") (Str.q doc_complete)
               = Normal (validated doc_complete)) by (vm_compute; reflexivity).
  split; [exact He|].
  refine (proj1 (extraction_idempotent_on_clean_text (H := browser "")
                   (Str.q doc_complete) (validated doc_complete)
                   (match JSON_stringify (Host := browser "") (validated doc_complete) 0 with
                    | VStr s => s
                    | _ => ""
                    end) He _ _ _)); vm_compute; reflexivity.
Defined.

(** C6, as stated, fails: a valid JSON text without any fence marker,
    whose prompt spells two fences with escapes, extracts to a prompt that
    holds the fences; serialized, the fences stand in the text, and the
    second extraction deletes them from the prompt. *)
Lemma extraction_twice_differs :
  Str.includes (Str.q doc_escaped_fence) Str.fence = false
  /\ first_prompt (extract (H := browser "") (Str.q doc_escaped_fence))
     = VStr "A title card set in ```mono``` type"
  /\ first_prompt (re_extract (H := browser "") (Str.q doc_escaped_fence))
     = VStr "A title card set in mono type".
Proof. vm_compute. repeat split; reflexivity. Qed.

(** C7 (amended).  Every architecture the validator accepts has a [shots]
    array, returned as it was given, in which every shot carries a
    non-empty [prompt.full_prompt]; the [shot_number] values pass through
    unread: with the shots numbered in any other way the input is accepted
    all the same. *)
Theorem validate_ignores_shot_numbers p a :
  validateArchitecture p = Normal a ->
  exists shots own,
    field p "shots" = VArr shots own
    /\ lookup "forEach" own = None
    /\ field a "shots" = VArr shots own
    /\ forallb has_full_prompt shots = true
    /\ shot_numbers a = shot_numbers p
    /\ forall numbers, exists p' a',
        set_prop p "shots" (VArr (renumber numbers shots) own) = Normal p'
        /\ validateArchitecture p' = Normal a'.
Proof.
  intros Hv.
  destruct (validated_shots _ _ Hv) as (Hsame & shots & own & Hs & Hown & Hall).
  destruct (validate_normal _ _ Hv) as (Hop & _ & Hm & _).
  destruct (validated_metadata _ _ Hv) as (Hmeta & _).
  exists shots, own. repeat split; try assumption.
  - now rewrite Hsame.
  - unfold shot_numbers. now rewrite Hsame.
  - intros numbers.
    destruct (set_prop_object p "shots" (VArr (renumber numbers shots) own) Hop) as [p' Hp'].
    assert (Hshots : field p' "shots" = VArr (renumber numbers shots) own)
      by exact (field_set_same p "shots" _ p' eq_refl Hp').
    assert (Hother : forall k, k <> "shots" -> field p' k = field p k)
      by (intros k Hk; exact (field_set_other _ _ _ _ _ Hk Hp')).
    destruct (validate_accepts p' (renumber numbers shots) own) as [a' Ha'].
    + now apply (set_prop_normal _ _ _ _ Hp').
    + apply missing_of_nil. intros f Hf.
      pose proof (proj1 (missing_of_nil p) Hm f Hf) as Ht.
      cbn in Hf. destruct Hf as [<-|[<-|[<-|[<-|[]]]]];
        try (rewrite Hother; [assumption | discriminate]).
      now rewrite Hshots.
    + exact Hshots.
    + exact Hown.
    + now rewrite renumber_keeps_prompts.
    + rewrite Hother; [assumption | discriminate].
    + now exists p', a'.
Qed.

(** The complete document, and its one shot given the number 7. *)
Lemma validate_ignores_shot_numbers_witness :
  validateArchitecture (parsed doc_complete) = Normal (validated doc_complete)
  /\ exists shots own,
      field (parsed doc_complete) "shots" = VArr shots own
      /\ lookup "forEach" own = None
      /\ field (validated doc_complete) "shots" = VArr shots own
      /\ forallb has_full_prompt shots = true
      /\ shot_numbers (validated doc_complete) = shot_numbers (parsed doc_complete)
      /\ forall numbers, exists p' a',
          set_prop (parsed doc_complete) "shots" (VArr (renumber numbers shots) own)
          = Normal p'
          /\ validateArchitecture p' = Normal a'.
Proof.
  assert (Hv : validateArchitecture (parsed doc_complete) = Normal (validated doc_complete))
    by (vm_compute; reflexivity).
  split; [exact Hv|].
  exact (validate_ignores_shot_numbers (parsed doc_complete) (validated doc_complete) Hv).
Defined.

(** C7, as stated, fails: the validator accepts two shots numbered 5 and
    2, in that order, and returns them so. *)
Lemma validate_accepts_any_shot_numbers :
  validateArchitecture (parsed doc_shot_numbers) = Normal (validated doc_shot_numbers)
  /\ is_object (validated doc_shot_numbers) = true
  /\ shot_numbers (validated doc_shot_numbers) = [VNum 5; VNum 2].
Proof. vm_compute. repeat split; reflexivity. Qed.
(** ** The prompt assembler, rendered *)

Lemma append_associative (a b c : string) : ((a ++ b) ++ c = a ++ (b ++ c))%string.
Proof. induction a as [|x a IH]; cbn; [reflexivity | now rewrite IH]. Qed.

Section Rendering.
Context `{Host}.
Variable ts : value -> completion string.
Hypothesis Hts : renders_text ts.

Lemma ts_text s : ts (VStr s) = Normal s.
Proof. apply Hts. Qed.

Lemma ts_number x : ts (VNum x) = Normal (Number_toString x).
Proof. apply Hts. Qed.

Lemma template_exact ps :
  forallb renderable ps = true -> template ts ps = Normal (pieces_text ps).
Proof.
  induction ps as [|p ps IH]; intros Hall; cbn [template pieces_text]; [reflexivity|].
  cbn [forallb] in Hall. apply andb_true_iff in Hall as [Hp Hps].
  rewrite (IH Hps). destruct p as [s|v]; cbn [bind piece_text]; [reflexivity|].
  cbn [renderable] in Hp. apply orb_true_iff in Hp as [Hs|Hn].
  - apply is_string_inv in Hs as [s ->]. now rewrite ts_text.
  - apply is_number_inv in Hn as [x ->]. now rewrite ts_number.
Qed.

Lemma push_text_exact parts input k label :
  defined input = true -> opt is_string (field input k) = true ->
  push_text ts parts input k label
  = Normal (parts ++ text_part label (field input k))%list.
Proof.
  intros Hd Ho. unfold push_text, text_part.
  rewrite (get_prop_defined _ _ Hd). cbn [bind].
  apply opt_inv in Ho as [E|[E|E]].
  - rewrite E. cbn [truthy]. now rewrite app_nil_r.
  - rewrite E. cbn [truthy]. now rewrite app_nil_r.
  - apply is_string_inv in E as [s ->].
    destruct (truthy (VStr s)); [|now rewrite app_nil_r].
    rewrite template_exact by reflexivity.
    cbn [bind pieces_text piece_text string_of]. now rewrite append_empty.
Qed.

Lemma join_with_exact sep elems :
  forallb is_string elems = true ->
  join_with ts sep elems = Normal (Str.join sep (map string_of elems)).
Proof.
  intros Hall. unfold join_with.
  rewrite (map_indexed_pure _ string_of); [reflexivity|].
  intros v j Hv. apply (forallb_In _ _ _ Hall) in Hv.
  apply is_string_inv in Hv as [s ->]. apply ts_text.
Qed.

Lemma tone_exact parts tone :
  opt (fun tone => is_string tone || all_in is_string tone) tone = true ->
  (if truthy tone then
     s <- (if is_array tone then
             elems <- array_method "join" tone ;;
             joined <- join_with ts ", " elems ;;
             template ts [Lit "Tone: "; Sub (VStr joined)]
           else template ts [Lit "Tone: "; Sub tone]) ;;
     Normal (push parts s)
   else Normal parts)
  = Normal (parts ++ tone_part tone)%list.
Proof.
  intros Ho. unfold tone_part. apply opt_inv in Ho as [E|[E|E]].
  - rewrite E. cbn [truthy]. now rewrite app_nil_r.
  - rewrite E. cbn [truthy]. now rewrite app_nil_r.
  - apply orb_true_iff in E as [E|E].
    + apply is_string_inv in E as [s ->].
      destruct (truthy (VStr s)); [|now rewrite app_nil_r].
      cbn [is_array]. rewrite template_exact by reflexivity.
      cbn [bind pieces_text piece_text string_of]. now rewrite append_empty.
    + apply all_in_inv in E as (elems & -> & Hall).
      cbn [truthy array is_array array_method lookup bind].
      rewrite (join_with_exact _ _ Hall). cbn [bind].
      rewrite template_exact by reflexivity.
      cbn [bind pieces_text piece_text string_of]. now rewrite append_empty.
Qed.

Lemma map_join_exact xs elems (g : value -> nat -> completion string) (f : value -> string) sep :
  xs = array elems ->
  (forall x j, In x elems -> g x j = Normal (f x)) ->
  map_join xs g sep = Normal (Str.join sep (map f elems)).
Proof.
  intros -> Hg. unfold map_join. cbn [array array_method lookup bind].
  now rewrite (map_indexed_pure g f).
Qed.

Lemma characters_exact parts characters :
  opt (all_in wf_character) characters = true ->
  (if truthy characters then
     s <- map_join characters
            (fun c _ =>
               name <- get_prop c "name" ;;
               description <- get_prop c "description" ;;
               template ts [Lit "- "; Sub name; Lit ": "; Sub description]) nl ;;
     Normal (push parts ("Characters:" ++ nl ++ s))
   else Normal parts)
  = Normal (parts ++ characters_part characters)%list.
Proof.
  intros Ho. unfold characters_part. apply opt_inv in Ho as [E|[E|E]].
  - rewrite E. cbn [truthy]. now rewrite app_nil_r.
  - rewrite E. cbn [truthy]. now rewrite app_nil_r.
  - apply all_in_inv in E as (elems & -> & Hall). cbn [truthy array].
    rewrite (map_join_exact _ elems _ character_line); [reflexivity | reflexivity |].
    intros c j Hc. apply (forallb_In _ _ _ Hall) in Hc.
    unfold wf_character in Hc. apply andb_true_iff in Hc as [Hn Hdesc].
    assert (Hdc : defined c = true) by (destruct c; try reflexivity; discriminate).
    rewrite !(get_prop_defined _ _ Hdc). cbn [bind]. unfold character_line.
    apply is_string_inv in Hn as [name ->]. apply is_string_inv in Hdesc as [description ->].
    rewrite template_exact by reflexivity.
    cbn [pieces_text piece_text string_of]. now rewrite append_empty.
Qed.

Lemma map_indexed_numbered (g : value -> nat -> completion string) (f : value -> string) i xs :
  (forall x j, In x xs -> g x j = Normal (Str.of_nat (j + 1) ++ ". " ++ f x)) ->
  map_indexed g i xs = Normal (numbered (i + 1) (map f xs)).
Proof.
  revert i. induction xs as [|x xs IH]; intros i Hg; cbn [map_indexed map numbered];
    [reflexivity|].
  rewrite (Hg x i (or_introl eq_refl)). cbn [bind].
  rewrite (IH (S i)) by (intros y j Hy; apply Hg; now right). reflexivity.
Qed.

Lemma shots_exact parts shots :
  opt (all_in is_string) shots = true ->
  (if truthy shots then
     s <- map_join shots
            (fun s i => template ts [Lit (Str.of_nat (i + 1)); Lit ". "; Sub s]) nl ;;
     Normal (push parts ("Shot ideas:" ++ nl ++ s))
   else Normal parts)
  = Normal (parts ++ shots_part shots)%list.
Proof.
  intros Ho. unfold shots_part. apply opt_inv in Ho as [E|[E|E]].
  - rewrite E. cbn [truthy]. now rewrite app_nil_r.
  - rewrite E. cbn [truthy]. now rewrite app_nil_r.
  - apply all_in_inv in E as (elems & -> & Hall). cbn [truthy array].
    unfold map_join. cbn [array array_method lookup bind].
    rewrite (map_indexed_numbered _ string_of); [reflexivity|].
    intros s j Hs. apply (forallb_In _ _ _ Hall) in Hs.
    apply is_string_inv in Hs as [text ->].
    rewrite template_exact by reflexivity.
    cbn [pieces_text piece_text string_of]. now rewrite append_empty.
Qed.

Lemma formatStructuredInput_exact input :
  defined input = true -> wf_structured input = true ->
  formatStructuredInput_with ts input = Normal (structured_text input).
Proof.
  intros Hd Hwf. unfold wf_structured in Hwf.
  apply andb_true_iff in Hwf as [Hwf Hconstraints].
  apply andb_true_iff in Hwf as [Hwf Hstyle].
  apply andb_true_iff in Hwf as [Hwf Hshots].
  apply andb_true_iff in Hwf as [Hwf Hcharacters].
  apply andb_true_iff in Hwf as [Hwf Hnarrative].
  apply andb_true_iff in Hwf as [Hconcept Htone].
  unfold formatStructuredInput_with, structured_text.
  rewrite (push_text_exact _ _ _ _ Hd Hconcept). cbn [bind].
  rewrite (get_prop_defined _ _ Hd). cbn [bind].
  rewrite (tone_exact _ _ Htone). cbn [bind].
  rewrite (push_text_exact _ _ _ _ Hd Hnarrative). cbn [bind].
  rewrite (get_prop_defined _ _ Hd). cbn [bind].
  rewrite (characters_exact _ _ Hcharacters). cbn [bind].
  rewrite (get_prop_defined _ _ Hd). cbn [bind].
  rewrite (shots_exact _ _ Hshots). cbn [bind].
  rewrite (push_text_exact _ _ _ _ Hd Hstyle). cbn [bind].
  rewrite (push_text_exact _ _ _ _ Hd Hconstraints). cbn [bind].
  rewrite <- !app_assoc. reflexivity.
Qed.

Lemma reference_line_exact r i :
  wf_reference r = true ->
  reference_line ts r i = Normal (Str.of_nat (i + 1) ++ ". " ++ reference_text r).
Proof.
  unfold wf_reference, reference_line, reference_text. intros Hr.
  apply andb_true_iff in Hr as [Hdesc Hurl].
  assert (Hdr : defined r = true) by (destruct r; try reflexivity; discriminate).
  rewrite !(get_prop_defined _ _ Hdr). cbn [bind].
  apply is_string_inv in Hdesc as [description ->].
  rewrite template_exact by reflexivity. cbn [bind pieces_text piece_text string_of].
  rewrite append_empty.
  assert (Htail : (if truthy (field r "url")
                   then template ts [Lit " ("; Sub (field r "url"); Lit ")"]
                   else Normal "")
                  = Normal (if truthy (field r "url")
                            then " (" ++ string_of (field r "url") ++ ")" else "")).
  { apply opt_inv in Hurl as [E|[E|E]]; try (now rewrite E).
    apply is_string_inv in E as [url ->].
    destruct (truthy (VStr url)); [|reflexivity].
    now rewrite template_exact by reflexivity. }
  rewrite Htail. cbn [bind]. now rewrite !append_associative.
Qed.

Lemma references_exact input :
  defined input = true ->
  opt (all_in wf_reference) (field input "references") = true ->
  (if truthy (field input "references") then
     len <- get_prop (field input "references") "length" ;;
     positive <- js_gt len 0 ;;
     if positive then
       s <- map_join (field input "references") (reference_line ts) nl ;;
       Normal (nl ++ "## Visual References" ++ nl ++ s)
     else Normal ""
   else Normal "")
  = Normal (references_text input).
Proof.
  intros Hd Ho. unfold references_text. apply opt_inv in Ho as [E|[E|E]].
  - now rewrite E.
  - now rewrite E.
  - apply all_in_inv in E as (elems & E & Hall). rewrite E.
    cbn [truthy array get_prop bind]. change ("length" =? "length") with true. cbn iota.
    cbn [bind js_gt ToNumber]. fold (non_empty elems).
    destruct (non_empty elems); [|reflexivity].
    unfold map_join. cbn [array array_method lookup bind].
    rewrite (map_indexed_numbered _ reference_text); [reflexivity|].
    intros r j Hr. apply reference_line_exact. now apply (forallb_In _ _ _ Hall).
Qed.

Lemma inputSection_exact input :
  wf_input input = true ->
  (if is_string input then Normal input
   else
     type <- get_prop input "type" ;;
     if is_str type "text" then get_prop input "content"
     else if is_str type "deck" then
       filename <- get_prop input "filename" ;;
       parsedContent <- get_prop input "parsedContent" ;;
       s <- template ts [Lit "[Parsed from deck: "; Sub filename; Lit ("]" ++ nl ++ nl);
                         Sub parsedContent] ;;
       Normal (VStr s)
     else if is_str type "structured" then
       s <- formatStructuredInput_with ts input ;; Normal (VStr s)
     else Normal (VStr "")) = Normal (VStr (input_section input)).
Proof.
  unfold wf_input. intros Hwf.
  destruct (is_string input) eqn:Es.
  - apply is_string_inv in Es as [s ->]. reflexivity.
  - cbn [orb] in Hwf. apply andb_true_iff in Hwf as [Hwf Hkind].
    apply andb_true_iff in Hwf as [Hd _].
    assert (Hsection : input_section input
                       = if is_str (field input "type") "text"
                         then string_of (field input "content")
                         else if is_str (field input "type") "deck"
                         then "[Parsed from deck: " ++ string_of (field input "filename")
                              ++ "]" ++ nl ++ nl ++ string_of (field input "parsedContent")
                         else if is_str (field input "type") "structured"
                         then structured_text input else "").
    { destruct input; try reflexivity; discriminate. }
    rewrite Hsection, (get_prop_defined _ _ Hd). cbn [bind].
    assert (Hne : forall a b, is_str (field input "type") a = true ->
                              is_str (field input "type") b = true -> a = b).
    { intros a b Ha Hb. destruct (field input "type"); try discriminate.
      cbn in Ha, Hb. apply String.eqb_eq in Ha, Hb. congruence. }
    destruct (is_str (field input "type") "text") eqn:Et.
    { assert (Hc : is_string (field input "content") = true).
      { cbn [andb orb] in Hkind.
        apply orb_true_iff in Hkind as [Hkind|Hkind];
          [apply orb_true_iff in Hkind as [Hc|Hk]|].
        - assumption.
        - apply andb_true_iff in Hk as [Hk _]. apply andb_true_iff in Hk as [Hk _].
          discriminate (Hne _ _ Et Hk).
        - apply andb_true_iff in Hkind as [Hk _]. discriminate (Hne _ _ Et Hk). }
      apply is_string_inv in Hc as [s Hc].
      now rewrite (get_prop_defined _ _ Hd), Hc. }
    cbn [andb orb] in Hkind.
    destruct (is_str (field input "type") "deck") eqn:Ek.
    { assert (Hfp : is_string (field input "filename") = true
                    /\ is_string (field input "parsedContent") = true).
      { cbn [andb orb] in Hkind.
        apply orb_true_iff in Hkind as [Hkind|Hkind].
        - now apply andb_true_iff in Hkind.
        - apply andb_true_iff in Hkind as [Hk _]. discriminate (Hne _ _ Ek Hk). }
      destruct Hfp as [Hf Hp].
      rewrite !(get_prop_defined _ _ Hd). cbn [bind].
      apply is_string_inv in Hf as [filename ->]. apply is_string_inv in Hp as [parsed ->].
      rewrite template_exact by reflexivity.
      cbn [bind pieces_text piece_text string_of].
      now rewrite append_empty, !append_associative. }
    cbn [andb orb] in Hkind. apply andb_true_iff in Hkind as [Hst Hwfs].
    rewrite Hst. now rewrite (formatStructuredInput_exact input Hd Hwfs).
Qed.

Lemma buildUserPrompt_exact input options :
  wf_input input = true -> wf_options options = true ->
  buildUserPrompt_with ts input options = Normal (prompt_text input options).
Proof.
  intros Hi Ho.
  assert (Hdi : defined input = true).
  { unfold wf_input in Hi. destruct input; try reflexivity; discriminate. }
  assert (Hrefs : opt (all_in wf_reference) (field input "references") = true).
  { unfold wf_input in Hi. apply orb_true_iff in Hi as [Hs|Hi].
    - apply is_string_inv in Hs as [s ->]. reflexivity.
    - apply andb_true_iff in Hi as [Hi _]. now apply andb_true_iff in Hi as [_ Hi]. }
  unfold wf_options in Ho.
  apply andb_true_iff in Ho as [Ho Hbrand]. apply andb_true_iff in Ho as [Hplat Hcount].
  assert (Hdo : defined options = true).
  { destruct options; try reflexivity; discriminate. }
  unfold buildUserPrompt_with.
  rewrite !(get_prop_defined _ _ Hdo). cbn [bind].
  rewrite (inputSection_exact input Hi). cbn [bind].
  rewrite (get_prop_defined _ _ Hdi). cbn [bind].
  rewrite (references_exact input Hdi Hrefs). cbn [bind].
  assert (Hshots : renderable
                     (Sub (js_or (field options "shotCount")
                             (VStr "infer from content (typically 4-8 for a :15-:30 spot)")))
                   = true
                   /\ piece_text
                        (Sub (js_or (field options "shotCount")
                                (VStr "infer from content (typically 4-8 for a :15-:30 spot)")))
                      = shot_count_text (field options "shotCount")).
  { unfold js_or, shot_count_text. apply opt_inv in Hcount as [E|[E|E]].
    - now rewrite E.
    - now rewrite E.
    - apply is_number_inv in E as [x ->]. now destruct (truthy (VNum x)). }
  destruct Hshots as [Hshots Hcounted].
  apply is_string_inv in Hplat as [platform Hplat]. rewrite Hplat.
  rewrite template_exact
    by (apply unlines_renderable; cbn [forallb]; rewrite Hshots; reflexivity).
  cbn [bind].
  assert (Hline : (if truthy (field options "brandContext")
                   then template ts [Lit "- Brand context: "; Sub (field options "brandContext")]
                   else Normal "")
                  = Normal (brand_line (field options "brandContext"))).
  { unfold brand_line. apply opt_inv in Hbrand as [E|[E|E]]; try (now rewrite E).
    apply is_string_inv in E as [brand ->].
    destruct (truthy (VStr brand)); [|reflexivity].
    rewrite template_exact by reflexivity.
    cbn [pieces_text piece_text string_of]. now rewrite append_empty. }
  rewrite Hline. cbn [bind].
  rewrite template_exact by reflexivity. cbn [bind].
  f_equal. unfold prompt_text. rewrite Hplat.
  cbn [unlines app pieces_text Str.join concat string_of].
  rewrite Hcounted. cbn [piece_text string_of].
  rewrite !append_associative. reflexivity.
Qed.

End Rendering.

(** C8 (amended).  On every creative input of one of the three variants
    whose parts are texts (plain text, as a string or a [text] object
    with its content; a parsed deck with its filename and content; a
    structured input, any of its seven sub-fields unset, its characters
    with a name and a description), with or without references (each
    with a description, the url optional), and every option set with a
    platform text (shot count and brand context may be unset), the prompt
    assembler completes normally, and its text is exactly [prompt_text]:
    the fixed layout in which a field that is unset contributes nothing
    (no part, no line, no section) and the shot count is replaced by the
    instruction to infer it.  Nothing [undefined] or [null] is converted
    into the text: it is the same under every template conversion that
    renders strings and numbers as ToString does. *)
Theorem assembler_total_without_placeholders `{Host} input options :
  wf_input input = true ->
  wf_options options = true ->
  buildUserPrompt input options = Normal (prompt_text input options)
  /\ (forall ts, renders_text ts ->
        buildUserPrompt_with ts input options = Normal (prompt_text input options))
  /\ (forall label v,
        is_absent v = true ->
        text_part label v = [] /\ tone_part v = [] /\ characters_part v = []
        /\ shots_part v = [] /\ brand_line v = ""
        /\ shot_count_text v = "infer from content (typically 4-8 for a :15-:30 spot)")
  /\ (is_absent (field input "references") = true
      \/ field input "references" = array [] ->
      references_text input = "").
Proof.
  intros Hi Ho. split; [|split; [|split]].
  - apply (buildUserPrompt_exact ToString); [split; reflexivity | assumption | assumption].
  - intros ts Hts. now apply buildUserPrompt_exact.
  - intros label v Hv. destruct v; try discriminate; repeat split.
  - intros [Hr|Hr]; unfold references_text.
    + destruct (field input "references"); try discriminate; reflexivity.
    + rewrite Hr. reflexivity.
Qed.

(** A structured input with most sub-fields unset, no references, and the
    shot count and brand context unset: the text in full; it is also what
    a conversion printing every unset value as [<unset>] gives. *)
Lemma assembler_total_without_placeholders_witness :
  buildUserPrompt (H := browser "") input_structured options_unset
  = Normal
      (Str.join nl
         [""; "## Creative Input"; "";
          "Concept: A kettle that sings"; "";
          "Tone: warm, whimsical"; "";
          "Shot ideas:"; "1. kettle on stove"; "2. steam rising";
          "";
          ""; "## Requirements"; "";
          "- Target platform: platform-agnostic";
          "- Number of shots: infer from content (typically 4-8 for a :15-:30 spot)";
          "- Output format: Complete JSON matching the prompt_architecture_schema";
          "";
          ""; "## Instructions"; "";
          "Analyze this creative input and produce a complete prompt architecture.";
          "";
          "You MUST include:";
          "1. All required schema fields (metadata, project, global_style, shots)";
          "2. Copy/paste ready prompts for each shot in shots[].prompt.full_prompt";
          "3. Component breakdown in shots[].prompt.prompt_components";
          "4. All interpretive decisions you made in the interpretations[] array";
          "5. Any questions that would improve the output in missing_info[]";
          "";
          "For EACH shot prompt, structure it as:";
          "[Subject with full character description if applicable] + [Action/motion] + [Environment] + [Lighting] + [Camera/framing] + [Style/quality markers]";
          "";
          "Output valid JSON only. No markdown, no explanation outside the JSON.";
          ""])
  /\ shows (buildUserPrompt (H := browser "") input_structured options_unset) "undefined"
     = false
  /\ shows (buildUserPrompt (H := browser "") input_structured options_unset) "null" = false
  /\ buildUserPrompt_with (H := browser "") (marking_unset (H := browser ""))
       input_structured options_unset
     = buildUserPrompt (H := browser "") input_structured options_unset
  /\ buildUserPrompt (H := browser "") input_structured_full options_set
     = Normal (prompt_text (H := browser "") input_structured_full options_set).
Proof.
  pose proof (assembler_total_without_placeholders (H := browser "")
                input_structured options_unset eq_refl eq_refl) as (Hp & _).
  split; [rewrite Hp; vm_compute; reflexivity|].
  split; [vm_compute; reflexivity|].
  split; [vm_compute; reflexivity|].
  split; [vm_compute; reflexivity|].
  exact (proj1 (assembler_total_without_placeholders (H := browser "")
                  input_structured_full options_set eq_refl eq_refl)).
Defined.

(** C8, as stated, fails: the assembler checks none of the parts it
    renders.  A deck without a filename, a character without a
    description and a platform that is [null] (which the default of
    generateArchitecture leaves as it is) each put [undefined] or [null]
    into the text. *)
Lemma assembler_renders_missing_parts :
  shows (buildUserPrompt (H := browser "") input_deck_unnamed options_unset)
    "[Parsed from deck: undefined]" = true
  /\ shows (buildUserPrompt (H := browser "") input_character_undescribed options_unset)
       "- Ada: undefined" = true
  /\ requirements options_platform_null
     = VObj [("platform", VNull); ("shotCount", VNull); ("brandContext", VNull)]
  /\ shows (buildUserPrompt (H := browser "") (VStr "A kettle ad")
              (requirements options_platform_null))
       "- Target platform: null" = true
  /\ shows (buildUserPrompt (H := browser "") (VStr "A kettle ad") (VObj []))
       "- Target platform: undefined" = true.
Proof. vm_compute. repeat split; reflexivity. Qed.

(** ** Generation and refinement *)

Section Stamps.
Context `{Host}.

Lemma generate_normal input options arch :
  snd (generateArchitecture input options) = Normal arch ->
  exists platform response validated,
    destructure (default_object options) "platform" (VStr "platform-agnostic")
    = Normal platform
    /\ snd (parseResponse response) = Normal validated
    /\ (metadata <- get_prop validated "metadata" ;;
        set_prop validated "metadata"
          (literal (own_props metadata)
             [("schema_version", VStr "1.0.0");
              ("created_at", VStr Date_toISOString);
              ("platform_target", platform)])) = Normal arch.
Proof.
  unfold generateArchitecture. intros Hg.
  apply ebind_normal in Hg as (platform & Hplatform & Hg).
  apply ebind_normal in Hg as (shotCount & _ & Hg).
  apply ebind_normal in Hg as (brandContext & _ & Hg).
  apply ebind_normal in Hg as (apiKey & _ & Hg).
  apply ebind_normal in Hg as (userPrompt & _ & Hg).
  apply ebind_normal in Hg as (response & _ & Hg).
  apply ebind_normal in Hg as (validated & Hvalidated & Hg).
  now exists platform, response, validated.
Qed.

Lemma refine_normal current feedback options refined :
  snd (refineArchitecture current feedback options) = Normal refined ->
  exists response validated note,
    snd (parseResponse response) = Normal validated
    /\ refinement_note feedback = Normal note
    /\ (metadata <- get_prop validated "metadata" ;;
        set_prop validated "metadata"
          (literal (own_props metadata)
             [("updated_at", VStr Date_toISOString);
              ("refinement_note", VStr note)])) = Normal refined.
Proof.
  unfold refineArchitecture. intros Hr.
  apply ebind_normal in Hr as (targetShots & _ & Hr).
  apply ebind_normal in Hr as (apiKey & _ & Hr).
  apply ebind_normal in Hr as (instruction & _ & Hr).
  apply ebind_normal in Hr as (response & _ & Hr).
  apply ebind_normal in Hr as (validated & Hvalidated & Hr).
  cbn [lift snd] in Hr.
  destruct (get_prop validated "metadata") as [metadata|] eqn:Em; cbn [bind] in Hr;
    [|discriminate].
  destruct (refinement_note feedback) as [note|] eqn:En; cbn [bind] in Hr; [|discriminate].
  exists response, validated, note. repeat split; try assumption.
  now rewrite Em.
Qed.

End Stamps.

(** C9.  For every successful refinement call the feedback is a text, and
    the metadata of the returned architecture carries an update timestamp
    and a refinement note that is the feedback itself when it has at most
    100 characters, and its first 100 characters followed by three dots
    when it is longer. *)
Theorem refinement_stamps_note `{Host} current feedback options refined :
  snd (refineArchitecture current feedback options) = Normal refined ->
  exists text stamped,
    feedback = VStr text
    /\ field refined "metadata" = VObj stamped
    /\ lookup "updated_at" stamped = Some (VStr Date_toISOString)
    /\ lookup "refinement_note" stamped
       = Some (VStr (if (length text <=? 100)%nat then text
                     else Str.substring0 100 text ++ "..."))
    /\ prefix (Str.substring0 100 text) text = true
    /\ length (Str.substring0 100 text) = Nat.min 100 (length text).
Proof.
  intros Hr.
  apply refine_normal in Hr as (response & validated & note & Hv & Hn & Hs).
  apply parseResponse_normal in Hv as (t & p & _ & _ & Hv & _).
  destruct (stamped_metadata p validated _ refined Hv Hs) as [Hm _].
  unfold refinement_note in Hn. destruct feedback; try discriminate.
  injection Hn as <-.
  exists s. eexists. split; [reflexivity|]. split; [exact Hm|].
  split; [|split; [|split; [apply substring0_prefix | apply substring0_length]]].
  - cbn [fold_left fst snd].
    rewrite (lookup_update_other "updated_at" "refinement_note") by discriminate.
    apply lookup_update_same.
  - cbn [fold_left fst snd]. rewrite lookup_update_same. do 2 f_equal.
    rewrite Nat.ltb_antisym.
    destruct (length s <=? 100)%nat eqn:El; cbn [negb].
    + apply Nat.leb_le in El. now rewrite (substring0_short _ _ El), append_empty.
    + reflexivity.
Qed.

(** A refinement with a feedback of 121 characters. *)
Lemma refinement_stamps_note_witness :
  snd (refineArchitecture (H := browser (Str.q doc_complete))
         (validated doc_complete) (VStr feedback_long) VUndefined)
  = Normal refined_example
  /\ field (field refined_example "metadata") "refinement_note"
     = VStr "Make the second shot slower and warmer, hold on the kettle for two more beats, and let the steam cat..."
  /\ exists text stamped,
      VStr feedback_long = VStr text
      /\ field refined_example "metadata" = VObj stamped
      /\ lookup "updated_at" stamped = Some (VStr "2026-01-01T00:00:00.000Z")
      /\ lookup "refinement_note" stamped
         = Some (VStr (if (length text <=? 100)%nat then text
                       else Str.substring0 100 text ++ "..."))
      /\ prefix (Str.substring0 100 text) text = true
      /\ length (Str.substring0 100 text) = Nat.min 100 (length text).
Proof.
  split; [vm_compute; reflexivity|].
  split; [vm_compute; reflexivity|].
  refine (refinement_stamps_note (H := browser (Str.q doc_complete))
            (validated doc_complete) (VStr feedback_long) VUndefined _ _).
  vm_compute. reflexivity.
Defined.

(** C10.  For every successful generation call, the metadata of the
    returned architecture is an object whose [schema_version] is "1.0.0",
    whose [platform_target] is the requested platform ("platform-agnostic"
    when the option is unset) and whose [created_at] is the time of the
    call, whatever the completion gave for the three; every other
    metadata field of the validated response is as the validator returned
    it, and so is every field of the architecture beside [metadata]. *)
Theorem generation_stamps_metadata `{Host} input options arch :
  snd (generateArchitecture input options) = Normal arch ->
  exists response validated stamped platform,
    snd (parseResponse response) = Normal validated
    /\ field arch "metadata" = VObj stamped
    /\ lookup "schema_version" stamped = Some (VStr "1.0.0")
    /\ lookup "created_at" stamped = Some (VStr Date_toISOString)
    /\ lookup "platform_target" stamped = Some platform
    /\ (field (default_object options) "platform" = VUndefined ->
        platform = VStr "platform-agnostic")
    /\ (field (default_object options) "platform" <> VUndefined ->
        platform = field (default_object options) "platform")
    /\ (forall k, k <> "schema_version" -> k <> "created_at" -> k <> "platform_target" ->
          lookup k stamped = lookup k (own_props (field validated "metadata")))
    /\ (forall props k,
          field validated "metadata" = VObj props ->
          k <> "schema_version" -> k <> "created_at" -> k <> "platform_target" ->
          field (field arch "metadata") k = field (field validated "metadata") k)
    /\ (forall k, k <> "metadata" -> get_prop arch k = get_prop validated k).
Proof.
  intros Hg.
  apply generate_normal in Hg as (platform & response & validated & Hp & Hv & Hs).
  pose proof Hv as Hv'.
  apply parseResponse_normal in Hv' as (t & p & _ & _ & Hv' & _).
  destruct (stamped_metadata p validated _ arch Hv' Hs) as [Hm Hrest].
  assert (Hother : forall k, k <> "schema_version" -> k <> "created_at" ->
                             k <> "platform_target" ->
                             lookup k (fold_left (fun ps kv => update (fst kv) (snd kv) ps)
                                         [("schema_version", VStr "1.0.0");
                                          ("created_at", VStr Date_toISOString);
                                          ("platform_target", platform)]
                                         (own_props (field validated "metadata")))
                             = lookup k (own_props (field validated "metadata"))).
  { intros k H1 H2 H3. cbn [fold_left fst snd].
    rewrite (lookup_update_other k "platform_target") by assumption.
    rewrite (lookup_update_other k "created_at") by assumption.
    now rewrite (lookup_update_other k "schema_version") by assumption. }
  exists response, validated. eexists. exists platform.
  split; [exact Hv|]. split; [exact Hm|].
  split; [|split; [|split; [|split; [|split; [|split; [|split]]]]]].
  - cbn [fold_left fst snd].
    rewrite (lookup_update_other "schema_version" "platform_target") by discriminate.
    rewrite (lookup_update_other "schema_version" "created_at") by discriminate.
    apply lookup_update_same.
  - cbn [fold_left fst snd].
    rewrite (lookup_update_other "created_at" "platform_target") by discriminate.
    apply lookup_update_same.
  - cbn [fold_left fst snd]. apply lookup_update_same.
  - intros Hu. unfold destructure in Hp.
    destruct (get_prop (default_object options) "platform") as [v|] eqn:Eg;
      cbn [bind] in Hp; [|discriminate].
    apply get_prop_normal in Eg as [_ Eg]. rewrite Hu in Eg. subst v. congruence.
  - intros Hu. unfold destructure in Hp.
    destruct (get_prop (default_object options) "platform") as [v|] eqn:Eg;
      cbn [bind] in Hp; [|discriminate].
    apply get_prop_normal in Eg as [_ Eg]. rewrite Eg in *.
    destruct v; congruence.
  - exact Hother.
  - intros props k Hprops H1 H2 H3. rewrite Hm. unfold literal, field at 1. cbn [get_prop].
    rewrite (Hother k H1 H2 H3), Hprops. reflexivity.
  - exact Hrest.
Qed.

(** A generation with no options: the platform defaults, the version the
    completion gave is overridden, its [model] field is kept. *)
Lemma generation_stamps_metadata_witness :
  snd (generateArchitecture (H := browser (Str.q doc_complete)) (VStr "A kettle ad") VUndefined)
  = Normal generated_example
  /\ field (field generated_example "metadata") "schema_version" = VStr "1.0.0"
  /\ field (field generated_example "metadata") "platform_target" = VStr "platform-agnostic"
  /\ field (field generated_example "metadata") "model" = VStr "m1"
  /\ exists response validated stamped platform,
      snd (parseResponse (H := browser (Str.q doc_complete)) response) = Normal validated
      /\ field generated_example "metadata" = VObj stamped
      /\ lookup "schema_version" stamped = Some (VStr "1.0.0")
      /\ lookup "created_at" stamped = Some (VStr "2026-01-01T00:00:00.000Z")
      /\ lookup "platform_target" stamped = Some platform
      /\ (field (default_object VUndefined) "platform" = VUndefined ->
          platform = VStr "platform-agnostic")
      /\ (field (default_object VUndefined) "platform" <> VUndefined ->
          platform = field (default_object VUndefined) "platform")
      /\ (forall k, k <> "schema_version" -> k <> "created_at" -> k <> "platform_target" ->
            lookup k stamped = lookup k (own_props (field validated "metadata")))
      /\ (forall props k,
            field validated "metadata" = VObj props ->
            k <> "schema_version" -> k <> "created_at" -> k <> "platform_target" ->
            field (field generated_example "metadata") k
            = field (field validated "metadata") k)
      /\ (forall k, k <> "metadata" ->
            get_prop generated_example k = get_prop validated k).
Proof.
  split; [vm_compute; reflexivity|].
  split; [vm_compute; reflexivity|].
  split; [vm_compute; reflexivity|].
  split; [vm_compute; reflexivity|].
  refine (generation_stamps_metadata (H := browser (Str.q doc_complete))
            (VStr "A kettle ad") VUndefined _ _).
  vm_compute. reflexivity.
Defined.

(* ====================================================================== *)
(** * Further properties of the engine *)
(* ====================================================================== *)

(** ** Fences around a completion *)

(** A line feed right after the text never completes a fence begun in it. *)
Lemma prefix_fence_boundary s rest :
  prefix Str.fence (s ++ String Str.newline rest) = prefix Str.fence s.
Proof.
  unfold Str.fence.
  destruct s as [|c1 [|c2 [|c3 s]]]; cbn [append prefix];
    repeat match goal with
           | |- context [ascii_dec ?a ?b] => destruct (ascii_dec a b)
           end; try reflexivity; try discriminate.
  now destruct s.
Qed.

Lemma no_fence_json_before_closing text :
  Str.includes text Str.fence = false ->
  Str.includes (text ++ String Str.newline Str.fence) Str.fence_json = false.
Proof.
  induction text as [|c text IH]; intros Hf; [reflexivity|].
  cbn [Str.includes] in Hf. apply orb_false_iff in Hf as [Hp Hr].
  change ((String c text) ++ String Str.newline Str.fence)
    with (String c (text ++ String Str.newline Str.fence)).
  cbn [Str.includes]. rewrite (IH Hr), orb_false_r.
  destruct (prefix Str.fence_json (String c (text ++ String Str.newline Str.fence))) eqn:Ep;
    [|reflexivity].
  apply (prefix_app Str.fence "json") in Ep.
  change (String c (text ++ String Str.newline Str.fence))
    with ((String c text) ++ String Str.newline Str.fence) in Ep.
  rewrite prefix_fence_boundary in Ep. congruence.
Qed.

Lemma remove_closing_fence text fuel :
  Str.includes text Str.fence = false ->
  Str.remove_marker_fuel (length text + 2 + fuel) Str.fence
    (text ++ String Str.newline Str.fence)
  = text ++ String Str.newline EmptyString.
Proof.
  induction text as [|c text IH]; intros Hf.
  - cbn. now destruct fuel.
  - cbn [Str.includes] in Hf. apply orb_false_iff in Hf as [Hp Hr].
    change ((String c text) ++ String Str.newline Str.fence)
      with (String c (text ++ String Str.newline Str.fence)).
    cbn [length Nat.add Str.remove_marker_fuel].
    change (String c (text ++ String Str.newline Str.fence))
      with ((String c text) ++ String Str.newline Str.fence) at 1.
    rewrite prefix_fence_boundary, Hp.
    cbn [append]. now rewrite (IH Hr).
Qed.

Lemma trim_end_line s : Str.trim_end (s ++ String Str.newline EmptyString) = Str.trim_end s.
Proof.
  induction s as [|c s IH]; [reflexivity|].
  cbn [append Str.trim_end]. now rewrite IH.
Qed.

Lemma trim_line s : Str.trim (s ++ String Str.newline EmptyString) = Str.trim s.
Proof.
  unfold Str.trim. induction s as [|c s IH]; [reflexivity|].
  cbn [append Str.trim_start]. destruct (Str.is_space c); [exact IH|].
  exact (trim_end_line (String c s)).
Qed.

Lemma length_append s t : length (s ++ t) = (length s + length t)%nat.
Proof. induction s as [|c s IH]; cbn; [reflexivity | now rewrite IH]. Qed.

Lemma prefix_append pat rest : prefix pat (pat ++ rest) = true.
Proof.
  induction pat as [|c pat IH]; cbn; [now destruct rest|].
  destruct (ascii_dec c c); [exact IH | congruence].
Qed.

Lemma drop_append pat rest : Str.drop (length pat) (pat ++ rest) = rest.
Proof. induction pat as [|c pat IH]; cbn; [now destruct rest | exact IH]. Qed.

(** A marker at the head of the text goes with the line feed after it. *)
Lemma remove_marker_head pat rest fuel :
  pat <> "" ->
  Str.remove_marker_fuel (S fuel) pat (pat ++ String Str.newline rest)
  = Str.remove_marker_fuel fuel pat rest.
Proof.
  intros Hp. cbn [Str.remove_marker_fuel].
  rewrite prefix_append, drop_append.
  destruct pat as [|c pat]; [congruence|]. cbn [append].
  now rewrite Ascii.eqb_refl.
Qed.

Lemma jsonStr_fenced text :
  Str.includes text Str.fence = false ->
  jsonStr (Str.fence_json ++ String Str.newline (text ++ String Str.newline Str.fence))
  = jsonStr text
  /\ jsonStr (Str.fence ++ String Str.newline (text ++ String Str.newline Str.fence))
     = jsonStr text.
Proof.
  intros Hf. rewrite (jsonStr_no_fence _ Hf), !jsonStr_formula.
  pose proof (no_fence_json_before_closing _ Hf) as Hj.
  split.
  - unfold Str.remove_marker at 2.
    rewrite remove_marker_head by discriminate.
    rewrite (remove_marker_fuel_absent _ _ _ Hj).
    unfold Str.remove_marker. rewrite length_append.
    replace (S (length text + length (String Str.newline Str.fence)))
      with (length text + 2 + 3)%nat by (cbn; lia).
    now rewrite (remove_closing_fence _ _ Hf), trim_line.
  - rewrite (remove_marker_absent Str.fence_json).
    + unfold Str.remove_marker.
      rewrite remove_marker_head by discriminate.
      rewrite !length_append.
      replace (length Str.fence + length (String Str.newline (text ++ String Str.newline Str.fence)))%nat
        with (length text + 2 + 6)%nat by (cbn; rewrite length_append; cbn; lia).
      now rewrite (remove_closing_fence _ _ Hf), trim_line.
    + unfold Str.fence at 1. cbn [append Str.includes].
      change (Str.includes (String Str.newline (text ++ String Str.newline Str.fence)) Str.fence_json)
        with (prefix Str.fence_json (String Str.newline (text ++ String Str.newline Str.fence))
              || Str.includes (text ++ String Str.newline Str.fence) Str.fence_json).
      rewrite Hj. reflexivity.
Qed.

(** ** The validator and the extractor *)

(** X1.  What the validator returns, it accepts again and returns
    unchanged; and it has the four required fields, a numeric confidence
    score and the four optional collections in place. *)
Theorem validated_is_fixed_point p a :
  validateArchitecture p = Normal a ->
  validateArchitecture a = Normal a
  /\ missing_of a = []
  /\ (exists x, field (field a "metadata") "confidence_score" = VNum x)
  /\ (forall k, In k optional_arrays -> truthy (field a k) = true).
Proof.
  intros Hv. pose proof (validate_idempotent _ _ Hv) as Hi.
  split; [exact Hi|].
  destruct (validate_normal _ _ Hi) as (_ & _ & Hm & _).
  destruct (validate_normal _ _ Hv) as (_ & _ & _ & _ & _ & Hopt & _).
  destruct (validated_metadata _ _ Hv) as (_ & _ & Hx).
  repeat split; try assumption.
  intros k Hk. rewrite (Hopt k Hk). now apply js_or_truthy.
Qed.

(** The bare document, validated once and twice. *)
Lemma validated_is_fixed_point_witness :
  validateArchitecture (parsed doc_bare) = Normal (validated doc_bare)
  /\ validateArchitecture (validated doc_bare) = Normal (validated doc_bare)
  /\ missing_of (validated doc_bare) = []
  /\ (exists x, field (field (validated doc_bare) "metadata") "confidence_score" = VNum x)
  /\ (forall k, In k optional_arrays -> truthy (field (validated doc_bare) k) = true).
Proof.
  assert (Hv : validateArchitecture (parsed doc_bare) = Normal (validated doc_bare))
    by (vm_compute; reflexivity).
  split; [exact Hv|].
  exact (validated_is_fixed_point (parsed doc_bare) (validated doc_bare) Hv).
Defined.

(** X2.  Whatever parseResponse throws is a TypeError, for a response that
    is not a string (nothing is logged then), or the one error "Failed to
    parse architecture response as JSON": the error the validator threw
    for a text that did parse is written to the console with the first
    500 characters of the cleaned text, and does not reach the caller. *)
Theorem extraction_hides_validation_errors `{Host} response log e :
  parseResponse response = (log, Throw e) ->
  (is_string response = false /\ e = TypeError /\ log = [])
  \/ (exists text cause,
        response = VStr text
        /\ e = Error "Failed to parse architecture response as JSON"
        /\ log = [("Failed to parse response:", LogExn cause);
                  ("Response was:", LogStr (Str.substring0 500 (jsonStr text)))]
        /\ ((cause = SyntaxError /\ JSON_parse (jsonStr text) = None)
            \/ (exists p, JSON_parse (jsonStr text) = Some p
                          /\ validateArchitecture p = Throw cause))).
Proof.
  unfold parseResponse. intros Hp.
  destruct response as [| | | |text| |];
    try (left; injection Hp as <- <-; repeat split; reflexivity).
  right. exists text.
  destruct (JSON_parse (jsonStr text)) as [p|] eqn:Ep.
  - destruct (validateArchitecture p) as [a|cause] eqn:Ev; [discriminate|].
    injection Hp as <- <-. exists cause. repeat split. right. now exists p.
  - injection Hp as <- <-. exists SyntaxError. repeat split. now left.
Qed.

(** The document whose second shot has no prompt: the validator's error
    goes to the console, the caller gets the parse error. *)
Lemma extraction_hides_validation_errors_witness :
  parseResponse (H := browser "") (VStr (Str.q doc_second_shot_empty))
  = ([("Failed to parse response:", LogExn (Error "Shot 2 missing full_prompt"));
      ("Response was:",
       LogStr (Str.substring0 500 (jsonStr (Str.q doc_second_shot_empty))))],
     Throw (Error "Failed to parse architecture response as JSON"))
  /\ ((is_string (VStr (Str.q doc_second_shot_empty)) = false
       /\ Error "Failed to parse architecture response as JSON" = TypeError
       /\ [("Failed to parse response:", LogExn (Error "Shot 2 missing full_prompt"));
           ("Response was:",
            LogStr (Str.substring0 500 (jsonStr (Str.q doc_second_shot_empty))))] = [])
      \/ (exists text cause,
            VStr (Str.q doc_second_shot_empty) = VStr text
            /\ Error "Failed to parse architecture response as JSON"
               = Error "Failed to parse architecture response as JSON"
            /\ [("Failed to parse response:", LogExn (Error "Shot 2 missing full_prompt"));
                ("Response was:",
                 LogStr (Str.substring0 500 (jsonStr (Str.q doc_second_shot_empty))))]
               = [("Failed to parse response:", LogExn cause);
                  ("Response was:", LogStr (Str.substring0 500 (jsonStr text)))]
            /\ ((cause = SyntaxError
                 /\ JSON_parse (Host := browser "") (jsonStr text) = None)
                \/ (exists p, JSON_parse (Host := browser "") (jsonStr text) = Some p
                              /\ validateArchitecture p = Throw cause)))).
Proof.
  assert (Hp : parseResponse (H := browser "") (VStr (Str.q doc_second_shot_empty))
               = ([("Failed to parse response:", LogExn (Error "Shot 2 missing full_prompt"));
                   ("Response was:",
                    LogStr (Str.substring0 500 (jsonStr (Str.q doc_second_shot_empty))))],
                  Throw (Error "Failed to parse architecture response as JSON")))
    by (vm_compute; reflexivity).
  split; [exact Hp|].
  exact (extraction_hides_validation_errors (H := browser "") _ _ _ Hp).
Defined.

(** X3.  A completion that holds no fence of its own extracts to the same
    result, and the same console output, whether it comes bare, wrapped in
    a fence tagged [json], or wrapped in an untagged fence. *)
Theorem fenced_completion_extracts_as_bare `{Host} text :
  Str.includes text Str.fence = false ->
  parseResponse
    (VStr (Str.fence_json ++ String Str.newline (text ++ String Str.newline Str.fence)))
  = parseResponse (VStr text)
  /\ parseResponse
       (VStr (Str.fence ++ String Str.newline (text ++ String Str.newline Str.fence)))
     = parseResponse (VStr text).
Proof.
  intros Hf. destruct (jsonStr_fenced text Hf) as [Hj Hb].
  unfold parseResponse. now rewrite Hj, Hb.
Qed.

(** The complete document in a [json] fence. *)
Lemma fenced_completion_extracts_as_bare_witness :
  Str.includes (Str.q doc_complete) Str.fence = false
  /\ snd (parseResponse (H := browser "")
            (VStr (Str.fence_json
                   ++ String Str.newline (Str.q doc_complete ++ String Str.newline Str.fence))))
     = Normal (validated doc_complete)
  /\ parseResponse (H := browser "")
       (VStr (Str.fence_json
              ++ String Str.newline (Str.q doc_complete ++ String Str.newline Str.fence)))
     = parseResponse (H := browser "") (VStr (Str.q doc_complete)).
Proof.
  assert (Hf : Str.includes (Str.q doc_complete) Str.fence = false)
    by (vm_compute; reflexivity).
  split; [exact Hf|]. split; [vm_compute; reflexivity|].
  exact (proj1 (fenced_completion_extracts_as_bare (H := browser "") (Str.q doc_complete) Hf)).
Defined.

(** ** The confidence gate *)

Lemma filter_by_inv (p : value -> completion bool) xs ys :
  filter_by p xs = Normal ys -> forall y, In y ys -> In y xs /\ p y = Normal true.
Proof.
  revert ys. induction xs as [|x xs IH]; intros ys Hf; cbn [filter_by] in Hf.
  - injection Hf as <-. intros y [].
  - bind_inv Hf as b Eb. bind_inv Hf as zs Ez. injection Hf as <-.
    intros y Hy. destruct b.
    + destruct Hy as [<-|Hy]; [split; [now left | exact Eb]|].
      destruct (IH zs eq_refl y Hy). split; [now right | assumption].
    + destruct (IH zs eq_refl y Hy). split; [now right | assumption].
Qed.

Lemma map_indexed_inv {A} (g : value -> nat -> completion A) i xs ys :
  map_indexed g i xs = Normal ys ->
  List.length ys = List.length xs
  /\ forall y, In y ys -> exists x j, In x xs /\ g x j = Normal y.
Proof.
  revert i ys. induction xs as [|x xs IH]; intros i ys Hm; cbn [map_indexed] in Hm.
  - injection Hm as <-. split; [reflexivity | intros y []].
  - bind_inv Hm as z Ez. bind_inv Hm as zs Ezs. injection Hm as <-.
    destruct (IH _ _ Ezs) as [Hl Hin]. split; [cbn; now rewrite Hl|].
    intros y [<-|Hy].
    + exists x, i. split; [now left | exact Ez].
    + destruct (Hin y Hy) as (x' & j & Hx' & Hg). exists x', j. split; [now right | exact Hg].
Qed.

Lemma firstn_at_most {A} n (xs : list A) : (List.length (firstn n xs) <= n)%nat.
Proof. rewrite length_firstn. lia. Qed.

Section Outcomes.
Context `{Host}.

Lemma is_low_confidence_defined i b :
  is_low_confidence i = Normal b -> defined i = true /\ low_confidence i = b.
Proof.
  unfold is_low_confidence, low_confidence. intros Hl.
  bind_inv Hl as c Ec. apply get_prop_normal in Ec as [Hd <-]. now rewrite Hl.
Qed.

Lemma as_caveat_defined i j : defined i = true -> as_caveat i j = Normal (caveat i).
Proof.
  intros Hd. unfold as_caveat, caveat. now rewrite !(get_prop_defined _ _ Hd).
Qed.

Lemma filter_by_low items :
  forallb wf_interpretation items = true ->
  filter_by is_low_confidence items = Normal (filter low_confidence items).
Proof.
  intros Hall. apply filter_by_pure. intros i Hi.
  destruct (is_low_confidence_total i (forallb_In _ _ _ Hall Hi)) as [b Hb].
  rewrite Hb. now destruct (is_low_confidence_defined _ _ Hb) as [_ ->].
Qed.

End Outcomes.

(** X4.  With a confidence score below 0.70 and no question that
    qualifies, the gate returns status [complete_with_caveats] with the
    architecture and, in their original order, the interpretations whose
    confidence is below 0.70, each reduced to its [element],
    [interpretation] and [alternatives].  An interpretation without a
    [confidence] is not a caveat; one whose [confidence] is [null] is. *)
Theorem gate_surfaces_caveats `{Host} a x qs items :
  confidence_of a = Normal (VNum x) ->
  PrimFloat.ltb x 0.7 = true ->
  field a "missing_info" = array qs ->
  forallb defined qs = true ->
  selection qs = [] ->
  field a "interpretations" = array items ->
  forallb wf_interpretation items = true ->
  confidence_gating a
  = Normal (VObj [("status", VStr "complete_with_caveats");
                  ("architecture", a);
                  ("caveats", array (map caveat (filter low_confidence items)))])
  /\ (forall i c, field i "confidence" = VNum c -> low_confidence i = PrimFloat.ltb c 0.7)
  /\ (forall i, field i "confidence" = VUndefined -> low_confidence i = false)
  /\ (forall i, field i "confidence" = VNull -> low_confidence i = true).
Proof.
  intros Hc Hlt Hq Hall Hsel Hi Halli.
  split; [|repeat split; intros i; intros; unfold low_confidence;
           match goal with E : field i _ = _ |- _ => rewrite E end; reflexivity].
  assert (Hge : js_ge (VNum x) 0.7 = Normal false)
    by (rewrite js_ge_number; f_equal; now apply lt_not_ge).
  unfold confidence_of, confidence_gating in *.
  destruct (get_prop a "metadata") as [m|] eqn:Em; cbn [bind] in *; [|discriminate].
  apply get_prop_normal in Em as [Hd _].
  rewrite Hc. cbn [bind]. rewrite Hge. cbn [bind].
  rewrite (get_prop_defined _ _ Hd), Hq.
  cbn [bind js_or truthy array filter_array array_method lookup].
  rewrite (filter_by_pure is_critical qualifies)
    by (intros q Hq'; apply is_critical_defined; now apply (forallb_In _ _ _ Hall)).
  cbn [bind]. fold (selection qs). rewrite Hsel. cbn [List.length Nat.ltb Nat.leb].
  rewrite (get_prop_defined _ _ Hd), Hi.
  cbn [bind js_or truthy array filter_array array_method lookup].
  rewrite (filter_by_low _ Halli). cbn [bind].
  rewrite (map_indexed_pure as_caveat caveat); [reflexivity|].
  intros i j Hin. apply as_caveat_defined.
  apply filter_In in Hin as [Hin _]. apply (forallb_In _ _ _ Halli) in Hin.
  unfold wf_interpretation in Hin. now apply andb_true_iff in Hin as [Hin _].
Qed.

(** Confidence 0.5, one question of low criticality with a default, and
    interpretations of confidence 0.6, 0.9 and 0.2: the first and the
    third are the caveats. *)
Lemma gate_surfaces_caveats_witness :
  confidence_gating (H := browser "") (validated doc_caveats)
  = Normal (VObj [("status", VStr "complete_with_caveats");
                  ("architecture", validated doc_caveats);
                  ("caveats",
                   array [VObj [("element", VStr "tone");
                                ("interpretation", VStr "cosy");
                                ("alternatives", array [VStr "brisk"])];
                          VObj [("element", VStr "time");
                                ("interpretation", VStr "morning");
                                ("alternatives", VUndefined)]])]).
Proof.
  refine (proj1 (gate_surfaces_caveats (H := browser "") (validated doc_caveats) 0.5
                   [VObj [("question", VStr "Q1"); ("criticality", VStr "low");
                          ("default_used", VStr "a kitchen")]]
                   [VObj [("element", VStr "tone"); ("interpretation", VStr "cosy");
                          ("confidence", VNum 0.6); ("alternatives", array [VStr "brisk"])];
                    VObj [("element", VStr "setting"); ("interpretation", VStr "kitchen");
                          ("confidence", VNum 0.9)];
                    VObj [("element", VStr "time"); ("interpretation", VStr "morning");
                          ("confidence", VNum 0.2)]]
                   _ _ _ _ _ _ _)); vm_compute; reflexivity.
Defined.

(** X5.  Whenever the gate returns, it returns the architecture it was
    given under one of three shapes: [complete] when the confidence score
    is at least 0.70 and only then; else [needs_clarification] with at
    least one and at most three questions, each the reduction of an entry
    of [missing_info] that qualifies; else [complete_with_caveats]. *)
Theorem gate_outcomes `{Host} a out :
  confidence_gating a = Normal out ->
  exists score confident,
    confidence_of a = Normal score
    /\ js_ge score 0.7 = Normal confident
    /\ field out "architecture" = a
    /\ if confident then
         out = VObj [("status", VStr "complete"); ("architecture", a)]
       else
         (exists questions,
             out = VObj [("status", VStr "needs_clarification");
                         ("architecture", a);
                         ("questions", array questions)]
             /\ (1 <= List.length questions <= 3)%nat
             /\ forall q, In q questions ->
                  exists source entries own,
                    js_or (field a "missing_info") (array []) = VArr entries own
                    /\ In source entries
                    /\ qualifies source = true
                    /\ q = reduced source)
         \/ (exists caveats,
               out = VObj [("status", VStr "complete_with_caveats");
                           ("architecture", a);
                           ("caveats", array caveats)]).
Proof.
  unfold confidence_gating, confidence_of. intros Hg.
  bind_inv Hg as metadata Em. bind_inv Hg as score Es. bind_inv Hg as confident Ec.
  exists score, confident. cbn [bind].
  split; [exact Es|]. split; [exact Ec|]. split.
  { destruct confident.
    - now injection Hg as <-.
    - bind_inv Hg as missing_info Emi. bind_inv Hg as qualifying Eq.
      destruct (0 <? List.length (firstn 3 qualifying))%nat.
      + bind_inv Hg as questions Eqs. now injection Hg as <-.
      + bind_inv Hg as interpretations Ei. bind_inv Hg as low El.
        bind_inv Hg as caveats Ecs. now injection Hg as <-. }
  destruct confident; cbn beta iota; [now injection Hg as <-|].
  bind_inv Hg as missing_info Emi. bind_inv Hg as qualifying Eq.
  apply get_prop_normal in Emi as [_ <-].
  unfold filter_array in Eq. bind_inv Eq as entries Ee.
  apply array_method_normal in Ee as (own & Ee & _).
  destruct (0 <? List.length (firstn 3 qualifying))%nat eqn:Epos.
  - bind_inv Hg as questions Eqs. injection Hg as <-. left.
    exists questions. split; [reflexivity|].
    destruct (map_indexed_inv _ _ _ _ Eqs) as [Hlen Hin].
    apply Nat.ltb_lt in Epos. pose proof (firstn_at_most 3 qualifying).
    split; [lia|].
    intros q Hq. destruct (Hin q Hq) as (source & j & Hs & Hj).
    apply firstn_In in Hs.
    destruct (filter_by_inv _ _ _ Eq source Hs) as [Hsrc Hcrit].
    assert (Hd : defined source = true).
    { unfold as_question in Hj. bind_inv Hj as v Ev. now apply get_prop_normal in Ev. }
    rewrite (as_question_defined _ j Hd) in Hj.
    rewrite (is_critical_defined _ Hd) in Hcrit.
    exists source, entries, own. repeat split; congruence.
  - bind_inv Hg as interpretations Ei. bind_inv Hg as low El.
    bind_inv Hg as caveats Ecs. injection Hg as <-. right. now exists caveats.
Qed.

(** Five questions of high criticality: the first three are asked. *)
Lemma gate_outcomes_witness :
  confidence_gating (H := browser "") (validated doc_five_questions)
  = Normal (VObj [("status", VStr "needs_clarification");
                  ("architecture", validated doc_five_questions);
                  ("questions",
                   array [VObj [("question", VStr "Q1"); ("context", VUndefined);
                                ("currentAssumption", VUndefined)];
                          VObj [("question", VStr "Q2"); ("context", VUndefined);
                                ("currentAssumption", VUndefined)];
                          VObj [("question", VStr "Q3"); ("context", VUndefined);
                                ("currentAssumption", VUndefined)]])])
  /\ exists score confident,
      confidence_of (validated doc_five_questions) = Normal score
      /\ js_ge (H := browser "") score 0.7 = Normal confident
      /\ field (VObj [("status", VStr "needs_clarification");
                      ("architecture", validated doc_five_questions);
                      ("questions",
                       array [reduced (VObj [("question", VStr "Q1"); ("criticality", VStr "high")]);
                              reduced (VObj [("question", VStr "Q2"); ("criticality", VStr "high")]);
                              reduced (VObj [("question", VStr "Q3"); ("criticality", VStr "high")])])])
           "architecture"
         = validated doc_five_questions.
Proof.
  assert (Hg : confidence_gating (H := browser "") (validated doc_five_questions)
               = Normal (VObj [("status", VStr "needs_clarification");
                  ("architecture", validated doc_five_questions);
                  ("questions",
                   array [reduced (VObj [("question", VStr "Q1"); ("criticality", VStr "high")]);
                          reduced (VObj [("question", VStr "Q2"); ("criticality", VStr "high")]);
                          reduced (VObj [("question", VStr "Q3"); ("criticality", VStr "high")])])]))
    by (vm_compute; reflexivity).
  split; [exact Hg|].
  destruct (gate_outcomes (H := browser "") _ _ Hg) as (score & confident & H1 & H2 & H3 & _).
  exists score, confident. split; [exact H1|]. split; [exact H2|]. exact H3.
Defined.

(** ** Generation, refinement and regeneration *)

Lemma to_index_of_nat i : Str.to_index (Str.of_nat i) = Some i.
Proof.
  unfold Str.to_index, Str.of_nat.
  rewrite NilEmpty.usu, DecimalNat.Unsigned.of_to, String.eqb_refl. reflexivity.
Qed.

(** The indices of an array are no named properties. *)
Lemma lookup_indexed k i elems own :
  Str.to_index k = None -> lookup k (indexed i elems ++ own)%list = lookup k own.
Proof.
  intros Hk. revert i. induction elems as [|v elems IH]; intros i; cbn; [reflexivity|].
  destruct (Str.of_nat i =? k) eqn:E; [|apply IH].
  apply String.eqb_eq in E. subst k. rewrite to_index_of_nat in Hk. discriminate.
Qed.

(** A spread copies every named property of an object or array. *)
Lemma spread_field m k :
  named k = true -> is_object m = true -> or_undefined (lookup k (own_props m)) = field m k.
Proof.
  intros Hn Ho. apply named_spec in Hn as [Hl Hi].
  destruct m; try discriminate; unfold field; cbn; [|reflexivity].
  now rewrite Hl, Hi, lookup_indexed.
Qed.

Lemma lookup_fold_other k fields base :
  ~ In k (map fst fields) ->
  lookup k (fold_left (fun ps kv => update (fst kv) (snd kv) ps) fields base) = lookup k base.
Proof.
  revert base. induction fields as [|[k' v] fields IH]; intros base Hk; cbn; [reflexivity|].
  rewrite IH by (intros Hin; apply Hk; now right).
  apply lookup_update_other. intros ->. apply Hk. now left.
Qed.

(** What stamping the metadata of a validated architecture leaves as it
    was. *)
Lemma stamped_frame v m fields arch k :
  validateArchitecture v = Normal m ->
  (metadata <- get_prop m "metadata" ;;
   set_prop m "metadata" (literal (own_props metadata) fields)) = Normal arch ->
  named k = true -> ~ In k (map fst fields) ->
  field (field arch "metadata") k = field (field m "metadata") k.
Proof.
  intros Hv Hs Hn Hk.
  destruct (stamped_metadata _ _ _ _ Hv Hs) as [Hm _].
  destruct (validated_metadata _ _ Hv) as (_ & Ho & _).
  rewrite Hm. unfold literal, field at 1. cbn [get_prop].
  rewrite (lookup_fold_other _ _ _ Hk). now apply spread_field.
Qed.

(** A validated architecture with its metadata stamped is still one the
    validator accepts as it is. *)
Lemma stamped_valid v m fields arch :
  validateArchitecture v = Normal m ->
  (metadata <- get_prop m "metadata" ;;
   set_prop m "metadata" (literal (own_props metadata) fields)) = Normal arch ->
  ~ In "confidence_score" (map fst fields) ->
  validateArchitecture arch = Normal arch.
Proof.
  intros Hv Hs Hk.
  pose proof (validate_idempotent _ _ Hv) as Hi.
  destruct (validate_normal _ _ Hi) as (Hom & _ & Hmiss & (shots & own & Hsh & Hown & Hall) & _).
  destruct (validate_normal _ _ Hv) as (_ & _ & _ & _ & _ & Hopt & _).
  destruct (validated_metadata _ _ Hv) as (_ & _ & x & Hx).
  destruct (stamped_metadata _ _ _ _ Hv Hs) as [Hm Hrest].
  assert (Hfield : forall k, k <> "metadata" -> field arch k = field m k)
    by (intros k Hne; unfold field; now rewrite Hrest).
  rewrite (get_prop_defined _ _ (is_object_defined _ Hom)) in Hs. cbn [bind] in Hs.
  apply (validate_complete arch shots own).
  - now apply (set_prop_normal _ _ _ _ Hs).
  - apply missing_of_nil. intros f Hf.
    pose proof (proj1 (missing_of_nil m) Hmiss f Hf) as Ht.
    cbn in Hf. destruct Hf as [<-|[<-|[<-|[<-|[]]]]];
      try (rewrite Hfield; [assumption | discriminate]).
    now rewrite Hm.
  - rewrite Hfield; [assumption | discriminate].
  - exact Hown.
  - exact Hall.
  - rewrite (stamped_frame v m fields arch "confidence_score" Hv) by
      (try reflexivity; try assumption;
       rewrite (get_prop_defined _ _ (is_object_defined _ Hom)); exact Hs).
    now rewrite Hx.
  - intros k Hin. rewrite Hfield.
    + rewrite (Hopt k Hin). now apply js_or_truthy.
    + cbn in Hin. intuition congruence.
Qed.

Section Calls.
Context `{Host}.

(** The steps of a generation that returns. *)
Lemma generate_steps input options arch :
  snd (generateArchitecture input options) = Normal arch ->
  exists platform prompt key response validated,
    callClaudeAPI prompt key = Normal response
    /\ snd (parseResponse response) = Normal validated
    /\ (metadata <- get_prop validated "metadata" ;;
        set_prop validated "metadata"
          (literal (own_props metadata)
             [("schema_version", VStr "1.0.0");
              ("created_at", VStr Date_toISOString);
              ("platform_target", platform)])) = Normal arch.
Proof.
  unfold generateArchitecture. intros Hg.
  apply ebind_normal in Hg as (platform & _ & Hg).
  apply ebind_normal in Hg as (shotCount & _ & Hg).
  apply ebind_normal in Hg as (brandContext & _ & Hg).
  apply ebind_normal in Hg as (key & _ & Hg).
  apply ebind_normal in Hg as (prompt & _ & Hg).
  apply ebind_normal in Hg as (response & Hresponse & Hg).
  apply ebind_normal in Hg as (validated & Hvalidated & Hg).
  now exists platform, prompt, key, response, validated.
Qed.

(** The steps of a refinement that returns. *)
Lemma refine_steps current feedback options refined :
  snd (refineArchitecture current feedback options) = Normal refined ->
  exists prompt key response validated note,
    callClaudeAPI prompt key = Normal response
    /\ snd (parseResponse response) = Normal validated
    /\ refinement_note feedback = Normal note
    /\ (metadata <- get_prop validated "metadata" ;;
        set_prop validated "metadata"
          (literal (own_props metadata)
             [("updated_at", VStr Date_toISOString);
              ("refinement_note", VStr note)])) = Normal refined.
Proof.
  unfold refineArchitecture. intros Hr.
  apply ebind_normal in Hr as (targetShots & _ & Hr).
  apply ebind_normal in Hr as (key & _ & Hr).
  apply ebind_normal in Hr as (prompt & _ & Hr).
  apply ebind_normal in Hr as (response & Hresponse & Hr).
  apply ebind_normal in Hr as (validated & Hvalidated & Hr).
  cbn [lift snd] in Hr.
  destruct (get_prop validated "metadata") as [metadata|] eqn:Em; cbn [bind] in Hr;
    [|discriminate].
  destruct (refinement_note feedback) as [note|] eqn:En; cbn [bind] in Hr; [|discriminate].
  exists prompt, key, response, validated, note. repeat split; try assumption.
  now rewrite Em.
Qed.

End Calls.

Section Failures.
Context `{Host}.

Lemma destructure_defined o k d :
  defined o = true -> destructure o k d = Normal (or_default (field o k) d).
Proof. intros Hd. unfold destructure. now rewrite (get_prop_defined _ _ Hd). Qed.

(** A generation whose prompt can be built fails as its API call does. *)
Lemma generate_api_failure input options e :
  wf_input input = true ->
  defined (default_object options) = true ->
  wf_options (requirements options) = true ->
  (forall prompt key, callClaudeAPI prompt key = Throw e) ->
  generateArchitecture input options = ([], Throw e).
Proof.
  intros Hi Hd Ho Hcall.
  destruct (buildUserPrompt_uniform input (requirements options) Hi Ho) as [prompt Hp].
  specialize (Hp ToString (conj (fun s => eq_refl) (fun x => eq_refl))).
  unfold generateArchitecture.
  rewrite !(destructure_defined _ _ _ Hd). cbn [lift ebind].
  unfold requirements in Hp. unfold buildUserPrompt. rewrite Hp. cbn [lift ebind].
  rewrite Hcall. reflexivity.
Qed.

End Failures.

(** X6.  Every architecture generateArchitecture returns is one the
    validator accepts unchanged, and its confidence score is the number
    the validator left in the completion: the stamps do not touch it. *)
Theorem generated_architecture_is_valid `{Host} input options arch :
  snd (generateArchitecture input options) = Normal arch ->
  validateArchitecture arch = Normal arch
  /\ exists response validated x,
      snd (parseResponse response) = Normal validated
      /\ confidence_of validated = Normal (VNum x)
      /\ confidence_of arch = Normal (VNum x).
Proof.
  intros Hg.
  apply generate_steps in Hg as (platform & prompt & key & response & validated & _ & Hv & Hs).
  pose proof Hv as Hv'.
  apply parseResponse_normal in Hv' as (text & p & _ & _ & Hv' & _).
  assert (Hk : ~ In "confidence_score"
                 (map fst [("schema_version", VStr "1.0.0");
                           ("created_at", VStr Date_toISOString);
                           ("platform_target", platform)]))
    by (cbn; intuition discriminate).
  pose proof (stamped_valid _ _ _ _ Hv' Hs Hk) as Hvalid.
  split; [exact Hvalid|].
  destruct (validated_confidence _ _ Hv') as [x Hx].
  exists response, validated, x. repeat split; try assumption.
  destruct (validate_normal _ _ Hvalid) as (Ho & _).
  destruct (validated_metadata _ _ Hvalid) as (Hom & _).
  unfold confidence_of in *.
  rewrite (get_prop_defined _ _ (is_object_defined _ Ho)). cbn [bind].
  rewrite (get_prop_defined _ _ (is_object_defined _ Hom)).
  rewrite (stamped_frame _ _ _ _ "confidence_score" Hv' Hs eq_refl Hk).
  destruct (validate_normal _ _ (validate_idempotent _ _ Hv')) as (Hov & _).
  destruct (validated_metadata _ _ Hv') as (_ & Homv & _).
  rewrite (get_prop_defined _ _ (is_object_defined _ Hov)) in Hx. cbn [bind] in Hx.
  rewrite (get_prop_defined _ _ (is_object_defined _ Homv)) in Hx. exact Hx.
Qed.

(** A generation against a server that answers with the bare document:
    the result is valid, with the default confidence score 0.8. *)
Lemma generated_architecture_is_valid_witness :
  snd (generateArchitecture (H := browser (Str.q doc_bare)) (VStr "A kettle ad") VUndefined)
  = Normal (value_of (snd (generateArchitecture (H := browser (Str.q doc_bare))
                             (VStr "A kettle ad") VUndefined)))
  /\ confidence_of (value_of (snd (generateArchitecture (H := browser (Str.q doc_bare))
                                     (VStr "A kettle ad") VUndefined)))
     = Normal (VNum 0.8)
  /\ validateArchitecture
       (value_of (snd (generateArchitecture (H := browser (Str.q doc_bare))
                         (VStr "A kettle ad") VUndefined)))
     = Normal (value_of (snd (generateArchitecture (H := browser (Str.q doc_bare))
                                (VStr "A kettle ad") VUndefined))).
Proof.
  assert (Hg : snd (generateArchitecture (H := browser (Str.q doc_bare))
                      (VStr "A kettle ad") VUndefined)
               = Normal (value_of (snd (generateArchitecture (H := browser (Str.q doc_bare))
                                          (VStr "A kettle ad") VUndefined))))
    by (vm_compute; reflexivity).
  split; [exact Hg|]. split; [vm_compute; reflexivity|].
  exact (proj1 (generated_architecture_is_valid (H := browser (Str.q doc_bare)) _ _ _ Hg)).
Defined.

(** X7.  A refinement returns what the validator made of the completion,
    with [updated_at] and [refinement_note] set in its metadata and
    nothing else changed: no other metadata field and no other field of
    the architecture is carried over from the architecture being refined
    or stamped anew.  The result is one the validator accepts unchanged. *)
Theorem refinement_keeps_validated_fields `{Host} current feedback options refined :
  snd (refineArchitecture current feedback options) = Normal refined ->
  exists response validated,
    snd (parseResponse response) = Normal validated
    /\ validateArchitecture refined = Normal refined
    /\ (forall k, named k = true -> k <> "updated_at" -> k <> "refinement_note" ->
          field (field refined "metadata") k = field (field validated "metadata") k)
    /\ (forall k, k <> "metadata" -> get_prop refined k = get_prop validated k).
Proof.
  intros Hr.
  apply refine_steps in Hr as (prompt & key & response & validated & note & _ & Hv & _ & Hs).
  pose proof Hv as Hv'.
  apply parseResponse_normal in Hv' as (text & p & _ & _ & Hv' & _).
  exists response, validated. split; [exact Hv|]. split; [|split].
  - apply (stamped_valid _ _ _ _ Hv' Hs). cbn. intuition discriminate.
  - intros k Hn H1 H2. apply (stamped_frame _ _ _ _ k Hv' Hs Hn).
    cbn. intuition congruence.
  - exact (proj2 (stamped_metadata _ _ _ _ Hv' Hs)).
Qed.

(** The refinement of the complete document: the [model] field of the
    completion's metadata is kept, and no [created_at] appears. *)
Lemma refinement_keeps_validated_fields_witness :
  snd (refineArchitecture (H := browser (Str.q doc_complete))
         (validated doc_complete) (VStr feedback_long) VUndefined)
  = Normal refined_example
  /\ field (field refined_example "metadata") "model" = VStr "m1"
  /\ field (field refined_example "metadata") "created_at" = VUndefined
  /\ exists response validated,
      snd (parseResponse (H := browser (Str.q doc_complete)) response) = Normal validated
      /\ validateArchitecture refined_example = Normal refined_example
      /\ (forall k, named k = true -> k <> "updated_at" -> k <> "refinement_note" ->
            field (field refined_example "metadata") k
            = field (field validated "metadata") k)
      /\ (forall k, k <> "metadata" -> get_prop refined_example k = get_prop validated k).
Proof.
  assert (Hr : snd (refineArchitecture (H := browser (Str.q doc_complete))
                      (validated doc_complete) (VStr feedback_long) VUndefined)
               = Normal refined_example) by (vm_compute; reflexivity).
  split; [exact Hr|]. split; [vm_compute; reflexivity|]. split; [vm_compute; reflexivity|].
  exact (refinement_keeps_validated_fields (H := browser (Str.q doc_complete)) _ _ _ _ Hr).
Defined.

Section Regeneration.
Context `{Host}.

Lemma join_numbers_of numbers :
  join_numbers (array (map VNum numbers))
  = Normal (Str.join ", " (map Number_toString numbers)).
Proof.
  unfold join_numbers, join_with. cbn [array array_method lookup bind].
  rewrite (map_indexed_pure _ (fun v => match v with
                                        | VNum x => Number_toString x
                                        | _ => ""
                                        end)).
  - cbn [bind]. now rewrite map_map.
  - intros v j Hv. apply in_map_iff in Hv as (x & <- & _). reflexivity.
Qed.

Lemma refinement_note_of feedback : refinement_note (VStr feedback) = Normal (note_of feedback).
Proof.
  unfold refinement_note, note_of. f_equal. rewrite Nat.ltb_antisym.
  destruct (length feedback <=? 100)%nat eqn:El; cbn [negb]; [|reflexivity].
  apply Nat.leb_le in El. now rewrite (substring0_short _ _ El), append_empty.
Qed.

End Regeneration.

(** X8.  regenerateShots is a refinement: with shot numbers and a
    direction it refines the current architecture with the feedback
    "Regenerate shots N1, N2, ... with this direction: D" (or, for an
    empty or omitted direction, "... with fresh creative interpretation
    while maintaining the overall style and continuity.") and with the
    numbers as target shots added to the options it was given; so the
    refinement note of its result is that feedback, cut to 100 characters
    and three dots when it is longer. *)
Theorem regeneration_is_refinement `{Host} current numbers direction options :
  regenerateShots current (array (map VNum numbers)) (VStr direction) options
  = refineArchitecture current (VStr (regeneration_feedback numbers direction))
      (literal (own_props (default_object options))
         [("targetShots", array (map VNum numbers))])
  /\ regenerateShots current (array (map VNum numbers)) VUndefined options
     = regenerateShots current (array (map VNum numbers)) (VStr "") options
  /\ forall refined,
      snd (regenerateShots current (array (map VNum numbers)) (VStr direction) options)
      = Normal refined ->
      field (field refined "metadata") "refinement_note"
      = VStr (note_of (regeneration_feedback numbers direction)).
Proof.
  assert (Hd : regenerateShots current (array (map VNum numbers)) (VStr direction) options
               = refineArchitecture current (VStr (regeneration_feedback numbers direction))
                   (literal (own_props (default_object options))
                      [("targetShots", array (map VNum numbers))])).
  { unfold regenerateShots, regeneration_feedback. rewrite join_numbers_of.
    cbn [bind truthy]. destruct (direction =? "") eqn:Ed; cbn [negb].
    - cbn [template ToString bind lift ebind]. rewrite append_empty.
      now destruct (refineArchitecture _ _ _).
    - cbn [template ToString bind lift ebind]. rewrite append_empty.
      now destruct (refineArchitecture _ _ _). }
  split; [exact Hd|]. split; [reflexivity|].
  intros refined Hr. rewrite Hd in Hr.
  apply refine_steps in Hr as (prompt & key & response & validated & note & _ & Hv & Hn & Hs).
  apply parseResponse_normal in Hv as (text & p & _ & _ & Hv & _).
  rewrite refinement_note_of in Hn. injection Hn as <-.
  destruct (stamped_metadata _ _ _ _ Hv Hs) as [Hm _].
  rewrite Hm. unfold literal, field. cbn [get_prop fold_left fst snd].
  now rewrite lookup_update_same.
Qed.

(** X9.  The [apiKey] option has no effect: generation, gated generation
    and refinement return the same result and write the same console
    output whatever key the options hold. *)
Theorem api_key_is_ignored `{Host} input current feedback props key :
  generateArchitecture input (VObj (update "apiKey" key props))
  = generateArchitecture input (VObj props)
  /\ processWithConfidenceGating input (VObj (update "apiKey" key props))
     = processWithConfidenceGating input (VObj props)
  /\ refineArchitecture current feedback (VObj (update "apiKey" key props))
     = refineArchitecture current feedback (VObj props).
Proof.
  assert (Hother : forall k d, k <> "apiKey" ->
            destructure (VObj (update "apiKey" key props)) k d = destructure (VObj props) k d).
  { intros k d Hk. unfold destructure. cbn [get_prop].
    now rewrite (lookup_update_other k "apiKey") by assumption. }
  assert (Hg : generateArchitecture input (VObj (update "apiKey" key props))
               = generateArchitecture input (VObj props)).
  { unfold generateArchitecture. cbn [default_object].
    rewrite (Hother "platform"), (Hother "shotCount"), (Hother "brandContext")
      by discriminate.
    unfold destructure. cbn [get_prop bind lift ebind]. reflexivity. }
  split; [exact Hg|]. split.
  - unfold processWithConfidenceGating. now rewrite Hg.
  - unfold refineArchitecture. cbn [default_object].
    rewrite (Hother "targetShots") by discriminate.
    unfold destructure. cbn [get_prop bind lift ebind]. reflexivity.
Qed.

(** X10.  Outside a browser (no [window]) the engine cannot succeed: no
    generation and no refinement returns an architecture, and a
    generation whose input and options are well formed fails, after
    building its prompt, with the error "Direct API calls require Node.js
    environment with Anthropic SDK", with nothing written to the
    console. *)
Theorem engine_needs_a_browser `{Host} :
  window_defined = false ->
  (forall input options arch, snd (generateArchitecture input options) <> Normal arch)
  /\ (forall current feedback options arch,
        snd (refineArchitecture current feedback options) <> Normal arch)
  /\ (forall input options,
        wf_input input = true ->
        defined (default_object options) = true ->
        wf_options (requirements options) = true ->
        generateArchitecture input options
        = ([], Throw (Error "Direct API calls require Node.js environment with Anthropic SDK"))).
Proof.
  intros Hw.
  assert (Hcall : forall prompt key,
            callClaudeAPI prompt key
            = Throw (Error "Direct API calls require Node.js environment with Anthropic SDK"))
    by (intros; unfold callClaudeAPI; now rewrite Hw).
  split; [|split].
  - intros input options arch Hg.
    apply generate_steps in Hg as (_ & prompt & key & response & _ & Hc & _).
    now rewrite Hcall in Hc.
  - intros current feedback options arch Hr.
    apply refine_steps in Hr as (prompt & key & response & _ & _ & Hc & _).
    now rewrite Hcall in Hc.
  - intros input options Hi Hd Ho. now apply generate_api_failure.
Qed.

(** The engine on a host without [window]. *)
Lemma engine_needs_a_browser_witness :
  generateArchitecture (H := node) (VStr "A kettle ad") VUndefined
  = ([], Throw (Error "Direct API calls require Node.js environment with Anthropic SDK")).
Proof.
  exact (proj2 (proj2 (engine_needs_a_browser (H := node) eq_refl))
           (VStr "A kettle ad") VUndefined eq_refl eq_refl eq_refl).
Defined.

(** X11.  When the endpoint answers with an HTTP failure, the API call
    throws "API call failed: " followed by the status, and a generation
    whose input and options are well formed fails with that error, with
    nothing written to the console; the body of the failed response is
    not read. *)
Theorem http_failure_is_reported `{Host} r code :
  window_defined = true ->
  (forall url init, fetch url init = Normal r) ->
  ok r = false ->
  status r = VNum code ->
  (forall prompt key,
      callClaudeAPI prompt key
      = Throw (Error ("API call failed: " ++ Number_toString code)))
  /\ (forall input options,
        wf_input input = true ->
        defined (default_object options) = true ->
        wf_options (requirements options) = true ->
        generateArchitecture input options
        = ([], Throw (Error ("API call failed: " ++ Number_toString code)))).
Proof.
  intros Hw Hf Hok Hst.
  assert (Hcall : forall prompt key,
            callClaudeAPI prompt key
            = Throw (Error ("API call failed: " ++ Number_toString code))).
  { intros prompt key. unfold callClaudeAPI. rewrite Hw, Hf. cbn [bind]. rewrite Hok, Hst.
    cbn [negb template ToString bind]. now rewrite append_empty. }
  split; [exact Hcall|].
  intros input options Hi Hd Ho. now apply generate_api_failure.
Qed.

(** A server that answers 500. *)
Lemma http_failure_is_reported_witness :
  generateArchitecture
    (H := js_host true (failing 500) "2026-01-01T00:00:00.000Z")
    (VStr "A kettle ad") VUndefined
  = ([], Throw (Error "API call failed: 500")).
Proof.
  exact (proj2 (http_failure_is_reported
                  (H := js_host true (failing 500) "2026-01-01T00:00:00.000Z")
                  {| ok := false;
                     status := VNum 500;
                     json := Normal (VObj [("error", VStr "Failed to generate response")]) |}
                  500 eq_refl (fun _ _ => eq_refl) eq_refl eq_refl)
           (VStr "A kettle ad") VUndefined eq_refl eq_refl eq_refl).
Defined.

(** ** The prompt assembler *)

(** X12.  A [text] object without references gives the same prompt as
    its content handed over as a bare string. *)
Theorem text_object_is_plain_text `{Host} input content options :
  defined input = true ->
  is_str (field input "type") "text" = true ->
  field input "content" = VStr content ->
  truthy (field input "references") = false ->
  buildUserPrompt input options = buildUserPrompt (VStr content) options.
Proof.
  intros Hd Ht Hc Hr. unfold buildUserPrompt, buildUserPrompt_with.
  assert (Hs : is_string input = false).
  { destruct input; try reflexivity. unfold field in Ht. cbn in Ht.
    destruct (Str.to_index "type"); discriminate. }
  rewrite Hs, !(get_prop_defined _ _ Hd). cbn [bind].
  rewrite Ht, Hc, Hr. reflexivity.
Qed.

Lemma text_object_is_plain_text_witness :
  buildUserPrompt (H := browser "") input_text options_unset
  = buildUserPrompt (H := browser "") (VStr "A kettle that sings") options_unset.
Proof.
  exact (text_object_is_plain_text (H := browser "") input_text "A kettle that sings"
           options_unset eq_refl eq_refl eq_refl eq_refl).
Defined.

(** X13.  A shot count and a brand context that are falsy (0, the empty
    string, [null], [false]) count as unset: two option sets with the
    same platform and no truthy shot count or brand context give the same
    prompt, with the instruction to infer the number of shots and without
    a brand context line. *)
Theorem falsy_options_are_unset `{Host} input options options' :
  defined options = true ->
  defined options' = true ->
  field options "platform" = field options' "platform" ->
  truthy (field options "shotCount") = false ->
  truthy (field options' "shotCount") = false ->
  truthy (field options "brandContext") = false ->
  truthy (field options' "brandContext") = false ->
  buildUserPrompt input options = buildUserPrompt input options'.
Proof.
  intros Hd Hd' Hp Hs Hs' Hb Hb'. unfold buildUserPrompt, buildUserPrompt_with.
  rewrite !(get_prop_defined _ _ Hd), !(get_prop_defined _ _ Hd'). cbn [bind].
  unfold js_or. now rewrite Hp, Hs, Hs', Hb, Hb'.
Qed.

Lemma falsy_options_are_unset_witness :
  buildUserPrompt (H := browser "") input_structured options_falsy
  = buildUserPrompt (H := browser "") input_structured options_unset.
Proof.
  exact (falsy_options_are_unset (H := browser "") input_structured options_falsy
           options_unset eq_refl eq_refl eq_refl eq_refl eq_refl eq_refl eq_refl).
Defined.

(** X14.  An input object whose [type] is none of [text], [deck] and
    [structured] is not rejected: without references, it gives the prompt
    of an empty text, whatever else it holds. *)
Theorem unknown_input_type_is_empty `{Host} input options :
  defined input = true ->
  is_string input = false ->
  is_str (field input "type") "text" = false ->
  is_str (field input "type") "deck" = false ->
  is_str (field input "type") "structured" = false ->
  truthy (field input "references") = false ->
  buildUserPrompt input options = buildUserPrompt (VStr "") options.
Proof.
  intros Hd Hs H1 H2 H3 Hr. unfold buildUserPrompt, buildUserPrompt_with.
  rewrite Hs, !(get_prop_defined _ _ Hd). cbn [bind].
  rewrite H1, H2, H3, Hr. reflexivity.
Qed.

Lemma unknown_input_type_is_empty_witness :
  buildUserPrompt (H := browser "") input_storyboard options_unset
  = buildUserPrompt (H := browser "") (VStr "") options_unset.
Proof.
  exact (unknown_input_type_is_empty (H := browser "") input_storyboard options_unset
           eq_refl eq_refl eq_refl eq_refl eq_refl eq_refl).
Defined.

(** X15.  The rendering of a structured input depends on its seven
    sub-fields only: neither the order of its properties nor any other
    property changes it, the parts coming in the fixed order concept,
    tone, narrative, characters, shot ideas, style notes, constraints. *)
Theorem structured_rendering_reads_seven_fields `{Host} input input' :
  defined input = true ->
  defined input' = true ->
  (forall k, In k structured_fields -> field input k = field input' k) ->
  formatStructuredInput input = formatStructuredInput input'.
Proof.
  intros Hd Hd' Hk. unfold formatStructuredInput, formatStructuredInput_with, push_text.
  rewrite !(get_prop_defined _ _ Hd), !(get_prop_defined _ _ Hd').
  rewrite !Hk by (cbn; tauto). reflexivity.
Qed.

Lemma structured_rendering_reads_seven_fields_witness :
  formatStructuredInput (H := browser "") input_structured
  = Normal (Str.join (nl ++ nl)
              ["Concept: A kettle that sings";
               "Tone: warm, whimsical";
               "Shot ideas:" ++ nl ++ "1. kettle on stove" ++ nl ++ "2. steam rising"])
  /\ formatStructuredInput (H := browser "") input_structured
     = formatStructuredInput (H := browser "") input_structured_shuffled.
Proof.
  split; [vm_compute; reflexivity|].
  apply (structured_rendering_reads_seven_fields (H := browser ""));
    [reflexivity | reflexivity |].
  intros k Hk. cbn in Hk.
  destruct Hk as [<-|[<-|[<-|[<-|[<-|[<-|[<-|[]]]]]]]]; reflexivity.
Defined.

(** ** The utility functions *)

(** *** extractPrompts *)

Lemma prompt_entry_readable shot i :
  defined shot = true -> defined (field shot "prompt") = true ->
  prompt_entry shot i = Normal (entry_of shot).
Proof.
  intros Hd Hp. unfold prompt_entry, entry_of.
  rewrite !(get_prop_defined _ _ Hd). cbn [bind].
  now rewrite !(get_prop_defined _ _ Hp).
Qed.

Lemma prompt_entry_unreadable shot i :
  defined (field shot "prompt") = false -> prompt_entry shot i = Throw TypeError.
Proof.
  intros Hp. unfold prompt_entry.
  destruct (defined shot) eqn:Hd.
  - rewrite !(get_prop_defined _ _ Hd). cbn [bind].
    now rewrite (get_prop_undefined _ _ Hp).
  - now rewrite (get_prop_undefined _ _ Hd).
Qed.

Lemma map_indexed_first_throw {A} (g : value -> nat -> completion A) (f : value -> A)
    i good bad rest e :
  (forall x j, In x good -> g x j = Normal (f x)) ->
  g bad (i + List.length good)%nat = Throw e ->
  map_indexed g i (good ++ bad :: rest) = Throw e.
Proof.
  revert i. induction good as [|x good IH]; intros i Hg Hb; cbn [app map_indexed].
  - rewrite Nat.add_0_r in Hb. now rewrite Hb.
  - rewrite (Hg x i (or_introl eq_refl)). cbn [bind].
    rewrite IH; [reflexivity | intros y j Hy; apply Hg; now right |].
    cbn [List.length] in Hb. now rewrite Nat.add_succ_r in Hb.
Qed.

(** X16.  On every architecture the validator accepts (its shots an
    array as JSON.parse builds it), extractPrompts returns one entry per
    shot, in order, with the shot's number, id, narrative beat, its
    non-empty [full_prompt] as [prompt], and its negative prompt, which is
    [null] (never [undefined]) when the shot has none. *)
Theorem prompts_of_validated p a shots :
  validateArchitecture p = Normal a ->
  field p "shots" = array shots ->
  extractPrompts a = Normal (array (map entry_of shots))
  /\ forall entry, In entry (map entry_of shots) ->
       truthy (field entry "prompt") = true
       /\ (field entry "negativePrompt" = VNull
           \/ truthy (field entry "negativePrompt") = true).
Proof.
  intros Hv Hp.
  destruct (validated_shots _ _ Hv) as (Hsame & shots' & own & Hs & _ & Hall).
  rewrite Hp in Hs. injection Hs as <- <-.
  destruct (validate_normal _ _ Hv) as (_ & Hoa & _).
  split.
  - unfold extractPrompts.
    rewrite (get_prop_defined _ _ (is_object_defined _ Hoa)), Hsame, Hp.
    cbn [bind array array_method lookup].
    rewrite (map_indexed_pure prompt_entry entry_of); [reflexivity|].
    intros shot j Hin. pose proof (forallb_In _ _ _ Hall Hin) as Hf.
    apply prompt_entry_readable; [now apply has_full_prompt_defined|].
    unfold has_full_prompt in Hf. apply andb_true_iff in Hf as [Hf _].
    now apply truthy_defined.
  - intros entry Hin. apply in_map_iff in Hin as (shot & <- & Hin).
    pose proof (forallb_In _ _ _ Hall Hin) as Hf.
    unfold has_full_prompt in Hf. apply andb_true_iff in Hf as [_ Hf].
    split; [exact Hf|].
    unfold entry_of, field at 1 3. cbn [get_prop lookup String.eqb Ascii.eqb Bool.eqb or_undefined].
    unfold js_or.
    destruct (truthy (field (field shot "prompt") "negative_prompt")) eqn:Hn; auto.
Qed.

(** The two-shot document. *)
Lemma prompts_of_validated_witness :
  extractPrompts (validated doc_two_shots)
  = Normal (array [VObj [("shotNumber", VNum 1); ("shotId", VStr "s1");
                         ("narrativeBeat", VStr "establish the kitchen");
                         ("prompt", VStr "A kettle on a stove");
                         ("negativePrompt", VNull)];
                   VObj [("shotNumber", VNum 2); ("shotId", VStr "s2");
                         ("narrativeBeat", VStr "the reveal");
                         ("prompt", VStr "Steam rising");
                         ("negativePrompt", VStr "blurry")]]).
Proof.
  refine (proj1 (prompts_of_validated (parsed doc_two_shots) (validated doc_two_shots)
                   [VObj [("shot_number", VNum 1); ("shot_id", VStr "s1");
                          ("narrative_beat", VStr "establish the kitchen");
                          ("prompt", VObj [("full_prompt", VStr "A kettle on a stove")])];
                    VObj [("shot_number", VNum 2); ("shot_id", VStr "s2");
                          ("narrative_beat", VStr "the reveal");
                          ("prompt", VObj [("full_prompt", VStr "Steam rising");
                                           ("negative_prompt", VStr "blurry")])]]
                   _ _)); vm_compute; reflexivity.
Defined.

(** X17.  extractPrompts does not check what it reads: on an architecture
    that was not validated, the first shot without a [prompt] object (or
    that is itself [null]) makes it throw a TypeError, and no entry is
    returned for the shots before it. *)
Theorem prompts_need_a_prompt_object a good bad rest :
  defined a = true ->
  field a "shots" = array (good ++ bad :: rest) ->
  forallb has_full_prompt good = true ->
  defined (field bad "prompt") = false ->
  extractPrompts a = Throw TypeError.
Proof.
  intros Hd Hs Hgood Hbad. unfold extractPrompts.
  rewrite (get_prop_defined _ _ Hd), Hs. cbn [bind array array_method lookup].
  rewrite (map_indexed_first_throw prompt_entry entry_of 0 good bad rest TypeError);
    [reflexivity | | now apply prompt_entry_unreadable].
  intros shot j Hin. pose proof (forallb_In _ _ _ Hgood Hin) as Hf.
  apply prompt_entry_readable; [now apply has_full_prompt_defined|].
  unfold has_full_prompt in Hf. apply andb_true_iff in Hf as [Hf _].
  now apply truthy_defined.
Qed.

(** A second shot without a prompt. *)
Lemma prompts_need_a_prompt_object_witness :
  extractPrompts
    (VObj [("shots",
            array [VObj [("shot_number", VNum 1);
                         ("prompt", VObj [("full_prompt", VStr "A kettle on a stove")])];
                   VObj [("shot_number", VNum 2)]])])
  = Throw TypeError.
Proof.
  exact (prompts_need_a_prompt_object
           (VObj [("shots",
                   array [VObj [("shot_number", VNum 1);
                                ("prompt", VObj [("full_prompt", VStr "A kettle on a stove")])];
                          VObj [("shot_number", VNum 2)]])])
           [VObj [("shot_number", VNum 1);
                  ("prompt", VObj [("full_prompt", VStr "A kettle on a stove")])]]
           (VObj [("shot_number", VNum 2)]) [] eq_refl eq_refl eq_refl eq_refl).
Defined.

(** *** translateTone *)

Lemma lower_no_capital c : Case.capital (Case.lower c) = false.
Proof. destruct c as [[] [] [] [] [] [] [] []]; reflexivity. Qed.

Lemma toLowerCase_no_capital s : Case.has_capital (Case.toLowerCase s) = false.
Proof.
  induction s as [|c s IH]; cbn [Case.toLowerCase Case.has_capital]; [reflexivity|].
  now rewrite lower_no_capital, IH.
Qed.

Lemma trim_start_no_capital s :
  Case.has_capital s = false -> Case.has_capital (Str.trim_start s) = false.
Proof.
  induction s as [|c s IH]; [reflexivity|]. intros Hs. cbn [Str.trim_start].
  destruct (Str.is_space c); [|exact Hs].
  cbn [Case.has_capital] in Hs. apply orb_false_iff in Hs as [_ Hs]. now apply IH.
Qed.

Lemma trim_end_no_capital s :
  Case.has_capital s = false -> Case.has_capital (Str.trim_end s) = false.
Proof.
  induction s as [|c s IH]; [reflexivity|]. intros Hs.
  cbn [Case.has_capital] in Hs. apply orb_false_iff in Hs as [Hc Hs].
  specialize (IH Hs). cbn [Str.trim_end].
  destruct (Str.trim_end s) as [|c' s'].
  - destruct (Str.is_space c); [reflexivity|]. cbn [Case.has_capital]. now rewrite Hc.
  - cbn [Case.has_capital] in *. now rewrite Hc, IH.
Qed.

(** A normalized tone holds no capital letter. *)
Lemma normalized_no_capital tone :
  Case.has_capital (Str.trim (Case.toLowerCase tone)) = false.
Proof.
  unfold Str.trim. apply trim_end_no_capital, trim_start_no_capital, toLowerCase_no_capital.
Qed.

Lemma translation_not_empty k text :
  own_translation k TONE_TRANSLATIONS = Some text -> (text =? "") = false.
Proof.
  unfold TONE_TRANSLATIONS. cbn [own_translation].
  repeat (destruct (_ =? k); [intros [= <-]; reflexivity|]). discriminate.
Qed.

(** A text of the table is no tone of the table. *)
Lemma translation_is_final k text :
  own_translation k TONE_TRANSLATIONS = Some text ->
  translateTone (VStr text) = Normal (Text text).
Proof.
  unfold TONE_TRANSLATIONS. cbn [own_translation].
  repeat (destruct (_ =? k); [intros [= <-]; vm_compute; reflexivity|]). discriminate.
Qed.

(** X18.  translateTone goes by the tone in lower case and trimmed: a
    tone of the table gives the table's text; a tone that normalizes to
    [constructor] or [__proto__] gives the member the table inherits
    under that name, which is no text; every other tone comes back
    exactly as it was given, case and surrounding spaces included.  A
    tone that is not a string throws a TypeError. *)
Theorem tone_translation_by_normal_form tone :
  let normalized := Str.trim (Case.toLowerCase tone) in
  (forall text,
      own_translation normalized TONE_TRANSLATIONS = Some text ->
      translateTone (VStr tone) = Normal (Text text))
  /\ (normalized = "constructor" \/ normalized = "__proto__" ->
      translateTone (VStr tone) = Normal (Inherited normalized))
  /\ (own_translation normalized TONE_TRANSLATIONS = None ->
      normalized <> "constructor" -> normalized <> "__proto__" ->
      translateTone (VStr tone) = Normal (Text tone))
  /\ (forall v, is_string v = false -> translateTone v = Throw TypeError).
Proof.
  intros normalized. pose proof (normalized_no_capital tone) as Hcap.
  fold normalized in Hcap. unfold translateTone. fold normalized.
  split; [|split; [|split]].
  - intros text Ht. now rewrite Ht, (translation_not_empty _ _ Ht).
  - intros [Hn|Hn]; rewrite Hn; reflexivity.
  - intros Hnone H1 H2. rewrite Hnone.
    destruct (existsb (String.eqb normalized) Object_prototype) eqn:Ee; [|reflexivity].
    apply existsb_exists in Ee as (name & Hin & He). apply String.eqb_eq in He. subst name.
    cbn in Hin.
    repeat (destruct Hin as [Hin|Hin];
            [try congruence; rewrite <- Hin in Hcap; discriminate|]).
    destruct Hin.
  - intros v Hv. destruct v; try reflexivity. discriminate.
Qed.

(** X19.  translateTone is idempotent on texts: translating a
    translation changes nothing. *)
Theorem tone_translation_is_idempotent tone text :
  translateTone (VStr tone) = Normal (Text text) ->
  translateTone (VStr text) = Normal (Text text).
Proof.
  intros Ht. pose proof Ht as Ht'. unfold translateTone in Ht'.
  destruct (own_translation (Str.trim (Case.toLowerCase tone)) TONE_TRANSLATIONS)
    as [t|] eqn:Eo.
  - rewrite (translation_not_empty _ _ Eo) in Ht'. injection Ht' as <-.
    exact (translation_is_final _ _ Eo).
  - destruct (existsb _ Object_prototype); [discriminate|].
    injection Ht' as <-. exact Ht.
Qed.

(** " Warm " is translated, and its translation is left alone. *)
Lemma tone_translation_is_idempotent_witness :
  translateTone (VStr " Warm ")
  = Normal (Text "golden hour lighting, tungsten color temperature, soft shadows, earth tone palette")
  /\ translateTone
       (VStr "golden hour lighting, tungsten color temperature, soft shadows, earth tone palette")
     = Normal (Text "golden hour lighting, tungsten color temperature, soft shadows, earth tone palette").
Proof.
  assert (Ht : translateTone (VStr " Warm ")
               = Normal (Text "golden hour lighting, tungsten color temperature, soft shadows, earth tone palette"))
    by (vm_compute; reflexivity).
  split; [exact Ht|].
  exact (tone_translation_is_idempotent _ _ Ht).
Defined.

(** *** suggestFilmGrammar *)

Lemma toLowerCase_append s t :
  Case.toLowerCase (s ++ t) = Case.toLowerCase s ++ Case.toLowerCase t.
Proof. induction s as [|c s IH]; cbn; [reflexivity | now rewrite IH]. Qed.

Lemma includes_prefix s pat : prefix pat s = true -> Str.includes s pat = true.
Proof. intros Hp. destruct s; cbn [Str.includes]; now rewrite Hp. Qed.

Lemma includes_middle before pat after : Str.includes (before ++ pat ++ after) pat = true.
Proof.
  induction before as [|c before IH].
  - change ("" ++ pat ++ after) with (pat ++ after).
    apply includes_prefix, prefix_append.
  - cbn [append Str.includes]. rewrite IH. apply orb_true_r.
Qed.

(** X20.  A narrative beat that holds [establish], [intro] or [open], in
    any case and anywhere, also inside a longer word and whatever other
    keywords it holds, gets the wide establishing shot. *)
Theorem establishing_keyword_wins before word after :
  In (Case.toLowerCase word) ["establish"; "intro"; "open"] ->
  suggestFilmGrammar (VStr (before ++ word ++ after)) = Normal wide_suggestion.
Proof.
  intros Hw. unfold suggestFilmGrammar. rewrite !toLowerCase_append.
  pose proof (includes_middle (Case.toLowerCase before) (Case.toLowerCase word)
                (Case.toLowerCase after)) as Hi.
  cbn in Hw. destruct Hw as [Hw|[Hw|[Hw|[]]]]; rewrite <- Hw in Hi; rewrite <- Hw;
    rewrite Hi; rewrite ?orb_true_r; reflexivity.
Qed.

(** "The grand REOPENING at the end": [open] inside a word, in capitals,
    wins over [end]. *)
Lemma establishing_keyword_wins_witness :
  suggestFilmGrammar (VStr "The grand REOPENING at the end") = Normal wide_suggestion.
Proof.
  exact (establishing_keyword_wins "The grand RE" "OPEN" "ING at the end"
           (or_intror (or_intror (or_introl eq_refl)))).
Defined.

(** X21.  suggestFilmGrammar falls back to its default, the medium shot,
    exactly when the beat, in lower case, holds none of its sixteen
    keywords. *)
Theorem default_grammar_iff_no_keyword beat :
  suggestFilmGrammar (VStr beat) = Normal default_suggestion
  <-> forallb (fun keyword => negb (Str.includes (Case.toLowerCase beat) keyword))
        grammar_keywords = true.
Proof.
  unfold suggestFilmGrammar, grammar_keywords, default_suggestion, suggestion.
  cbn [forallb].
  repeat match goal with
         | |- context [Str.includes ?b ?k] =>
             destruct (Str.includes b k); cbn [orb negb andb];
             [split; intros; discriminate|]
         end.
  split; reflexivity.
Qed.

(** ** The generation endpoint *)

Lemma settled_outcome x0 x :
  Api.settled x0 x ->
  Api.sent x0 = None -> Api.thrown x0 = None ->
  Api.headers x = Api.headers x0
  /\ Api.requests x = Api.requests x0
  /\ Api.sent x <> Some None
  /\ (Api.thrown x = None ->
      In (Api.statusCode x) Api.status_codes /\ exists body, Api.sent x = Some (Some body))
  /\ (Api.thrown x <> None -> Api.sent x = None).
Proof.
  intros Hs Hsent Hthrown.
  destruct Hs; cbn; rewrite ?Hsent;
    repeat split; try congruence; try discriminate; eauto; cbn in *; intuition.
Qed.

Lemma settled_code x0 x :
  Api.settled x0 x -> Api.statusCode x0 = 200%nat -> Api.statusCode x <> 405%nat.
Proof.
  intros Hs H0. destruct Hs; cbn in *; intuition lia.
Qed.

Section Endpoint.
Context `{Host}.
Variable create : value -> value + value.
Variable native_message : value -> string.

Lemma post_is_not_options method :
  is_str method "POST" = true -> is_str method "OPTIONS" = false.
Proof.
  destruct method; try discriminate. cbn [is_str]. intros Hs.
  apply String.eqb_eq in Hs. now subst.
Qed.

Lemma recover_settled req error x0 :
  Api.settled x0 (Api.recover native_message req error x0).
Proof.
  unfold Api.recover.
  destruct (Api.status_of error) as [status|e]; [|apply Api.settled_rejected].
  destruct (Api.is_status status 401); [apply Api.settled_logged; cbn; auto|].
  destruct (Api.is_status status 429); [apply Api.settled_logged; cbn; auto|].
  destruct (Api.message_of native_message req error) as [details|e];
    [apply Api.settled_logged; cbn; auto | apply Api.settled_rejected].
Qed.

End Endpoint.

(** X22.  The answer is 405 "Method not allowed" exactly when the method
    of the request is not POST.  It is given before the CORS headers are
    set and without a call of the model; an OPTIONS request gets it too,
    so that the branch answering OPTIONS with 200 is never reached. *)
Theorem other_methods_get_405 `{Host} create native_message req method :
  get_prop req "method" = Normal method ->
  (is_str method "POST" = false ->
   Api.handler create native_message req
   = {| Api.statusCode := 405;
        Api.headers := [];
        Api.sent := Some (Some (VObj [("error", VStr "Method not allowed")]));
        Api.requests := [];
        Api.logged := [];
        Api.thrown := None |})
  /\ (is_str method "POST" = true ->
      Api.statusCode (Api.handler create native_message req) <> 405%nat).
Proof.
  intros Hm. unfold Api.handler. rewrite Hm. split; intros Hp; rewrite Hp; [reflexivity|].
  rewrite (post_is_not_options _ Hp). cbn [negb].
  destruct (Api.request_of req) as [[request|]|e].
  - destruct (create request) as [message|error].
    + destruct (Api.success_body message) as [body|e]; [cbn; lia|].
      apply (settled_code (Api.calling request (Api.cors Api.initial)));
        [apply recover_settled | reflexivity].
    + apply (settled_code (Api.calling request (Api.cors Api.initial)));
        [apply recover_settled | reflexivity].
  - cbn. lia.
  - apply (settled_code (Api.cors Api.initial)); [apply recover_settled | reflexivity].
Qed.

(** An OPTIONS request. *)
Lemma other_methods_get_405_witness :
  Api.handler (H := browser "") (Api.resolving Api.message_example) (fun _ => "")
    (VObj [("method", VStr "OPTIONS")])
  = {| Api.statusCode := 405;
       Api.headers := [];
       Api.sent := Some (Some (VObj [("error", VStr "Method not allowed")]));
       Api.requests := [];
       Api.logged := [];
       Api.thrown := None |}.
Proof.
  exact (proj1 (other_methods_get_405 (H := browser "") _ _
                  (VObj [("method", VStr "OPTIONS")]) (VStr "OPTIONS") eq_refl)
           eq_refl).
Defined.

(** X23.  Whatever the request and whatever the client does, a run of the
    handler either rejects without having sent anything, or sends exactly
    one JSON body with one of the status codes 200, 400, 401, 405, 429 and
    500; it never ends a response without a body; it calls the model at
    most once; and it sets the three CORS headers on every answer but the
    405. *)
Theorem handler_outcomes `{Host} create native_message req :
  let x := Api.handler create native_message req in
  Api.sent x <> Some None
  /\ (Api.thrown x = None ->
      In (Api.statusCode x) Api.status_codes /\ exists body, Api.sent x = Some (Some body))
  /\ (Api.thrown x <> None -> Api.sent x = None)
  /\ (List.length (Api.requests x) <= 1)%nat
  /\ (Api.thrown x = None -> Api.statusCode x <> 405%nat ->
      Api.headers x = Api.headers (Api.cors Api.initial)).
Proof.
  cbn zeta. unfold Api.handler.
  destruct (get_prop req "method") as [method|e].
  2:{ cbn; repeat split; try congruence; try lia; try discriminate. }
  destruct (is_str method "POST") eqn:Hp; cbn [negb].
  2:{ cbn; repeat split; try congruence; try lia; try discriminate; eauto;
      intuition. }
  rewrite (post_is_not_options _ Hp).
  assert (Hgo : forall x0 x,
            Api.settled x0 x -> Api.sent x0 = None -> Api.thrown x0 = None ->
            Api.headers x0 = Api.headers (Api.cors Api.initial) ->
            (List.length (Api.requests x0) <= 1)%nat ->
            Api.sent x <> Some None
            /\ (Api.thrown x = None ->
                In (Api.statusCode x) Api.status_codes
                /\ exists body, Api.sent x = Some (Some body))
            /\ (Api.thrown x <> None -> Api.sent x = None)
            /\ (List.length (Api.requests x) <= 1)%nat
            /\ (Api.thrown x = None -> Api.statusCode x <> 405%nat ->
                Api.headers x = Api.headers (Api.cors Api.initial))).
  { intros x0 x Hs H1 H2 H3 H4.
    destruct (settled_outcome _ _ Hs H1 H2) as (Hh & Hr & Hn & Hok & Hko).
    repeat split; try assumption; try (now apply Hok); try congruence. }
  destruct (Api.request_of req) as [[request|]|e].
  - destruct (create request) as [message|error].
    + destruct (Api.success_body message) as [body|e].
      * apply (Hgo (Api.calling request (Api.cors Api.initial)));
          try reflexivity; try (cbn; lia).
        apply Api.settled_respond. cbn. auto.
      * apply (Hgo (Api.calling request (Api.cors Api.initial)));
          try reflexivity; try (cbn; lia).
        apply recover_settled.
    + apply (Hgo (Api.calling request (Api.cors Api.initial)));
        try reflexivity; try (cbn; lia).
      apply recover_settled.
  - apply (Hgo (Api.cors Api.initial)); try reflexivity; try (cbn; lia).
    apply Api.settled_respond. cbn. auto.
  - apply (Hgo (Api.cors Api.initial)); try reflexivity; try (cbn; lia).
    apply recover_settled.
Qed.

Section Requests.
Context `{Host}.
Variable create : value -> value + value.
Variable native_message : value -> string.

Lemma request_of_readable req :
  defined req = true ->
  defined (field req "body") = true ->
  Api.request_of req
  = Normal (if truthy (field (field req "body") "prompt")
            then Some (Api.request_for (field req "body"))
            else None).
Proof.
  intros Hr Hb. unfold Api.request_of, Api.request_for.
  rewrite (get_prop_defined _ _ Hr). cbn [bind].
  rewrite !(get_prop_defined _ _ Hb), (destructure_defined _ _ _ Hb). cbn [bind].
  now destruct (truthy (field (field req "body") "prompt")).
Qed.

Lemma request_of_unreadable req :
  defined req = true ->
  defined (field req "body") = false ->
  Api.request_of req = Throw TypeError.
Proof.
  intros Hr Hb. unfold Api.request_of.
  rewrite (get_prop_defined _ _ Hr). cbn [bind].
  now rewrite (get_prop_undefined _ _ Hb).
Qed.

Lemma post_method req :
  defined req = true -> is_str (field req "method") "POST" = true ->
  exists method,
    get_prop req "method" = Normal method
    /\ is_str method "POST" = true /\ is_str method "OPTIONS" = false.
Proof.
  intros Hr Hp. exists (field req "method").
  split; [now apply get_prop_defined|]. split; [exact Hp | now apply post_is_not_options].
Qed.

Lemma is_text_defined block :
  defined block = true -> Api.is_text block = Normal (Api.text_block block).
Proof.
  intros Hd. unfold Api.is_text, Api.text_block. now rewrite (get_prop_defined _ _ Hd).
Qed.

(** The content of a message whose text blocks hold strings. *)
Lemma content_of_blocks message blocks :
  defined message = true ->
  field message "content" = array blocks ->
  forallb defined blocks = true ->
  forallb (fun block => negb (Api.text_block block) || is_string (Api.text_of block)) blocks
  = true ->
  Api.content_of message
  = Normal (Str.join nl (map Api.text_string (filter Api.text_block blocks))).
Proof.
  intros Hm Hc Hd Ht. unfold Api.content_of.
  rewrite (get_prop_defined _ _ Hm), Hc. cbn [bind array array_method lookup].
  rewrite (filter_by_pure Api.is_text Api.text_block)
    by (intros b Hb; apply is_text_defined; now apply (forallb_In _ _ _ Hd)).
  cbn [bind].
  rewrite (map_indexed_pure (fun block _ => get_prop block "text") Api.text_of)
    by (intros b j Hb; apply get_prop_defined; now apply (filter_defined Api.text_block blocks)).
  cbn [bind]. unfold join_with.
  rewrite (map_indexed_pure _ (fun v => match v with
                                        | VStr s => s
                                        | _ => ""
                                        end)).
  - cbn [bind]. rewrite map_map. reflexivity.
  - intros v j Hv. apply in_map_iff in Hv as (b & <- & Hb).
    apply filter_In in Hb as [Hb Hbt].
    pose proof (forallb_In _ _ _ Ht Hb) as Hs. cbn beta in Hs.
    rewrite Hbt in Hs. cbn [negb orb] in Hs.
    apply is_string_inv in Hs as [s ->]. reflexivity.
Qed.

End Requests.

(** X24.  A POST whose body holds no prompt (none, or a falsy one such
    as the empty string) is answered 400 "Missing prompt in request
    body", with the CORS headers, and the model is not called. *)
Theorem missing_prompt_gets_400 `{Host} create native_message req :
  defined req = true ->
  is_str (field req "method") "POST" = true ->
  defined (field req "body") = true ->
  truthy (field (field req "body") "prompt") = false ->
  Api.handler create native_message req
  = {| Api.statusCode := 400;
       Api.headers := Api.cors_headers;
       Api.sent := Some (Some (VObj [("error", VStr "Missing prompt in request body")]));
       Api.requests := [];
       Api.logged := [];
       Api.thrown := None |}.
Proof.
  intros Hr Hp Hb Hprompt.
  destruct (post_method req Hr Hp) as (method & Hm & Hpost & Hopt).
  unfold Api.handler. rewrite Hm, Hpost, Hopt. cbn [negb].
  now rewrite (request_of_readable req Hr Hb), Hprompt.
Qed.

(** A POST with an empty prompt. *)
Lemma missing_prompt_gets_400_witness :
  Api.handler (H := browser "") (Api.resolving Api.message_example) (fun _ => "")
    (Api.post (VObj [("prompt", VStr "")]))
  = {| Api.statusCode := 400;
       Api.headers := Api.cors_headers;
       Api.sent := Some (Some (VObj [("error", VStr "Missing prompt in request body")]));
       Api.requests := [];
       Api.logged := [];
       Api.thrown := None |}.
Proof.
  exact (missing_prompt_gets_400 (H := browser "") _ _ (Api.post (VObj [("prompt", VStr "")]))
           eq_refl eq_refl eq_refl eq_refl).
Defined.

(** X25.  A POST without a body ([req.body] undefined or [null]) is not
    answered 400: the destructuring throws inside the [try], the TypeError
    is logged, and the answer is 500 "Failed to generate response" with
    the TypeError's message as details; the model is not called. *)
Theorem missing_body_gets_500 `{Host} create native_message req :
  defined req = true ->
  is_str (field req "method") "POST" = true ->
  defined (field req "body") = false ->
  Api.handler create native_message req
  = {| Api.statusCode := 500;
       Api.headers := Api.cors_headers;
       Api.sent := Some (Some (VObj [("error", VStr "Failed to generate response");
                                     ("details", VStr (native_message req))]));
       Api.requests := [];
       Api.logged := [Api.Native TypeError];
       Api.thrown := None |}.
Proof.
  intros Hr Hp Hb.
  destruct (post_method req Hr Hp) as (method & Hm & Hpost & Hopt).
  unfold Api.handler. rewrite Hm, Hpost, Hopt. cbn [negb].
  now rewrite (request_of_unreadable req Hr Hb).
Qed.

(** A POST without a body. *)
Lemma missing_body_gets_500_witness :
  Api.handler (H := browser "") (Api.resolving Api.message_example)
    (fun _ => "Cannot destructure")
    (VObj [("method", VStr "POST")])
  = {| Api.statusCode := 500;
       Api.headers := Api.cors_headers;
       Api.sent := Some (Some (VObj [("error", VStr "Failed to generate response");
                                     ("details", VStr "Cannot destructure")]));
       Api.requests := [];
       Api.logged := [Api.Native TypeError];
       Api.thrown := None |}.
Proof.
  exact (missing_body_gets_500 (H := browser "") _ (fun _ => "Cannot destructure")
           (VObj [("method", VStr "POST")]) eq_refl eq_refl eq_refl).
Defined.

(** X26.  A POST with a prompt calls the model once, with the fixed model
    name, the prompt as the one user message, [max_tokens] 8000 unless
    the body gives one and an empty system prompt unless the body gives a
    truthy one.  When the call resolves with a message whose content is
    an array of blocks, the answer is 200 with, as [content], the texts of
    the blocks of type [text], in order, joined by line feeds (blocks of
    other types are dropped), and with the message's [usage] and [model]. *)
Theorem prompt_gets_the_text_blocks `{Host} create native_message req message blocks :
  defined req = true ->
  is_str (field req "method") "POST" = true ->
  defined (field req "body") = true ->
  truthy (field (field req "body") "prompt") = true ->
  create (Api.request_for (field req "body")) = inl message ->
  defined message = true ->
  field message "content" = array blocks ->
  forallb defined blocks = true ->
  forallb (fun block => negb (Api.text_block block) || is_string (Api.text_of block)) blocks
  = true ->
  Api.handler create native_message req
  = {| Api.statusCode := 200;
       Api.headers := Api.cors_headers;
       Api.sent :=
         Some (Some (VObj [("content",
                            VStr (Str.join nl
                                    (map Api.text_string (filter Api.text_block blocks))));
                           ("usage", field message "usage");
                           ("model", field message "model")]));
       Api.requests := [Api.request_for (field req "body")];
       Api.logged := [];
       Api.thrown := None |}.
Proof.
  intros Hr Hp Hb Hprompt Hc Hm Hcontent Hd Ht.
  destruct (post_method req Hr Hp) as (method & Hmeth & Hpost & Hopt).
  unfold Api.handler. rewrite Hmeth, Hpost, Hopt. cbn [negb].
  rewrite (request_of_readable req Hr Hb), Hprompt, Hc.
  unfold Api.success_body.
  rewrite (content_of_blocks message blocks Hm Hcontent Hd Ht). cbn [bind].
  now rewrite !(get_prop_defined _ _ Hm).
Qed.

(** A prompt answered with two text blocks around a block of another
    type. *)
Lemma prompt_gets_the_text_blocks_witness :
  Api.handler (H := browser "") (Api.resolving Api.message_example) (fun _ => "")
    (Api.post (VObj [("prompt", VStr "A kettle ad")]))
  = {| Api.statusCode := 200;
       Api.headers := Api.cors_headers;
       Api.sent :=
         Some (Some (VObj [("content", VStr ("{'shots':" ++ nl ++ "[]}"));
                           ("usage", VObj [("output_tokens", VNum 12)]);
                           ("model", VStr "claude-sonnet-4-20250514")]));
       Api.requests :=
         [VObj [("model", VStr "claude-sonnet-4-20250514");
                ("max_tokens", VNum 8000);
                ("system", VStr "");
                ("messages",
                 array [VObj [("role", VStr "user"); ("content", VStr "A kettle ad")]])]];
       Api.logged := [];
       Api.thrown := None |}.
Proof.
  exact (prompt_gets_the_text_blocks (H := browser "") (Api.resolving Api.message_example)
           (fun _ => "") (Api.post (VObj [("prompt", VStr "A kettle ad")]))
           Api.message_example
           [VObj [("type", VStr "text"); ("text", VStr "{'shots':")];
            VObj [("type", VStr "tool_use"); ("name", VStr "lookup")];
            VObj [("type", VStr "text"); ("text", VStr "[]}")]]
           eq_refl eq_refl eq_refl eq_refl eq_refl eq_refl eq_refl eq_refl eq_refl).
Defined.

(** X27.  When the call of the model rejects with an error object, the
    error is logged and the answer goes by its [status]: 401 gives 401
    "Invalid API key", 429 gives 429 "Rate limit exceeded", and anything
    else, a missing status too, gives 500 "Failed to generate response"
    with the error's [message] as details. *)
Theorem provider_errors_are_mapped `{Host} create native_message req error :
  defined req = true ->
  is_str (field req "method") "POST" = true ->
  defined (field req "body") = true ->
  truthy (field (field req "body") "prompt") = true ->
  create (Api.request_for (field req "body")) = inr error ->
  defined error = true ->
  Api.handler create native_message req
  = {| Api.statusCode :=
         if Api.is_status (field error "status") 401 then 401
         else if Api.is_status (field error "status") 429 then 429
         else 500;
       Api.headers := Api.cors_headers;
       Api.sent :=
         Some (Some (if Api.is_status (field error "status") 401 then
                       VObj [("error", VStr "Invalid API key")]
                     else if Api.is_status (field error "status") 429 then
                       VObj [("error", VStr "Rate limit exceeded")]
                     else
                       VObj [("error", VStr "Failed to generate response");
                             ("details", field error "message")]));
       Api.requests := [Api.request_for (field req "body")];
       Api.logged := [Api.Rejection error];
       Api.thrown := None |}.
Proof.
  intros Hr Hp Hb Hprompt Hc He.
  destruct (post_method req Hr Hp) as (method & Hmeth & Hpost & Hopt).
  unfold Api.handler. rewrite Hmeth, Hpost, Hopt. cbn [negb].
  rewrite (request_of_readable req Hr Hb), Hprompt, Hc.
  unfold Api.recover, Api.status_of, Api.message_of.
  rewrite !(get_prop_defined _ _ He).
  destruct (Api.is_status (field error "status") 401); [reflexivity|].
  destruct (Api.is_status (field error "status") 429); reflexivity.
Qed.

(** A rate-limited call. *)
Lemma provider_errors_are_mapped_witness :
  Api.handler (H := browser "")
    (Api.failing_with (VObj [("status", VNum 429); ("message", VStr "slow down")]))
    (fun _ => "")
    (Api.post (VObj [("prompt", VStr "A kettle ad")]))
  = {| Api.statusCode := 429;
       Api.headers := Api.cors_headers;
       Api.sent := Some (Some (VObj [("error", VStr "Rate limit exceeded")]));
       Api.requests :=
         [VObj [("model", VStr "claude-sonnet-4-20250514");
                ("max_tokens", VNum 8000);
                ("system", VStr "");
                ("messages",
                 array [VObj [("role", VStr "user"); ("content", VStr "A kettle ad")]])]];
       Api.logged := [Api.Rejection (VObj [("status", VNum 429);
                                           ("message", VStr "slow down")])];
       Api.thrown := None |}.
Proof.
  exact (provider_errors_are_mapped (H := browser "")
           (Api.failing_with (VObj [("status", VNum 429); ("message", VStr "slow down")]))
           (fun _ => "") (Api.post (VObj [("prompt", VStr "A kettle ad")]))
           (VObj [("status", VNum 429); ("message", VStr "slow down")])
           eq_refl eq_refl eq_refl eq_refl eq_refl eq_refl).
Defined.

(** ** The summary of interpretations *)

Section Summaries.
Context `{Host}.
Variable bullet : string.

Lemma summary_of_none a :
  defined a = true ->
  truthy (field a "interpretations") = false
  \/ (exists own, field a "interpretations" = VArr [] own) ->
  summarizeInterpretations bullet a = Normal "No significant interpretations were made.".
Proof.
  intros Hd Hi. unfold summarizeInterpretations.
  rewrite !(get_prop_defined _ _ Hd). cbn [bind].
  destruct Hi as [Hf|[own Ha]].
  - now rewrite Hf.
  - rewrite Ha. reflexivity.
Qed.

Lemma join_texts texts :
  forallb is_string texts = true ->
  join_with ToString ", " texts = Normal (Str.join ", " (map string_of texts)).
Proof.
  intros Ht. unfold join_with.
  rewrite (map_indexed_pure _ string_of); [reflexivity|].
  intros v j Hv. apply (forallb_In _ _ _ Ht) in Hv.
  apply is_string_inv in Hv as [s ->]. reflexivity.
Qed.

Lemma alternatives_part_wf i :
  defined i = true ->
  opt (all_in is_string) (field i "alternatives") = true ->
  alternatives_part i
  = Normal match field i "alternatives" with
           | VArr alternatives _ =>
               if non_empty alternatives
               then " | Alternatives: " ++ Str.join ", " (map string_of alternatives)
               else ""
           | _ => ""
           end.
Proof.
  intros Hd Ha. unfold alternatives_part.
  rewrite !(get_prop_defined _ _ Hd). cbn [bind].
  apply opt_inv in Ha as [Ha|[Ha|Ha]].
  - now rewrite Ha.
  - now rewrite Ha.
  - apply all_in_inv in Ha as (alts & -> & Hs).
    cbn [truthy array get_prop String.eqb Ascii.eqb Bool.eqb bind js_gt ToNumber].
    fold (non_empty alts). destruct (non_empty alts); [|reflexivity].
    cbn [array array_method lookup bind]. rewrite (join_texts _ Hs).
    cbn [bind template ToString]. now rewrite append_empty.
Qed.

Lemma interpretation_block_wf i j :
  wf_summary_item i = true ->
  interpretation_block bullet i j = Normal (summary_block bullet i).
Proof.
  unfold wf_summary_item. intros Hw.
  apply andb_true_iff in Hw as [Hw Halt]. apply andb_true_iff in Hw as [Hw Hc].
  apply andb_true_iff in Hw as [Hw Hi]. apply andb_true_iff in Hw as [Hd He].
  unfold interpretation_block, summary_block.
  rewrite !(get_prop_defined _ _ Hd), (alternatives_part_wf i Hd Halt).
  apply is_string_inv in He as [element ->]. apply is_string_inv in Hi as [text ->].
  apply is_number_inv in Hc as [c ->].
  cbn [bind template ToString ToNumber string_of number_of].
  now rewrite !append_empty.
Qed.

End Summaries.

(** X28.  When the completion gave no interpretations, or an empty list
    of them, the summary of the validated architecture is the sentence
    "No significant interpretations were made." *)
Theorem summary_without_interpretations `{Host} bullet p a :
  validateArchitecture p = Normal a ->
  truthy (field p "interpretations") = false \/ field p "interpretations" = array [] ->
  summarizeInterpretations bullet a = Normal "No significant interpretations were made.".
Proof.
  intros Hv Hi.
  destruct (validate_normal _ _ Hv) as (_ & Hoa & _ & _ & _ & Hopt & _).
  apply summary_of_none; [now apply is_object_defined|].
  right. exists []. rewrite (Hopt "interpretations") by (cbn; auto).
  unfold js_or. destruct Hi as [Hf|Ha]; [now rewrite Hf | now rewrite Ha].
Qed.

(** The bare document has no interpretations. *)
Lemma summary_without_interpretations_witness :
  summarizeInterpretations (H := browser "") "*" (validated doc_bare)
  = Normal "No significant interpretations were made.".
Proof.
  exact (summary_without_interpretations (H := browser "") "*" (parsed doc_bare)
           (validated doc_bare) eq_refl (or_introl eq_refl)).
Defined.

(** X29.  For an architecture whose interpretations are an array of a
    length other than 0, each interpretation with texts for its element
    and interpretation, a number for its confidence and alternatives that
    are unset or an array of texts, the summary is one block per
    interpretation, in order, separated by blank lines; a block holds the
    element, the interpretation, the confidence times 100 rounded to the
    nearest integer as a percentage, and the alternatives joined by
    commas, which are left out when the interpretation has none. *)
Theorem summary_of_interpretations `{Host} bullet a items :
  defined a = true ->
  field a "interpretations" = array items ->
  is_zero (field (array items) "length") = false ->
  forallb wf_summary_item items = true ->
  summarizeInterpretations bullet a
  = Normal (Str.join (nl ++ nl) (map (summary_block bullet) items)).
Proof.
  intros Hd Hi Hz Hw. unfold summarizeInterpretations.
  rewrite !(get_prop_defined _ _ Hd), Hi.
  cbn [bind truthy negb].
  rewrite (get_prop_defined (array items) "length" eq_refl). cbn [bind].
  rewrite Hz. cbn [array array_method lookup bind].
  rewrite (map_indexed_pure _ (summary_block bullet)); [reflexivity|].
  intros i j Hin. apply interpretation_block_wf. now apply (forallb_In _ _ _ Hw).
Qed.

(** The three interpretations of the document with caveats. *)
Lemma summary_of_interpretations_witness :
  summarizeInterpretations (H := browser "") "*" (validated doc_caveats)
  = Normal (Str.join (nl ++ nl)
              ["* **tone**: cosy" ++ nl ++ "  _Confidence: 60% | Alternatives: brisk_";
               "* **setting**: kitchen" ++ nl ++ "  _Confidence: 90%_";
               "* **time**: morning" ++ nl ++ "  _Confidence: 20%_"]).
Proof.
  exact (summary_of_interpretations (H := browser "") "*" (validated doc_caveats)
           [VObj [("element", VStr "tone"); ("interpretation", VStr "cosy");
                  ("confidence", VNum 0.6); ("alternatives", array [VStr "brisk"])];
            VObj [("element", VStr "setting"); ("interpretation", VStr "kitchen");
                  ("confidence", VNum 0.9)];
            VObj [("element", VStr "time"); ("interpretation", VStr "morning");
                  ("confidence", VNum 0.2)]]
           eq_refl eq_refl eq_refl eq_refl).
Defined.
